(** * predict.py: a shallow embedding and its verified properties

    The script is a straight line of library calls: import the
    dependencies, locate and unpickle the model, read two positional
    arguments, build a one-row feature frame, call [model.predict] and print
    a JSON document.  Everything outside the script (the interpreter, the
    installed packages, the file system, the command line) is gathered in
    a record [World]; the script itself is the function [main], which maps
    a world to what the process leaves behind: its two output streams, its
    exit status and the calls it made to the model.

    The libraries are modelled as far as the script observes them:
    [json.dumps] and [os.path] in full, [hash] and the calendar of
    [pd.to_datetime] by the algorithms of CPython and numpy, and the rest
    of pandas, [pickle.load] and [model.predict] by the results they can
    hand back: a value, an exception that derives from [Exception], or
    one that does not ([SystemExit], [KeyboardInterrupt]).  What library
    calls write to stderr on the way (warnings, log lines) is part of the
    world; [main] gives what the script's own statements and the
    interpreter's exit handling write, [process] what the two streams
    hold at the end.  Library calls are taken to write nothing to stdout,
    and paths are POSIX paths. *)

From Stdlib Require Import ZArith NArith List String Ascii Bool Lia.
Import ListNotations.
Local Open Scope string_scope.
Local Open Scope Z_scope.

(** ** Python strings and output text

    A Python [str] is a sequence of code points.  Text written to a stream
    is kept as a Rocq [string]; everything the script prints is ASCII
    because [json.dumps] runs with its default [ensure_ascii=True]. *)

Definition codepoint := N.
Definition PyStr := list codepoint.

Definition py (s : string) : PyStr :=
  List.map N_of_ascii (list_ascii_of_string s).

Definition newline : string := String (ascii_of_N 10) "".

(** [print(x, file=f)] writes [x] followed by a newline. *)
Definition py_print (s : string) : string := s ++ newline.

Fixpoint repeat_char (c : ascii) (n : nat) : string :=
  match n with
  | O => ""
  | S k => String c (repeat_char c k)
  end.

(** ** Decimal and hexadecimal digits *)

Definition digit_char (d : N) : ascii := ascii_of_N (48 + d mod 10).

Definition hex_char (d : N) : ascii :=
  let d := (d mod 16)%N in
  if (d <? 10)%N then ascii_of_N (48 + d) else ascii_of_N (87 + d).

(** ['{0:04x}'.format(n)] for [n < 0x10000]. *)
Definition hex4 (n : N) : string :=
  String (hex_char (n / 4096))
    (String (hex_char (n / 256))
       (String (hex_char (n / 16))
          (String (hex_char n) ""))).

(** Decimal digits of a natural number, most significant first, without
    leading zeros ([int.__repr__] on a non-negative [int]). *)
Fixpoint dec_digits_fuel (fuel : nat) (n : N) (acc : string) : string :=
  match fuel with
  | O => acc
  | S f =>
      let acc' := String (digit_char n) acc in
      if (n / 10 =? 0)%N then acc' else dec_digits_fuel f (n / 10)%N acc'
  end.

Definition dec_of_N (n : N) : string :=
  dec_digits_fuel (S (N.to_nat (N.log2 n))) n "".

Definition int_repr (z : Z) : string :=
  if z <? 0 then String "-" (dec_of_N (Z.to_N (- z))) else dec_of_N (Z.to_N z).

(** ** Floats as [float.__repr__] sees them

    The script never computes with floats: it receives them from the model
    and prints them.  A finite binary64 value is identified by the shortest
    decimal expansion that round-trips, which is what [repr] prints:
    sign, digits [d1 d2 ... dn] and the position [decpt] of the decimal
    point, standing for [0.d1d2...dn * 10^decpt]. *)

Inductive PyFloat :=
| FFinite (neg : bool) (d1 : N) (ds : list N) (decpt : Z)
| FInf (neg : bool)
| FNaN.

Fixpoint digits_str (ds : list N) : string :=
  match ds with
  | [] => ""
  | d :: r => String (digit_char d) (digits_str r)
  end.

Definition sign_str (neg : bool) : string := if neg then "-" else "".

(** [printf("%+.02d", e)]: a sign and at least two digits. *)
Definition exp_str (e : Z) : string :=
  let a := Z.to_N (Z.abs e) in
  String (if e <? 0 then "-"%char else "+"%char)
    (if (a <? 10)%N then String "0" (dec_of_N a) else dec_of_N a).

(** [float.__repr__] on a finite float (CPython, format code ['r'] with
    [Py_DTSF_ADD_DOT_0]): scientific notation when [decpt <= -4] or
    [decpt > 16], positional notation with at least one fractional digit
    otherwise. *)
Definition float_repr_finite (neg : bool) (d1 : N) (ds : list N) (decpt : Z) : string :=
  let n := Z.of_nat (S (List.length ds)) in
  let all := d1 :: ds in
  sign_str neg ++
  (if (decpt <=? -4) || (16 <? decpt) then
     String (digit_char d1)
       (match ds with
        | [] => ""
        | _ => String "." (digits_str ds)
        end) ++ String "e" (exp_str (decpt - 1))
   else if decpt <=? 0 then
     "0." ++ repeat_char "0" (Z.to_nat (- decpt)) ++ digits_str all
   else if decpt <? n then
     digits_str (firstn (Z.to_nat decpt) all) ++
     String "." (digits_str (skipn (Z.to_nat decpt) all))
   else
     digits_str all ++ repeat_char "0" (Z.to_nat (decpt - n)) ++ ".0").

(** [json.encoder.floatstr] with the default [allow_nan=True]. *)
Definition floatstr (f : PyFloat) : string :=
  match f with
  | FNaN => "NaN"
  | FInf false => "Infinity"
  | FInf true => "-Infinity"
  | FFinite neg d1 ds decpt => float_repr_finite neg d1 ds decpt
  end.

(** ** JSON serialisation: [json.dumps] with its defaults *)

#[warning="-register-all"]
Inductive PyVal :=
| VStr (s : PyStr)
| VInt (z : Z)
| VFloat (f : PyFloat)
| VList (l : list PyVal)
| VDict (kvs : list (PyStr * PyVal)).

(** [json.encoder.py_encode_basestring_ascii]: printable ASCII other than
    the quote and the backslash is copied; the backslash, the quote and
    the characters 8, 9, 10, 12 and 13 get their two-character escapes;
    every other code point becomes a [u]-escape of four hexadecimal digits,
    as a surrogate pair above the basic plane. *)
Definition escape_codepoint (c : codepoint) : string :=
  if (c =? 92)%N then "\\"
  else if (c =? 34)%N then String "\" (String (ascii_of_N 34) "")
  else if (c =? 8)%N then "\b"
  else if (c =? 12)%N then "\f"
  else if (c =? 10)%N then "\n"
  else if (c =? 13)%N then "\r"
  else if (c =? 9)%N then "\t"
  else if (32 <=? c)%N && (c <=? 126)%N then String (ascii_of_N c) ""
  else if (c <? 65536)%N then "\u" ++ hex4 c
  else
    let n := (c - 65536)%N in
    let s1 := N.lor 55296 (N.land (N.shiftr n 10) 1023) in
    let s2 := N.lor 56320 (N.land n 1023) in
    "\u" ++ hex4 s1 ++ "\u" ++ hex4 s2.

Fixpoint escape_body (s : PyStr) : string :=
  match s with
  | [] => ""
  | c :: r => escape_codepoint c ++ escape_body r
  end.

Definition quote : string := String (ascii_of_N 34) "".

Definition encode_basestring_ascii (s : PyStr) : string :=
  quote ++ escape_body s ++ quote.

(** [', '.join(parts)] *)
Fixpoint join_comma (parts : list string) : string :=
  match parts with
  | [] => ""
  | [p] => p
  | p :: r => p ++ ", " ++ join_comma r
  end.

Fixpoint json_dumps (v : PyVal) : string :=
  match v with
  | VStr s => encode_basestring_ascii s
  | VInt z => int_repr z
  | VFloat f => floatstr f
  | VList l => "[" ++ join_comma (List.map json_dumps l) ++ "]"
  | VDict kvs =>
      "{" ++ join_comma
               (List.map (fun kv => encode_basestring_ascii (fst kv) ++ ": " ++ json_dumps (snd kv)) kvs)
          ++ "}"
  end.

(** ** String hashing

    [hash(s)] on a [str] depends on a secret that the interpreter draws
    when it starts, unless [PYTHONHASHSEED] pins it.  The script only needs
    [hash] as a function from strings to machine integers, and that is how a
    [World] supplies it.  The instance below is the one of CPython 3.11 and
    later (SipHash-1-3 over the string's compact storage, little-endian);
    it gives concrete runs to compute with. *)

Module SipHash.

Definition u64 (x : Z) : Z := x mod 2 ^ 64.

Definition rotl64 (x b : Z) : Z :=
  u64 (Z.lor (Z.shiftl x b) (Z.shiftr x (64 - b))).

Definition half_round (a b c d s t : Z) : Z * Z * Z * Z :=
  let a := u64 (a + b) in
  let c := u64 (c + d) in
  let b := Z.lxor (rotl64 b s) a in
  let d := Z.lxor (rotl64 d t) c in
  let a := rotl64 a 32 in
  (a, b, c, d).

Definition single_round (v : Z * Z * Z * Z) : Z * Z * Z * Z :=
  let '(v0, v1, v2, v3) := v in
  let '(v0, v1, v2, v3) := half_round v0 v1 v2 v3 13 16 in
  let '(v2, v1, v0, v3) := half_round v2 v1 v0 v3 17 21 in
  (v0, v1, v2, v3).

(** Little-endian value of a run of bytes. *)
Fixpoint le_bytes (bs : list Z) : Z :=
  match bs with
  | [] => 0
  | b :: r => b + 256 * le_bytes r
  end.

Definition absorb (v : Z * Z * Z * Z) (m : Z) : Z * Z * Z * Z :=
  let '(v0, v1, v2, v3) := v in
  let '(v0, v1, v2, v3) := single_round (v0, v1, v2, Z.lxor v3 m) in
  (Z.lxor v0 m, v1, v2, v3).

(** The main loop: whole eight-byte words; what is left is returned. *)
Fixpoint blocks (bs : list Z) (v : Z * Z * Z * Z) : (Z * Z * Z * Z) * list Z :=
  match bs with
  | b0 :: b1 :: b2 :: b3 :: b4 :: b5 :: b6 :: b7 :: rest =>
      blocks rest (absorb v (le_bytes [b0; b1; b2; b3; b4; b5; b6; b7]))
  | _ => (v, bs)
  end.

Definition siphash13 (k0 k1 : Z) (src : list Z) : Z :=
  let b := u64 (Z.shiftl (Z.of_nat (List.length src)) 56) in
  let v := (Z.lxor k0 0x736f6d6570736575, Z.lxor k1 0x646f72616e646f6d,
            Z.lxor k0 0x6c7967656e657261, Z.lxor k1 0x7465646279746573) in
  let '(v, tail) := blocks src v in
  let b := Z.lor b (le_bytes tail) in
  let '(v0, v1, v2, v3) := absorb v b in
  let v2 := Z.lxor v2 0xff in
  let '(v0, v1, v2, v3) :=
    single_round (single_round (single_round (v0, v1, v2, v3))) in
  Z.lxor (Z.lxor v0 v1) (Z.lxor v2 v3).

(** The bytes of a string in its compact storage: one, two or four bytes
    per code point, by the largest code point of the string. *)
Definition max_codepoint (s : PyStr) : N := fold_right N.max 0%N s.

Definition char_width (s : PyStr) : nat :=
  if (max_codepoint s <? 256)%N then 1%nat
  else if (max_codepoint s <? 65536)%N then 2%nat
  else 4%nat.

Fixpoint le_split (width : nat) (c : Z) : list Z :=
  match width with
  | O => []
  | S k => c mod 256 :: le_split k (c / 256)
  end.

Definition unicode_data (s : PyStr) : list Z :=
  flat_map (fun c => le_split (char_width s) (Z.of_N c)) s.

(** [Py_hash_t] is a signed 64-bit integer. *)
Definition to_signed64 (x : Z) : Z :=
  if x <? 2 ^ 63 then x else x - 2 ^ 64.

(** [_Py_HashBytes]: the empty input hashes to 0, and -1 is reserved. *)
Definition hash_bytes (k0 k1 : Z) (src : list Z) : Z :=
  match src with
  | [] => 0
  | _ =>
      let x := to_signed64 (siphash13 k0 k1 src) in
      if x =? -1 then -2 else x
  end.

Definition unicode_hash (secret : Z * Z) (s : PyStr) : Z :=
  hash_bytes (fst secret) (snd secret) (unicode_data s).

(** The secret derived from [PYTHONHASHSEED=seed]: all zero for seed 0,
    otherwise the bytes of a linear congruential generator. *)
Fixpoint lcg_urandom (n : nat) (x : Z) : list Z :=
  match n with
  | O => []
  | S k =>
      let x := (x * 214013 + 2531011) mod 2 ^ 32 in
      (Z.shiftr x 16) mod 256 :: lcg_urandom k x
  end.

Definition secret_of_seed (seed : Z) : Z * Z :=
  if seed =? 0 then (0, 0)
  else
    let bs := lcg_urandom 16 seed in
    (le_bytes (firstn 8 bs), le_bytes (skipn 8 bs)).

End SipHash.

(** ** Exceptions

    Library calls either return or raise.  A [PyExc] is an exception
    whose class derives from [Exception], which is what the two
    [except Exception] clauses match.  Of such an exception the script
    observes three things: whether it is a [ModuleNotFoundError] (the only
    class the import guard names), its message [str(e)], and, when nobody
    catches it, the report the interpreter prints after the header line
    (the stack entries and the line naming the exception).  Exceptions
    outside [Exception] are a [BaseExc], below. *)

Record PyExc := {
  exc_is_module_not_found : bool;
  exc_str : PyStr;
  exc_report : string
}.

Definition traceback_header : string := "Traceback (most recent call last):".

(** What the interpreter prints for an exception that reaches the top. *)
Definition format_uncaught (e : PyExc) : string :=
  traceback_header ++ newline ++ exc_report e.

(** The argument of [sys.exit]: nothing, an integer, or another object,
    of which [str] is printed. *)
Inductive ExitArg :=
| ExitNone
| ExitInt (n : Z)
| ExitObject (text : string).

(** Exceptions outside [Exception], which no [except Exception] clause
    matches: [SystemExit], [KeyboardInterrupt], and the rest
    ([GeneratorExit], classes deriving from [BaseException] directly).
    The last two come with the report the interpreter prints after the
    header line. *)
Inductive BaseExc :=
| SystemExit (arg : ExitArg)
| KeyboardInterrupt (report : string)
| OtherBaseException (report : string).

(** What a library call raises. *)
Inductive Raise :=
| Raises (e : PyExc)
| Escapes (b : BaseExc).

(** The status of a process that ends by an exception outside
    [Exception].  For [SystemExit] with an integer the C runtime keeps
    the low eight bits, and an integer beyond a C [long] counts as -1;
    any other object gives 1.  An interrupt ends the process by its
    signal, which a shell reports as 130. *)
Definition escape_status (b : BaseExc) : Z :=
  match b with
  | SystemExit ExitNone => 0
  | SystemExit (ExitInt n) =>
      if (- 2 ^ 63 <=? n) && (n <? 2 ^ 63) then n mod 256 else 255
  | SystemExit (ExitObject _) => 1
  | KeyboardInterrupt _ => 130
  | OtherBaseException _ => 1
  end.

(** What the interpreter writes to stderr on the way out. *)
Definition escape_stderr (b : BaseExc) : string :=
  match b with
  | SystemExit ExitNone => ""
  | SystemExit (ExitInt _) => ""
  | SystemExit (ExitObject text) => text ++ newline
  | KeyboardInterrupt report => traceback_header ++ newline ++ report
  | OtherBaseException report => traceback_header ++ newline ++ report
  end.

(** ** Calendar arithmetic

    pandas keeps a timestamp as a count of nanoseconds since
    1970-01-01T00:00:00; the count is derived from the calendar fields by
    numpy's [get_datetimestruct_days], in C arithmetic (division truncates
    toward zero). *)

Definition is_leapyear (year : Z) : bool :=
  (year mod 4 =? 0) && (negb (year mod 100 =? 0) || (year mod 400 =? 0)).

Definition month_lengths (leap : bool) : list Z :=
  [31; if leap then 29 else 28; 31; 30; 31; 30; 31; 31; 30; 31; 30; 31].

Definition sum_Z (l : list Z) : Z := fold_right Z.add 0 l.

Definition get_datetimestruct_days (year month day : Z) : Z :=
  let y := year - 1970 in
  let days := y * 365 in
  let days :=
    if 0 <=? days then
      let y := y + 1 in
      let days := days + Z.quot y 4 in
      let y := y + 68 in
      let days := days - Z.quot y 100 in
      let y := y + 300 in
      days + Z.quot y 400
    else
      let y := y - 2 in
      let days := days + Z.quot y 4 in
      let y := y - 28 in
      let days := days - Z.quot y 100 in
      days + Z.quot y 400 in
  days
  + sum_Z (firstn (Z.to_nat (month - 1)) (month_lengths (is_leapyear year)))
  + (day - 1).

Definition NS_PER_SECOND : Z := 1000000000.
Definition NS_PER_DAY : Z := 86400 * NS_PER_SECOND.

(** [npy_datetimestruct_to_datetime] at nanosecond resolution. *)
Definition datetimestruct_to_ns (year month day hour minute second : Z) : Z :=
  (((get_datetimestruct_days year month day * 24 + hour) * 60 + minute) * 60
   + second) * NS_PER_SECOND.

Definition valid_date (year month day : Z) : bool :=
  (1 <=? month) && (month <=? 12) && (1 <=? day)
  && (day <=? nth (Z.to_nat (month - 1)) (month_lengths (is_leapyear year)) 0).

Definition valid_time (hour minute second : Z) : bool :=
  (0 <=? hour) && (hour <=? 23) && (0 <=? minute) && (minute <=? 59)
  && (0 <=? second) && (second <=? 59).

(** ** What [pd.to_datetime] yields on a string *)

Inductive DtResult :=
| DtRaise (e : PyExc)                 (* the call raised *)
| DtEscapes (b : BaseExc)             (* the call raised outside [Exception] *)
| DtNaT                               (* the missing value [NaT] *)
| DtNaive (ns : Z)                    (* a timestamp without time zone *)
| DtAware (ns : Z) (tz : PyStr).      (* a timestamp with a time zone *)

(** Reading ISO 8601 text. *)
Definition digit_of (c : codepoint) : option Z :=
  if (48 <=? c)%N && (c <=? 57)%N then Some (Z.of_N c - 48) else None.

Fixpoint read_digits (n : nat) (acc : Z) (s : PyStr) : option (Z * PyStr) :=
  match n with
  | O => Some (acc, s)
  | S k =>
      match s with
      | [] => None
      | c :: r =>
          match digit_of c with
          | Some d => read_digits k (10 * acc + d) r
          | None => None
          end
      end
  end.

Definition expect (c : codepoint) (s : PyStr) : option PyStr :=
  match s with
  | c' :: r => if (c =? c')%N then Some r else None
  | [] => None
  end.

Definition bind {A B : Type} (o : option A) (f : A -> option B) : option B :=
  match o with
  | Some a => f a
  | None => None
  end.

Notation "'do' x <- e ; k" := (bind e (fun x => k))
  (at level 10, x pattern, e at level 100, k at level 200).

(** The int64 range of a nanosecond timestamp; the least int64 is [NaT]. *)
Definition in_ns_bounds (ns : Z) : bool :=
  (- 2 ^ 63 <? ns) && (ns <? 2 ^ 63).

(** The ISO 8601 forms on which all pandas versions agree and which this
    development reads itself: [YYYY-MM-DD], optionally followed by [T] or
    a space and [HH:MM:SS], optionally followed by [Z].  [None] means: not
    of this form (or outside the nanosecond range), left to the rest of
    the library. *)
Definition parse_iso8601 (s : PyStr) : option DtResult :=
  do (year, s) <- read_digits 4 0 s;
  do s <- expect 45%N s;
  do (month, s) <- read_digits 2 0 s;
  do s <- expect 45%N s;
  do (day, s) <- read_digits 2 0 s;
  if negb (valid_date year month day) then None else
  match s with
  | [] =>
      let ns := datetimestruct_to_ns year month day 0 0 0 in
      if in_ns_bounds ns then Some (DtNaive ns) else None
  | sep :: s =>
      if negb ((sep =? 84)%N || (sep =? 32)%N) then None else
      do (hour, s) <- read_digits 2 0 s;
      do s <- expect 58%N s;
      do (minute, s) <- read_digits 2 0 s;
      do s <- expect 58%N s;
      do (second, s) <- read_digits 2 0 s;
      if negb (valid_time hour minute second) then None else
      let ns := datetimestruct_to_ns year month day hour minute second in
      if negb (in_ns_bounds ns) then None else
      match s with
      | [] => Some (DtNaive ns)
      | [90%N] => Some (DtAware ns (py "UTC"))
      | _ => None
      end
  end.

Fixpoint PyStr_eqb (a b : PyStr) : bool :=
  match a, b with
  | [], [] => true
  | x :: a', y :: b' => (x =? y)%N && PyStr_eqb a' b'
  | _, _ => false
  end.

(** [pandas._libs.tslibs.nattype.nat_strings] *)
Definition nat_strings : list PyStr :=
  [py "NaT"; py "nat"; py "NAT"; py "nan"; py "NaN"; py "NAN"].

(** ** Timestamp arithmetic on line 36 *)

Inductive Timedelta :=
| TdNaT
| TdValue (ns : Z).

Definition type_error_tz : PyExc :=
  {| exc_is_module_not_found := false;
     exc_str := py "Cannot subtract tz-naive and tz-aware datetime-like objects.";
     exc_report := "TypeError: Cannot subtract tz-naive and tz-aware datetime-like objects." ++ newline |}.

(** [a - b] on what two timestamp expressions evaluate to, [a] first:
    what either raises goes on, [NaT] is absorbing, and a timestamp with
    a time zone cannot be subtracted from one without. *)
Definition timestamp_sub (a b : DtResult) : Raise + Timedelta :=
  match a, b with
  | DtRaise e, _ => inl (Raises e)
  | DtEscapes x, _ => inl (Escapes x)
  | _, DtRaise e => inl (Raises e)
  | _, DtEscapes x => inl (Escapes x)
  | DtNaT, _ => inr TdNaT
  | _, DtNaT => inr TdNaT
  | DtNaive x, DtNaive y => inr (TdValue (x - y))
  | DtAware x _, DtAware y _ => inr (TdValue (x - y))
  | DtNaive _, DtAware _ _ => inl (Raises type_error_tz)
  | DtAware _ _, DtNaive _ => inl (Raises type_error_tz)
  end.

(** [td // pd.Timedelta(...)]: an [int] by floor division, or the float
    NaN when the left operand is [NaT]. *)
Definition timedelta_floordiv (td : Timedelta) (unit_ns : Z) : PyVal :=
  match td with
  | TdNaT => VFloat FNaN
  | TdValue ns => VInt (ns / unit_ns)
  end.

(** ** [os.path] (POSIX flavour) *)

Definition SLASH : codepoint := 47%N.

Fixpoint drop_while {A : Type} (f : A -> bool) (l : list A) : list A :=
  match l with
  | [] => []
  | x :: r => if f x then drop_while f r else l
  end.

(** [p.rstrip('/')] *)
Definition rstrip_slash (p : PyStr) : PyStr :=
  rev (drop_while (N.eqb SLASH) (rev p)).

(** [posixpath.dirname]: everything up to and including the last slash,
    with trailing slashes removed unless nothing else is left. *)
Definition dirname (p : PyStr) : PyStr :=
  let head := rev (drop_while (fun c => negb (c =? SLASH)%N) (rev p)) in
  if forallb (N.eqb SLASH) head then head else rstrip_slash head.

Definition starts_with_slash (p : PyStr) : bool :=
  match p with
  | c :: _ => (c =? SLASH)%N
  | [] => false
  end.

Definition ends_with_slash (p : PyStr) : bool := starts_with_slash (rev p).

Definition join2 (path b : PyStr) : PyStr :=
  if starts_with_slash b then b
  else if match path with [] => true | _ => ends_with_slash path end
       then (path ++ b)%list
       else (path ++ SLASH :: b)%list.

(** [posixpath.join(a, *p)] *)
Definition path_join (a : PyStr) (p : list PyStr) : PyStr := fold_left join2 p a.

(** ** Data frames and models *)

(** A [dict] with string keys, in insertion order. *)
Definition PyDict := list (PyStr * PyVal).

Fixpoint dict_get (d : PyDict) (k : PyStr) : option PyVal :=
  match d with
  | [] => None
  | (k', v) :: r => if PyStr_eqb k' k then Some v else dict_get r k
  end.

Record DataFrame := {
  df_columns : list PyStr;
  df_rows : list (list PyVal)
}.

(** Keys in order of first appearance. *)
Fixpoint first_seen (seen : list PyStr) (keys : list PyStr) : list PyStr :=
  match keys with
  | [] => []
  | k :: r =>
      if existsb (PyStr_eqb k) seen then first_seen seen r
      else k :: first_seen (k :: seen) r
  end.

(** [pd.DataFrame(records)] on a list of dicts: one column per key, one row
    per dict, NaN where a dict lacks a key. *)
Definition DataFrame_of_records (records : list PyDict) : DataFrame :=
  let columns := first_seen [] (flat_map (List.map fst) records) in
  {| df_columns := columns;
     df_rows :=
       List.map
         (fun r =>
            List.map
              (fun c => match dict_get r c with
                        | Some v => v
                        | None => VFloat FNaN
                        end)
              columns)
         records |}.

Inductive PyNum :=
| NumInt (z : Z)
| NumFloat (f : PyFloat).

(** A numpy array of numbers, as a predictor returns it: without an axis
    (one number), with one axis, or with more. *)
#[warning="-register-all"]
Inductive ndarray :=
| Nd0 (x : PyNum)
| Nd1 (xs : list PyNum)
| NdN (subs : list ndarray).

Definition num_val (x : PyNum) : PyVal :=
  match x with
  | NumInt z => VInt z
  | NumFloat f => VFloat f
  end.

(** [ndarray.tolist()]: nested lists, one level per axis; the number
    itself when there is no axis. *)
Fixpoint tolist (a : ndarray) : PyVal :=
  match a with
  | Nd0 x => num_val x
  | Nd1 xs => VList (List.map num_val xs)
  | NdN subs => VList (List.map tolist subs)
  end.

(** What the [try] block of lines 59 to 61 can meet before it prints:
    the call (or the conversion of its result) raises an exception that
    derives from [Exception], it raises one that does not, or it returns
    an array. *)
Inductive PredictResult :=
| PredictRaises (e : PyExc)
| PredictEscapes (b : BaseExc)
| PredictReturns (a : ndarray).

Record Model := {
  predict : DataFrame -> PredictResult
}.

(** A file, seen through what opening and unpickling it gives. *)
Inductive ModelFile :=
| LoadRaises (e : PyExc)
| LoadEscapes (b : BaseExc)
| Loads (m : Model).

(** The stretches of the script in which library code runs. *)
Inductive Site :=
| AtImportPandas       (* lines 5 and 6 *)
| AtImportXgboost      (* line 9 *)
| AtLoad               (* lines 18 to 24 *)
| AtPreprocess         (* lines 33 to 53 *)
| AtPredict.           (* lines 60 and 61 *)

(** ** The world around one run *)

Record World := {
  (** [sys.argv]: the script name, then the arguments *)
  argv : list PyStr;
  (** [__file__] *)
  script_file : PyStr;
  (** lines 5 and 6: [None] when pandas and numpy import *)
  import_pandas_numpy : option Raise;
  (** line 9: [None] when xgboost imports *)
  import_xgboost : option Raise;
  (** the file system, read at the model path: [None] when nothing is there *)
  file_at : PyStr -> option ModelFile;
  (** the built-in [hash] on strings, with this process's secret *)
  str_hash : PyStr -> Z;
  (** [pd.to_datetime] on the strings this development does not read
      itself (other formats, relative dates, out-of-range years, junk) *)
  to_datetime_other : PyStr -> DtResult;
  (** the interpreter's rendering of the stack entry for a script line *)
  traceback_entry : Z -> string;
  (** what the library code of a stretch writes to stderr while it runs
      (warnings, log lines), whether it then returns or raises *)
  warnings_at : Site -> string
}.

(** [pd.to_datetime(s)] for a string [s]: the empty string and the
    [nat_strings] give [NaT]; ISO 8601 text is read directly. *)
Definition to_datetime (w : World) (s : PyStr) : DtResult :=
  match s with
  | [] => DtNaT
  | _ =>
      if existsb (PyStr_eqb s) nat_strings then DtNaT
      else match parse_iso8601 s with
           | Some r => r
           | None => to_datetime_other w s
           end
  end.

(** [pd.Timestamp(s)] on a string literal of the script. *)
Definition Timestamp (s : PyStr) : DtResult :=
  match parse_iso8601 s with
  | Some r => r
  | None => DtNaT
  end.

(** [pd.Timedelta("1D")], in nanoseconds. *)
Definition Timedelta_1D : Z := NS_PER_DAY.

(** ** What a run leaves behind

    [stdout] and [stderr] hold what the script's statements write and,
    when an exception ends the run, what the interpreter writes on the
    way out.  What library calls wrote to stderr before that is kept
    apart, in [library_stderr] below. *)

Record Outcome := {
  stdout : string;
  stderr : string;
  exit_code : Z;
  (** the frames handed to [model.predict], in call order *)
  predict_calls : list DataFrame;
  (** the exception that ended the run, when one reached the interpreter *)
  uncaught : option Raise
}.

(** A stage of the script either ends the process or hands a value on. *)
Inductive Step (A : Type) :=
| Exit (o : Outcome)
| Continue (a : A).
Arguments Exit {A} o.
Arguments Continue {A} a.

Definition and_then {A : Type} (s : Step A) (k : A -> Outcome) : Outcome :=
  match s with
  | Exit o => o
  | Continue a => k a
  end.

Notation "'let!' x := s 'in' k" := (and_then s (fun x => k))
  (at level 10, x pattern, s at level 100, k at level 200).

(** [print(json.dumps({'error': msg}), file=sys.stderr); sys.exit(1)] *)
Definition exit_with_error (msg : PyStr) (calls : list DataFrame) : Outcome :=
  {| stdout := "";
     stderr := py_print (json_dumps (VDict [(py "error", VStr msg)]));
     exit_code := 1;
     predict_calls := calls;
     uncaught := None |}.

(** An exception nobody catches: the interpreter prints the traceback on
    stderr and the process ends with status 1. *)
Definition die_uncaught (e : PyExc) : Outcome :=
  {| stdout := "";
     stderr := format_uncaught e;
     exit_code := 1;
     predict_calls := [];
     uncaught := Some (Raises e) |}.

(** An exception outside [Exception] ends the process whatever handler
    is around: with the status of [sys.exit], or with a traceback. *)
Definition die_escaped (b : BaseExc) (calls : list DataFrame) : Outcome :=
  {| stdout := "";
     stderr := escape_stderr b;
     exit_code := escape_status b;
     predict_calls := calls;
     uncaught := Some (Escapes b) |}.

Definition index_error (w : World) (line : Z) : PyExc :=
  {| exc_is_module_not_found := false;
     exc_str := py "list index out of range";
     exc_report := traceback_entry w line ++ "IndexError: list index out of range" ++ newline |}.

(** ** The script, stage by stage *)

Definition xgboost_missing_message : PyStr :=
  py ("Required module xgboost is not installed. Please install it using "
      ++ quote ++ "pip install xgboost" ++ quote ++ ".").

(** Lines 1 to 12: the imports.  Only [ModuleNotFoundError] is turned into
    an error document; anything else raised by an import is not caught. *)
Definition imports (w : World) : Step unit :=
  match import_pandas_numpy w with
  | Some (Raises e) => Exit (die_uncaught e)
  | Some (Escapes b) => Exit (die_escaped b [])
  | None =>
      match import_xgboost w with
      | None => Continue tt
      | Some (Raises e) =>
          if exc_is_module_not_found e
          then Exit (exit_with_error xgboost_missing_message [])
          else Exit (die_uncaught e)
      | Some (Escapes b) => Exit (die_escaped b [])
      end
  end.

(** Line 15 *)
Definition model_path (w : World) : PyStr :=
  path_join (dirname (script_file w)) [py "Model"; py "xgb_model.pkl"].

(** Lines 18 to 24: the existence check, then [pickle.load] with no
    handler around it. *)
Definition load_model (w : World) : Step Model :=
  match file_at w (model_path w) with
  | None =>
      Exit (exit_with_error (py "Model file not found at " ++ model_path w)%list [])
  | Some (LoadRaises e) => Exit (die_uncaught e)
  | Some (LoadEscapes b) => Exit (die_escaped b [])
  | Some (Loads model) => Continue model
  end.

(** Lines 27 and 28: [sys.argv[1]] and [sys.argv[2]], no length check. *)
Definition read_args (w : World) : Step (PyStr * PyStr) :=
  match nth_error (argv w) 1 with
  | None => Exit (die_uncaught (index_error w 27))
  | Some ticker =>
      match nth_error (argv w) 2 with
      | None => Exit (die_uncaught (index_error w 28))
      | Some start_date => Continue (ticker, start_date)
      end
  end.

(** Line 33 *)
Definition ticker_numeric (w : World) (ticker : PyStr) : Z :=
  Z.abs (str_hash w ticker) mod 10 ^ 8.

(** Line 36 *)
Definition start_date_numeric (w : World) (start_date : PyStr) : Raise + PyVal :=
  match timestamp_sub (to_datetime w start_date) (Timestamp (py "1970-01-01")) with
  | inl r => inl r
  | inr td => inr (timedelta_floordiv td Timedelta_1D)
  end.

(** Lines 40 to 52 *)
Definition features (ticker_numeric : Z) (start_date_numeric : PyVal) : PyDict :=
  [ (py "ticker", VInt ticker_numeric);
    (py "start_date", start_date_numeric);
    (py "feature_1", VInt 0);
    (py "feature_2", VInt 0);
    (py "feature_3", VInt 0);
    (py "feature_4", VInt 0);
    (py "feature_5", VInt 0);
    (py "feature_6", VInt 0);
    (py "feature_7", VInt 0);
    (py "feature_8", VInt 0) ].

(** Lines 31 to 56: the first [try] block and its handler, which an
    exception outside [Exception] passes by. *)
Definition preprocess (w : World) (ticker start_date : PyStr) : Step DataFrame :=
  let ticker_numeric := ticker_numeric w ticker in
  match start_date_numeric w start_date with
  | inl (Raises e) =>
      Exit (exit_with_error (py "Failed to preprocess inputs: " ++ exc_str e)%list [])
  | inl (Escapes b) => Exit (die_escaped b [])
  | inr start_date_numeric =>
      Continue (DataFrame_of_records [features ticker_numeric start_date_numeric])
  end.

(** Lines 59 to 64: the second [try] block and its handler, which an
    exception outside [Exception] passes by. *)
Definition predict_and_print (model : Model) (ticker start_date : PyStr)
    (input_data : DataFrame) : Outcome :=
  match predict model input_data with
  | PredictRaises e => exit_with_error (exc_str e) [input_data]
  | PredictEscapes b => die_escaped b [input_data]
  | PredictReturns prediction =>
      {| stdout :=
           py_print
             (json_dumps
                (VDict [ (py "ticker", VStr ticker);
                         (py "start_date", VStr start_date);
                         (py "prediction", tolist prediction) ]));
         stderr := "";
         exit_code := 0;
         predict_calls := [input_data];
         uncaught := None |}
  end.

Definition main (w : World) : Outcome :=
  let! _ := imports w in
  let! model := load_model w in
  let! (ticker, start_date) := read_args w in
  let! input_data := preprocess w ticker start_date in
  predict_and_print model ticker start_date input_data.

(** What the library calls of the run wrote to stderr, in order: each
    stretch that the run enters contributes what its library code
    wrote. *)
Definition library_stderr (w : World) : string :=
  warnings_at w AtImportPandas ++
  match import_pandas_numpy w with
  | Some _ => ""
  | None =>
      warnings_at w AtImportXgboost ++
      match imports w with
      | Exit _ => ""
      | Continue _ =>
          warnings_at w AtLoad ++
          match load_model w, read_args w with
          | Continue _, Continue (ticker, start_date) =>
              warnings_at w AtPreprocess ++
              match preprocess w ticker start_date with
              | Exit _ => ""
              | Continue _ => warnings_at w AtPredict
              end
          | _, _ => ""
          end
      end
  end.

(** The process as its caller sees it: on stderr, what the libraries
    wrote comes before what the script or the interpreter write at the
    end. *)
Definition process (w : World) : Outcome :=
  {| stdout := stdout (main w);
     stderr := library_stderr w ++ stderr (main w);
     exit_code := exit_code (main w);
     predict_calls := predict_calls (main w);
     uncaught := uncaught (main w) |}.

(** ** The JSON grammar (RFC 8259)

    What counts as a JSON text is stated on its own, as the grammar of the
    standard, so that the validity of what the script prints is a property
    of the printed text and not of the printer. *)

Definition char_code (c : ascii) : N := N_of_ascii c.

Definition is_ws (c : ascii) : bool :=
  let n := char_code c in
  (n =? 32)%N || (n =? 9)%N || (n =? 10)%N || (n =? 13)%N.

Definition is_digit (c : ascii) : bool :=
  let n := char_code c in (48 <=? n)%N && (n <=? 57)%N.

Definition is_hex (c : ascii) : bool :=
  let n := char_code c in
  is_digit c || ((97 <=? n)%N && (n <=? 102)%N) || ((65 <=? n)%N && (n <=? 70)%N).

(** A character that may stand for itself inside a string. *)
Definition is_unescaped (c : ascii) : bool :=
  let n := char_code c in
  (32 <=? n)%N && negb (n =? 34)%N && negb (n =? 92)%N.

(** The character after a backslash in a two-character escape. *)
Definition is_short_escape (c : ascii) : bool :=
  let n := char_code c in
  (n =? 34)%N || (n =? 92)%N || (n =? 47)%N || (n =? 98)%N || (n =? 102)%N
  || (n =? 110)%N || (n =? 114)%N || (n =? 116)%N.

Inductive json_ws : string -> Prop :=
| ws_nil : json_ws ""
| ws_cons c s : is_ws c = true -> json_ws s -> json_ws (String c s).

(** One or more digits. *)
Inductive json_digits : string -> Prop :=
| digits_one c : is_digit c = true -> json_digits (String c "")
| digits_cons c s : is_digit c = true -> json_digits s -> json_digits (String c s).

(** [int = zero / ( digit1-9 *DIGIT )] *)
Inductive json_int : string -> Prop :=
| int_digit c : is_digit c = true -> json_int (String c "")
| int_digits c s :
    is_digit c = true -> char_code c <> 48%N -> json_digits s ->
    json_int (String c s).

Inductive json_frac : string -> Prop :=
| frac_none : json_frac ""
| frac_some s : json_digits s -> json_frac (String "." s).

Inductive json_exp : string -> Prop :=
| exp_none : json_exp ""
| exp_plain e s : (e = "e" \/ e = "E")%char -> json_digits s -> json_exp (String e s)
| exp_signed e g s :
    (e = "e" \/ e = "E")%char -> (g = "+" \/ g = "-")%char -> json_digits s ->
    json_exp (String e (String g s)).

Inductive json_number : string -> Prop :=
| number_pos i f e : json_int i -> json_frac f -> json_exp e -> json_number (i ++ f ++ e)
| number_neg i f e :
    json_int i -> json_frac f -> json_exp e -> json_number (String "-" (i ++ f ++ e)).

(** The inside of a string literal. *)
Inductive json_chars : string -> Prop :=
| chars_nil : json_chars ""
| chars_plain c s : is_unescaped c = true -> json_chars s -> json_chars (String c s)
| chars_escape c s :
    is_short_escape c = true -> json_chars s -> json_chars (String "\" (String c s))
| chars_unicode h1 h2 h3 h4 s :
    is_hex h1 = true -> is_hex h2 = true -> is_hex h3 = true -> is_hex h4 = true ->
    json_chars s ->
    json_chars (String "\" (String "u" (String h1 (String h2 (String h3 (String h4 s)))))).

Inductive json_string : string -> Prop :=
| string_lit s : json_chars s -> json_string (quote ++ s ++ quote).

Inductive json_value : string -> Prop :=
| value_null : json_value "null"
| value_true : json_value "true"
| value_false : json_value "false"
| value_number s : json_number s -> json_value s
| value_string s : json_string s -> json_value s
| value_array_empty w : json_ws w -> json_value ("[" ++ w ++ "]")
| value_array s : json_elements s -> json_value ("[" ++ s ++ "]")
| value_object_empty w : json_ws w -> json_value ("{" ++ w ++ "}")
| value_object s : json_members s -> json_value ("{" ++ s ++ "}")
with json_element : string -> Prop :=
| element w1 s w2 : json_ws w1 -> json_value s -> json_ws w2 -> json_element (w1 ++ s ++ w2)
with json_elements : string -> Prop :=
| elements_one s : json_element s -> json_elements s
| elements_cons s r : json_element s -> json_elements r -> json_elements (s ++ "," ++ r)
with json_member : string -> Prop :=
| member w1 k w2 v :
    json_ws w1 -> json_string k -> json_ws w2 -> json_element v ->
    json_member (w1 ++ k ++ w2 ++ ":" ++ v)
with json_members : string -> Prop :=
| members_one s : json_member s -> json_members s
| members_cons s r : json_member s -> json_members r -> json_members (s ++ "," ++ r).

(** A JSON text: one value, with white space around it. *)
Definition json_document (s : string) : Prop := json_element s.

(** A JSON object with the single key [error] and a string under it. *)
Inductive error_document : string -> Prop :=
| error_doc w1 w2 w3 w4 w5 w6 body :
    json_ws w1 -> json_ws w2 -> json_ws w3 -> json_ws w4 -> json_ws w5 -> json_ws w6 ->
    json_chars body ->
    error_document
      (w1 ++ "{" ++ w2 ++ (quote ++ "error" ++ quote) ++ w3 ++ ":" ++ w4
          ++ (quote ++ body ++ quote) ++ w5 ++ "}" ++ w6).

(** The first character of every JSON text. *)
Definition may_start_json (c : ascii) : bool :=
  let n := char_code c in
  is_ws c || is_digit c || (n =? 45)%N || (n =? 34)%N || (n =? 91)%N || (n =? 123)%N
  || (n =? 110)%N || (n =? 116)%N || (n =? 102)%N.

(** The single-key object the script prints on its error paths. *)
Definition error_text (msg : PyStr) : string :=
  py_print (json_dumps (VDict [(py "error", VStr msg)])).

(** ** The outcomes the specification allows

    Success: status 0 and a JSON text on stdout.  Failure: status 1 and an
    error document on stderr. *)

Definition claimed_success (o : Outcome) : Prop :=
  exit_code o = 0 /\ json_document (stdout o).

Definition claimed_failure (o : Outcome) : Prop :=
  exit_code o = 1 /\ error_document (stderr o).

(** A message mentions a piece of text when the text occurs in it. *)
Definition mentions (msg part : PyStr) : Prop :=
  exists before after, msg = (before ++ part ++ after)%list.

(** The stages before the arguments are read went through. *)
Definition model_loaded (w : World) (model : Model) : Prop :=
  imports w = Continue tt /\ load_model w = Continue model.

(** The column names of the frame, as the script spells the keys of
    [features], and as the specification's data model spells them. *)
Definition feature_columns : list PyStr :=
  List.map py
    ["ticker"; "start_date"; "feature_1"; "feature_2"; "feature_3"; "feature_4";
     "feature_5"; "feature_6"; "feature_7"; "feature_8"].

Definition specified_columns : list PyStr :=
  List.map py
    ["ticker_numeric"; "start_date_numeric"; "feature_1"; "feature_2"; "feature_3";
     "feature_4"; "feature_5"; "feature_6"; "feature_7"; "feature_8"].

(** The value a one-row frame holds under a column name. *)
Definition cell (df : DataFrame) (column : PyStr) : option PyVal :=
  match df_rows df with
  | [row] => dict_get (combine (df_columns df) row) column
  | _ => None
  end.

(** ** The calendar, independently of the library

    The day offset of a date from 1970-01-01 in the proleptic Gregorian
    calendar, counted the textbook way: whole years before, whole months
    before, days.  [next_day] is the calendar's successor; the offset is
    0 on 1970-01-01 and grows by one with each [next_day]. *)

Definition days_before_year (year : Z) : Z :=
  365 * (year - 1) + (year - 1) / 4 - (year - 1) / 100 + (year - 1) / 400.

Definition month_length (year month : Z) : Z :=
  nth (Z.to_nat (month - 1)) (month_lengths (is_leapyear year)) 0.

Definition days_before_month (year month : Z) : Z :=
  sum_Z (firstn (Z.to_nat (month - 1)) (month_lengths (is_leapyear year))).

Definition date_ordinal (year month day : Z) : Z :=
  days_before_year year + days_before_month year month + day.

Definition day_offset (year month day : Z) : Z :=
  date_ordinal year month day - date_ordinal 1970 1 1.

Definition next_day (year month day : Z) : Z * Z * Z :=
  if day <? month_length year month then (year, month, day + 1)
  else if month <? 12 then (year, month + 1, 1)
  else (year + 1, 1, 1).

(** The nanoseconds into its day of a time of day. *)
Definition time_of_day_ns (hour minute second : Z) : Z :=
  ((hour * 60 + minute) * 60 + second) * NS_PER_SECOND.

(** ** Values whose serialisation is standard JSON

    [json.dumps] prints NaN and the infinities as the bare words [NaN],
    [Infinity] and [-Infinity], which the JSON standard does not have.  A
    finite float is what [repr] can receive from the digit generator: the
    first digit is not 0, except for zero itself (digit 0, point after
    it). *)

Definition finite_float (f : PyFloat) : bool :=
  match f with
  | FFinite _ d1 ds decpt =>
      negb (d1 mod 10 =? 0)%N
      || (match ds with [] => true | _ => false end && (decpt =? 1))
  | FInf _ => false
  | FNaN => false
  end.

Fixpoint finite_val (v : PyVal) : bool :=
  match v with
  | VStr _ => true
  | VInt _ => true
  | VFloat f => finite_float f
  | VList l => forallb finite_val l
  | VDict kvs => forallb (fun kv => finite_val (snd kv)) kvs
  end.

(** Induction on values, through the lists they nest. *)
Section PyVal_induction.
Variable P : PyVal -> Prop.
Hypothesis HStr : forall s, P (VStr s).
Hypothesis HInt : forall z, P (VInt z).
Hypothesis HFloat : forall f, P (VFloat f).
Hypothesis HList : forall l, Forall P l -> P (VList l).
Hypothesis HDict : forall kvs, Forall (fun kv => P (snd kv)) kvs -> P (VDict kvs).

Fixpoint PyVal_nested_ind (v : PyVal) : P v :=
  match v with
  | VStr s => HStr s
  | VInt z => HInt z
  | VFloat f => HFloat f
  | VList l =>
      HList l
        ((fix go (l : list PyVal) : Forall P l :=
            match l with
            | [] => Forall_nil P
            | x :: r => Forall_cons x (PyVal_nested_ind x) (go r)
            end) l)
  | VDict kvs =>
      HDict kvs
        ((fix go (l : list (PyStr * PyVal)) : Forall (fun kv => P (snd kv)) l :=
            match l with
            | [] => Forall_nil _
            | kv :: r =>
                Forall_cons (P := fun kv => P (snd kv)) kv
                  (PyVal_nested_ind (snd kv)) (go r)
            end) kvs)
  end.
End PyVal_induction.

(** A key, a colon, a space and a value, as the encoder writes a dict
    item. *)
Definition dict_item_text (s : string) : Prop :=
  exists k v, s = k ++ ": " ++ v /\ json_string k /\ json_value v.

(** ** A necessary condition for JSON, by scanning

    Outside string literals a JSON text is made of white space, digits,
    the punctuation of numbers, arrays and objects, and the letters of
    [true], [false] and [null].  The scanner follows string literals and
    their escapes, and gives up on any other character met outside. *)

Inductive scan_state := Outside | InString | AfterBackslash.

Definition allowed_outside (c : ascii) : bool :=
  is_ws c || is_digit c
  || existsb (N.eqb (char_code c))
       (py "-+.eE[]{},:" ++ py "truefalsn")%list.

Fixpoint scan (st : scan_state) (s : string) : option scan_state :=
  match s with
  | "" => Some st
  | String c r =>
      match st with
      | Outside =>
          if (char_code c =? 34)%N then scan InString r
          else if allowed_outside c then scan Outside r
          else None
      | InString =>
          if (char_code c =? 34)%N then scan Outside r
          else if (char_code c =? 92)%N then scan AfterBackslash r
          else scan InString r
      | AfterBackslash => scan InString r
      end
  end.

(** Scanning a piece that leaves the scanner where it was. *)
Definition scans_through (st : scan_state) (s : string) : Prop :=
  scan st s = Some st.

(** ** Reading a string literal back

    The inverse of the encoder, as [json.loads] applies it to the inside
    of a string literal ([json.decoder.py_scanstring]): escapes are
    undone, and a high surrogate escape followed by a low surrogate escape
    is read as one code point. *)

Definition hex_val (c : ascii) : option N :=
  let n := char_code c in
  if is_digit c then Some (n - 48)%N
  else if (97 <=? n)%N && (n <=? 102)%N then Some (n - 87)%N
  else if (65 <=? n)%N && (n <=? 70)%N then Some (n - 55)%N
  else None.

Definition hex4_val (h1 h2 h3 h4 : ascii) : option N :=
  do a <- hex_val h1;
  do b <- hex_val h2;
  do c <- hex_val h3;
  do d <- hex_val h4;
  Some (((a * 16 + b) * 16 + c) * 16 + d)%N.

Definition short_escape_val (c : ascii) : option codepoint :=
  let n := char_code c in
  if (n =? 34)%N then Some 34%N
  else if (n =? 92)%N then Some 92%N
  else if (n =? 47)%N then Some 47%N
  else if (n =? 98)%N then Some 8%N
  else if (n =? 102)%N then Some 12%N
  else if (n =? 110)%N then Some 10%N
  else if (n =? 114)%N then Some 13%N
  else if (n =? 116)%N then Some 9%N
  else None.

Definition is_high_surrogate (n : N) : bool := (55296 <=? n)%N && (n <? 56320)%N.
Definition is_low_surrogate (n : N) : bool := (56320 <=? n)%N && (n <? 57344)%N.

Definition join_surrogates (hi lo : N) : N :=
  (65536 + N.lor (N.shiftl (hi - 55296) 10) (lo - 56320))%N.

(** The low surrogate escape at the head of a text, and what follows it. *)
Definition low_surrogate_escape (s : string) : option (N * string) :=
  match s with
  | String b (String u (String k1 (String k2 (String k3 (String k4 r))))) =>
      if (char_code b =? 92)%N && (char_code u =? 117)%N then
        match hex4_val k1 k2 k3 k4 with
        | Some lo => if is_low_surrogate lo then Some (lo, r) else None
        | None => None
        end
      else None
  | _ => None
  end.

Fixpoint unescape_fuel (fuel : nat) (s : string) : option PyStr :=
  match fuel with
  | O => None
  | S fuel' =>
      match s with
      | "" => Some []
      | String c r =>
          if (char_code c =? 92)%N then
            match r with
            | "" => None
            | String e r1 =>
                if (char_code e =? 117)%N then
                  match r1 with
                  | String h1 (String h2 (String h3 (String h4 r2))) =>
                      do uni <- hex4_val h1 h2 h3 h4;
                      match (if is_high_surrogate uni then low_surrogate_escape r2
                             else None) with
                      | Some (lo, r3) =>
                          do t <- unescape_fuel fuel' r3;
                          Some (join_surrogates uni lo :: t)
                      | None =>
                          do t <- unescape_fuel fuel' r2;
                          Some (uni :: t)
                      end
                  | _ => None
                  end
                else
                  do ch <- short_escape_val e;
                  do t <- unescape_fuel fuel' r1;
                  Some (ch :: t)
            end
          else if (char_code c =? 34)%N || (char_code c <? 32)%N then None
          else
            do t <- unescape_fuel fuel' r;
            Some (char_code c :: t)
      end
  end.

(** One unit of fuel per character is always enough. *)
Definition unescape_body (s : string) : option PyStr :=
  unescape_fuel (S (String.length s)) s.

(** A string as [sys.argv] can hold it: code points of Unicode, with no
    high surrogate (undecodable bytes of the command line come in as low
    surrogates). *)
Definition argv_string (s : PyStr) : bool :=
  forallb (fun c => (c <? 1114112)%N && negb (is_high_surrogate c)) s.

(** The line a successful run prints, from the insides of its two string
    literals and the text of the prediction. *)
Definition success_text (ticker_body start_date_body prediction : string) : string :=
  "{" ++ quote ++ "ticker" ++ quote ++ ": " ++ quote ++ ticker_body ++ quote ++ ", "
      ++ quote ++ "start_date" ++ quote ++ ": " ++ quote ++ start_date_body ++ quote ++ ", "
      ++ quote ++ "prediction" ++ quote ++ ": " ++ prediction ++ "}" ++ newline.

(** ** Further notions used to describe runs *)

(** The run ends in an exception that nobody catches. *)
Definition crashes (w : World) : Prop := uncaught (main w) <> None.

(** Printable ASCII: the characters from the space to the tilde. *)
Definition printable_char (c : ascii) : bool :=
  (32 <=? char_code c)%N && (char_code c <=? 126)%N.

Fixpoint printable_ascii (s : string) : bool :=
  match s with
  | "" => true
  | String c r => printable_char c && printable_ascii r
  end.

(** One line of printable ASCII, ended by a newline. *)
Definition one_line (s : string) : Prop :=
  exists body, s = body ++ newline /\ printable_ascii body = true.

(** Dates and times as ISO 8601 writes them. *)
Definition digit_codepoint (k : Z) : codepoint := Z.to_N (48 + k mod 10).

Definition two_digits (n : Z) : PyStr :=
  [digit_codepoint (n / 10); digit_codepoint n].

Definition four_digits (n : Z) : PyStr :=
  [digit_codepoint (n / 1000); digit_codepoint (n / 100);
   digit_codepoint (n / 10); digit_codepoint n].

(** [YYYY-MM-DD] *)
Definition iso_date (year month day : Z) : PyStr :=
  (four_digits year ++ 45%N :: two_digits month ++ 45%N :: two_digits day)%list.

(** [HH:MM:SS] *)
Definition iso_time (hour minute second : Z) : PyStr :=
  (two_digits hour ++ 58%N :: two_digits minute ++ 58%N :: two_digits second)%list.

(** A file name: a path without a slash. *)
Definition slash_free (name : PyStr) : Prop := ~ In SLASH name.

(** The same run with further arguments at the end of the command
    line. *)
Definition with_more_args (w : World) (more : list PyStr) : World :=
  {| argv := (argv w ++ more)%list;
     script_file := script_file w;
     import_pandas_numpy := import_pandas_numpy w;
     import_xgboost := import_xgboost w;
     file_at := file_at w;
     str_hash := str_hash w;
     to_datetime_other := to_datetime_other w;
     traceback_entry := traceback_entry w;
     warnings_at := warnings_at w |}.

(** The floats [json.dumps] writes as bare words: NaN and the two
    infinities. *)
Definition nan_or_inf (f : PyFloat) : bool :=
  match f with
  | FFinite _ _ _ _ => false
  | FInf _ => true
  | FNaN => true
  end.

Fixpoint has_nan_or_inf (v : PyVal) : bool :=
  match v with
  | VStr _ => false
  | VInt _ => false
  | VFloat f => nan_or_inf f
  | VList l => existsb has_nan_or_inf l
  | VDict kvs => existsb (fun kv => has_nan_or_inf (snd kv)) kvs
  end.

(** One calendar date comes before another. *)
Definition date_before (y1 m1 d1 y2 m2 d2 : Z) : Prop :=
  y1 < y2 \/ (y1 = y2 /\ (m1 < m2 \/ (m1 = m2 /\ d1 < d2))).

(** The years whose every instant fits the nanosecond range. *)
Definition year_in_ns_range (year : Z) : Prop := 1678 <= year <= 2261.

(** ** Reference worlds

    Concrete worlds to run the script in.  The model is a stump on the
    ticker column: 1.0 when the encoding is at least 50000000, else 0.0.
    Unless said otherwise the library calls write nothing to stderr. *)

Module Example.

Definition exc (msg : string) : PyExc :=
  {| exc_is_module_not_found := false;
     exc_str := py msg;
     exc_report := msg ++ newline |}.

Definition module_not_found : PyExc :=
  {| exc_is_module_not_found := true;
     exc_str := py "No module named 'xgboost'";
     exc_report := "ModuleNotFoundError: No module named 'xgboost'" ++ newline |}.

Definition unpickling_error : PyExc :=
  {| exc_is_module_not_found := false;
     exc_str := py "invalid load key, 'x'.";
     exc_report := "_pickle.UnpicklingError: invalid load key, 'x'." ++ newline |}.

(** xgboost is installed but its native library does not load. *)
Definition library_load_error : PyExc :=
  {| exc_is_module_not_found := false;
     exc_str := py "XGBoost Library (libxgboost.so) could not be loaded.";
     exc_report :=
       "xgboost.core.XGBoostError: XGBoost Library (libxgboost.so) could not be loaded."
       ++ newline |}.

Definition pandas_missing : PyExc :=
  {| exc_is_module_not_found := true;
     exc_str := py "No module named 'pandas'";
     exc_report := "ModuleNotFoundError: No module named 'pandas'" ++ newline |}.

Definition one : PyFloat := FFinite false 1 [] 1.
Definition zero : PyFloat := FFinite false 0 [] 1.

Definition stump : Model :=
  {| predict := fun df =>
       match df_rows df with
       | [VInt t :: _] =>
           PredictReturns (Nd1 [NumFloat (if 50000000 <=? t then one else zero)])
       | _ => PredictRaises (exc "feature shape mismatch")
       end |}.

(** A model that answers NaN, whatever the row. *)
Definition nan_model : Model :=
  {| predict := fun _ => PredictReturns (Nd1 [NumFloat FNaN]) |}.

Definition script : PyStr := py "/srv/app/predict.py".
Definition model_pkl : PyStr := py "/srv/app/Model/xgb_model.pkl".

Definition disk (f : option ModelFile) (p : PyStr) : option ModelFile :=
  if PyStr_eqb p model_pkl then f else None.

(** A strict date parser for everything that is not read as ISO 8601. *)
Definition unknown_format (s : PyStr) : DtResult :=
  DtRaise {| exc_is_module_not_found := false;
             exc_str := (py "Unknown datetime string format, unable to parse: " ++ s)%list;
             exc_report := "dateutil.parser._parser.ParserError" ++ newline |}.

(** A run of [python predict.py args...] with [PYTHONHASHSEED=seed]. *)
Definition quiet (site : Site) : string := "".

Definition run (seed : Z) (xgb : option PyExc) (f : option ModelFile)
    (args : list string) : World :=
  {| argv := List.map py ("predict.py" :: args);
     script_file := script;
     import_pandas_numpy := None;
     import_xgboost := option_map Raises xgb;
     file_at := disk f;
     str_hash := SipHash.unicode_hash (SipHash.secret_of_seed seed);
     to_datetime_other := unknown_format;
     traceback_entry := fun _ => "  File predict.py, in <module>" ++ newline;
     warnings_at := quiet |}.

Definition healthy (seed : Z) (args : list string) : World :=
  run seed None (Some (Loads stump)) args.

(** [pd.to_datetime] reads the clock for the word today. *)
Definition clock (now_ns : Z) (s : PyStr) : DtResult :=
  if PyStr_eqb s (py "today") then DtNaive now_ns else unknown_format s.

(** A stump on the start date column: 1.0 from day 19500 on, else 0.0. *)
Definition date_stump : Model :=
  {| predict := fun df =>
       match df_rows df with
       | [_ :: VInt d :: _] =>
           PredictReturns (Nd1 [NumFloat (if 19500 <=? d then one else zero)])
       | _ => PredictRaises (exc "feature shape mismatch")
       end |}.

(** A run with [PYTHONHASHSEED=0] at the instant [now_ns]. *)
Definition run_at (now_ns : Z) (args : list string) : World :=
  {| argv := List.map py ("predict.py" :: args);
     script_file := script;
     import_pandas_numpy := None;
     import_xgboost := None;
     file_at := disk (Some (Loads date_stump));
     str_hash := SipHash.unicode_hash (SipHash.secret_of_seed 0);
     to_datetime_other := clock now_ns;
     traceback_entry := fun _ => "  File predict.py, in <module>" ++ newline;
     warnings_at := quiet |}.

(** The same, on an installation without pandas. *)
Definition without_pandas (args : list string) : World :=
  {| argv := argv (healthy 0 args);
     script_file := script;
     import_pandas_numpy := Some (Raises pandas_missing);
     import_xgboost := None;
     file_at := disk (Some (Loads stump));
     str_hash := str_hash (healthy 0 args);
     to_datetime_other := unknown_format;
     traceback_entry := traceback_entry (healthy 0 args);
     warnings_at := quiet |}.

(** A model whose [predict] leaves through [sys.exit(3)]. *)
Definition exiting_model : Model :=
  {| predict := fun _ => PredictEscapes (SystemExit (ExitInt 3)) |}.

(** A model that answers an array without an axis. *)
Definition scalar_model : Model :=
  {| predict := fun _ => PredictReturns (Nd0 (NumFloat (FFinite false 1 [5%N] 1))) |}.

(** A model that rejects the frame. *)
Definition strict_model : Model :=
  {| predict := fun _ => PredictRaises (exc "feature shape mismatch") |}.

(** A day-first date: pandas reads it, and says on stderr that it did. *)
Definition day_first_warning : string :=
  "/srv/app/predict.py:36: UserWarning: Parsing dates in %d/%m/%Y format when dayfirst=False (the default) was specified. Pass `dayfirst=True` or specify a format to silence this warning."
  ++ newline
  ++ "  start_date_numeric = (pd.to_datetime(start_date) - pd.Timestamp("
  ++ quote ++ "1970-01-01" ++ quote ++ ")) // pd.Timedelta(" ++ quote ++ "1D" ++ quote ++ ")"
  ++ newline.

Definition lenient_format (s : PyStr) : DtResult :=
  if PyStr_eqb s (py "13/01/2023") then DtNaive (19370 * NS_PER_DAY)
  else unknown_format s.

(** A healthy run whose start date is 13/01/2023. *)
Definition day_first (m : Model) : World :=
  {| argv := List.map py ["predict.py"; "AAPL"; "13/01/2023"];
     script_file := script;
     import_pandas_numpy := None;
     import_xgboost := None;
     file_at := disk (Some (Loads m));
     str_hash := SipHash.unicode_hash (SipHash.secret_of_seed 0);
     to_datetime_other := lenient_format;
     traceback_entry := fun _ => "  File predict.py, in <module>" ++ newline;
     warnings_at := fun site =>
       match site with
       | AtPreprocess => day_first_warning
       | _ => ""
       end |}.

End Example.

(** * Properties *)

(** ** Strings *)

Lemma append_nil_r (s : string) : s ++ "" = s.
Proof. induction s as [|c s IH]; simpl; [reflexivity | now rewrite IH]. Qed.

Lemma append_assoc (a b c : string) : (a ++ b) ++ c = a ++ (b ++ c).
Proof. induction a as [|x a IH]; simpl; [reflexivity | now rewrite IH]. Qed.

(** Both sides are the same concatenation, bracketed differently. *)
Ltac string_assoc :=
  repeat first [rewrite !append_assoc | progress simpl]; reflexivity.

Lemma string_length_app (a b : string) :
  String.length (a ++ b) = (String.length a + String.length b)%nat.
Proof. induction a as [|x a IH]; simpl; [reflexivity | now rewrite IH]. Qed.

Lemma json_ws_app (a b : string) : json_ws a -> json_ws b -> json_ws (a ++ b).
Proof. induction 1; simpl; [trivial | constructor; auto]. Qed.

Lemma json_chars_app (a b : string) : json_chars a -> json_chars b -> json_chars (a ++ b).
Proof.
  induction 1; simpl; intros;
    [trivial | apply chars_plain | apply chars_escape | apply chars_unicode]; auto.
Qed.

Lemma json_ws_newline : json_ws newline.
Proof. repeat constructor. Qed.

Lemma json_ws_space : json_ws " ".
Proof. repeat constructor. Qed.

Create HintDb json.
#[local] Hint Resolve ws_nil json_ws_newline json_ws_space : json.
#[local] Hint Constructors json_string json_element json_member json_members json_elements : json.

Lemma PyStr_eqb_eq (a b : PyStr) : PyStr_eqb a b = true -> a = b.
Proof.
  revert b. induction a as [|x a IH]; intros [|y b] H; try discriminate; [reflexivity |].
  cbn [PyStr_eqb] in H. apply andb_true_iff in H as [Hx Hr].
  apply N.eqb_eq in Hx. f_equal; auto.
Qed.

Lemma mentions_In (msg part : PyStr) (c : codepoint) :
  mentions msg part -> In c part -> In c msg.
Proof.
  intros (a & b & ->) H. apply in_or_app. right. apply in_or_app. now left.
Qed.

Lemma not_In_by_computation (c : codepoint) (l : PyStr) :
  existsb (N.eqb c) l = false -> ~ In c l.
Proof.
  intros H Hin.
  assert (Ht : existsb (N.eqb c) l = true).
  { apply existsb_exists. exists c. split; [exact Hin | apply N.eqb_refl]. }
  congruence.
Qed.

Lemma nth_error_short {A : Type} (l : list A) :
  (List.length l < 3)%nat -> nth_error l 1 = None \/ nth_error l 2 = None.
Proof.
  destruct l as [|a [|b [|c l]]]; simpl; intros H; auto. lia.
Qed.

(** ** Where a JSON text can start *)

Lemma digit_may_start (c : ascii) : is_digit c = true -> may_start_json c = true.
Proof.
  unfold may_start_json. intros ->. now rewrite orb_true_r.
Qed.

Lemma json_int_starts (s : string) :
  json_int s -> exists c r, s = String c r /\ is_digit c = true.
Proof. destruct 1; eauto. Qed.

Lemma json_number_starts (s : string) :
  json_number s -> exists c r, s = String c r /\ may_start_json c = true.
Proof.
  destruct 1 as [i f e Hi _ _ | i f e _ _ _].
  - destruct (json_int_starts i Hi) as (c & r & -> & Hc).
    simpl. eauto using digit_may_start.
  - eexists _, _. split; [reflexivity | reflexivity].
Qed.

Lemma json_value_starts (s : string) :
  json_value s -> exists c r, s = String c r /\ may_start_json c = true.
Proof.
  destruct 1 as [ | | | s Hn | s Hs | | | | ];
    try (eexists _, _; split; [reflexivity | reflexivity]).
  - now apply json_number_starts.
  - destruct Hs. eexists _, _. split; [reflexivity | reflexivity].
Qed.

Lemma json_document_starts (s : string) :
  json_document s -> exists c r, s = String c r /\ may_start_json c = true.
Proof.
  intros [w1 v w2 Hw1 Hv _].
  destruct Hw1 as [| c w Hc _]; simpl.
  - destruct (json_value_starts v Hv) as (c & r & -> & Hc). simpl. eauto.
  - eexists _, _. split; [reflexivity |].
    unfold may_start_json. now rewrite Hc.
Qed.

(** The report of an uncaught exception is not JSON, whatever the
    exception: its first character is the T of the header line. *)
Lemma traceback_not_json (e : PyExc) : ~ json_document (format_uncaught e).
Proof.
  intros H. apply json_document_starts in H.
  destruct H as (c & r & Heq & Hc).
  unfold format_uncaught, traceback_header in Heq. simpl in Heq.
  inversion Heq; subst c. discriminate Hc.
Qed.

Lemma empty_not_json : ~ json_document "".
Proof.
  intros H. apply json_document_starts in H.
  destruct H as (c & r & Heq & _). discriminate Heq.
Qed.

(** ** The string encoder produces string literals *)

Lemma hex_char_is_hex (d : N) : is_hex (hex_char d) = true.
Proof.
  unfold hex_char.
  assert (Hlt : (d mod 16 < 16)%N) by (apply N.mod_lt; discriminate).
  remember (d mod 16)%N as k eqn:Hk. clear Hk d.
  assert (Hk : (k = 0 \/ k = 1 \/ k = 2 \/ k = 3 \/ k = 4 \/ k = 5 \/ k = 6 \/ k = 7
               \/ k = 8 \/ k = 9 \/ k = 10 \/ k = 11 \/ k = 12 \/ k = 13 \/ k = 14
               \/ k = 15)%N) by lia.
  repeat (destruct Hk as [-> | Hk]; [reflexivity |]). subst k. reflexivity.
Qed.

Lemma json_chars_unicode_escape (n : N) (s : string) :
  json_chars s -> json_chars (("\u" ++ hex4 n) ++ s).
Proof.
  intros H. unfold hex4. cbn [append].
  apply chars_unicode; auto using hex_char_is_hex.
Qed.

Lemma json_chars_surrogate_pair (a b : N) (s : string) :
  json_chars s -> json_chars (("\u" ++ hex4 a ++ "\u" ++ hex4 b) ++ s).
Proof.
  intros H.
  replace (("\u" ++ hex4 a ++ "\u" ++ hex4 b) ++ s)
    with (("\u" ++ hex4 a) ++ ("\u" ++ hex4 b) ++ s).
  - now apply json_chars_unicode_escape, json_chars_unicode_escape.
  - unfold hex4. reflexivity.
Qed.

Lemma printable_unescaped (c : N) :
  (32 <= c)%N -> (c <= 126)%N -> c <> 34%N -> c <> 92%N ->
  is_unescaped (ascii_of_N c) = true.
Proof.
  intros H1 H2 H3 H4. unfold is_unescaped, char_code.
  rewrite N_ascii_embedding by lia.
  apply andb_true_intro; split; [apply andb_true_intro; split |].
  - now apply N.leb_le.
  - apply negb_true_iff. now apply N.eqb_neq.
  - apply negb_true_iff. now apply N.eqb_neq.
Qed.

Lemma escape_codepoint_chars (c : codepoint) (s : string) :
  json_chars s -> json_chars (escape_codepoint c ++ s).
Proof.
  intros H. unfold escape_codepoint.
  destruct (N.eqb_spec c 92); [apply chars_escape; [reflexivity | exact H] |].
  destruct (N.eqb_spec c 34); [apply chars_escape; [reflexivity | exact H] |].
  destruct (N.eqb_spec c 8); [apply chars_escape; [reflexivity | exact H] |].
  destruct (N.eqb_spec c 12); [apply chars_escape; [reflexivity | exact H] |].
  destruct (N.eqb_spec c 10); [apply chars_escape; [reflexivity | exact H] |].
  destruct (N.eqb_spec c 13); [apply chars_escape; [reflexivity | exact H] |].
  destruct (N.eqb_spec c 9); [apply chars_escape; [reflexivity | exact H] |].
  assert (Hescaped :
            json_chars
              ((if (c <? 65536)%N then "\u" ++ hex4 c
                else
                  let n := (c - 65536)%N in
                  let s1 := N.lor 55296 (N.land (N.shiftr n 10) 1023) in
                  let s2 := N.lor 56320 (N.land n 1023) in
                  "\u" ++ hex4 s1 ++ "\u" ++ hex4 s2) ++ s)).
  { destruct (c <? 65536)%N.
    - now apply json_chars_unicode_escape.
    - cbv zeta. now apply json_chars_surrogate_pair. }
  destruct (N.leb_spec 32 c); destruct (N.leb_spec c 126); cbn [andb];
    try exact Hescaped.
  apply chars_plain; [apply printable_unescaped; assumption | exact H].
Qed.

Lemma escape_body_chars (s : PyStr) : json_chars (escape_body s).
Proof.
  induction s as [|c s IH]; simpl; [constructor |].
  now apply escape_codepoint_chars.
Qed.

Lemma encode_basestring_ascii_string (s : PyStr) :
  json_string (encode_basestring_ascii s).
Proof. constructor. apply escape_body_chars. Qed.

(** ** Numbers are printed as JSON numbers *)

Lemma digit_char_code (d : N) : char_code (digit_char d) = (48 + d mod 10)%N.
Proof.
  unfold char_code, digit_char. apply N_ascii_embedding.
  assert (d mod 10 < 10)%N by (apply N.mod_lt; discriminate). lia.
Qed.

Lemma digit_char_is_digit (d : N) : is_digit (digit_char d) = true.
Proof.
  unfold is_digit. rewrite digit_char_code. cbv zeta.
  assert (d mod 10 < 10)%N by (apply N.mod_lt; discriminate).
  apply andb_true_intro. split; apply N.leb_le.
  - apply N.le_add_r.
  - change 57%N with (48 + 9)%N. apply N.add_le_mono_l. lia.
Qed.

Lemma json_digits_app (a b : string) :
  json_digits a -> json_digits b -> json_digits (a ++ b).
Proof.
  induction 1; intros Hb; simpl; apply digits_cons; auto.
Qed.

Lemma json_digits_cons_any (c : ascii) (s : string) :
  is_digit c = true -> s = "" \/ json_digits s -> json_digits (String c s).
Proof. intros Hc [-> | Hs]; [now apply digits_one | now apply digits_cons]. Qed.

Lemma json_int_digits (s : string) : json_int s -> json_digits s.
Proof. destruct 1; [now apply digits_one | now apply digits_cons]. Qed.

Lemma log2_div10 (n : N) : (10 <= n)%N -> (N.log2 (n / 10) < N.log2 n)%N.
Proof.
  intros H.
  assert (Hle : (N.log2 (n / 10) <= N.log2 (n / 2))%N).
  { apply N.log2_le_mono, N.div_le_compat_l. lia. }
  assert (Hhalf : N.log2 (n / 2) = (N.log2 n - 1)%N).
  { rewrite <- (N.log2_shiftr n 1), N.shiftr_div_pow2. reflexivity. }
  assert (Hpos : (3 <= N.log2 n)%N).
  { apply N.log2_le_pow2; [lia |]. simpl. lia. }
  lia.
Qed.

(** With enough fuel, the digits of a positive number start with a digit
    other than 0. *)
Lemma dec_digits_fuel_spec (fuel : nat) :
  forall (n : N) (acc : string),
    (N.to_nat (N.log2 n) < fuel)%nat ->
    (0 < n)%N ->
    acc = "" \/ json_digits acc ->
    exists c s,
      dec_digits_fuel fuel n acc = String c s
      /\ is_digit c = true /\ char_code c <> 48%N /\ (s = "" \/ json_digits s).
Proof.
  induction fuel as [|fuel IH]; intros n acc Hfuel Hn Hacc; [lia |].
  cbn [dec_digits_fuel]. cbv zeta.
  destruct (N.eqb_spec (n / 10) 0) as [Hq | Hq].
  - exists (digit_char n), acc. repeat split; auto using digit_char_is_digit.
    rewrite digit_char_code.
    assert (n < 10)%N by (apply N.div_small_iff in Hq; [exact Hq | discriminate]).
    rewrite N.mod_small by assumption. lia.
  - assert (Hge : (10 <= n)%N).
    { destruct (N.lt_ge_cases n 10) as [Hlt | Hge]; [| exact Hge].
      apply N.div_small in Hlt. contradiction. }
    apply IH.
    + pose proof (log2_div10 n Hge). lia.
    + now apply N.neq_0_lt_0.
    + right. apply json_digits_cons_any; auto using digit_char_is_digit.
Qed.

Lemma dec_of_N_int (n : N) : json_int (dec_of_N n).
Proof.
  destruct (N.eq_dec n 0) as [-> | Hn].
  - apply int_digit. reflexivity.
  - destruct (dec_digits_fuel_spec (S (N.to_nat (N.log2 n))) n "") as
      (c & s & Heq & Hc & Hnz & Hs); [lia | lia | now left |].
    unfold dec_of_N. rewrite Heq.
    destruct Hs as [-> | Hs]; [now apply int_digit | now apply int_digits].
Qed.

Lemma int_repr_number (z : Z) : json_number (int_repr z).
Proof.
  unfold int_repr. destruct (z <? 0).
  - replace (dec_of_N (Z.to_N (- z))) with (dec_of_N (Z.to_N (- z)) ++ "" ++ "")
      by (simpl; apply append_nil_r).
    apply number_neg; auto using dec_of_N_int, frac_none, exp_none.
  - replace (dec_of_N (Z.to_N z)) with (dec_of_N (Z.to_N z) ++ "" ++ "")
      by (simpl; apply append_nil_r).
    apply number_pos; auto using dec_of_N_int, frac_none, exp_none.
Qed.

Lemma digits_str_digits (ds : list N) : ds <> [] -> json_digits (digits_str ds).
Proof.
  induction ds as [|d ds IH]; [congruence |]. intros _. simpl.
  apply json_digits_cons_any; [apply digit_char_is_digit |].
  destruct ds; [now left | right; apply IH; discriminate].
Qed.

Lemma digits_str_app (a b : list N) :
  digits_str (a ++ b) = digits_str a ++ digits_str b.
Proof. induction a as [|d a IH]; simpl; [reflexivity | now rewrite IH]. Qed.

Lemma repeat_zero_digits (n : nat) :
  repeat_char "0" n = "" \/ json_digits (repeat_char "0" n).
Proof.
  induction n as [|n IH]; [now left | right]. simpl.
  now apply json_digits_cons_any.
Qed.

Lemma exp_str_exp (e : Z) : json_exp (String "e" (exp_str e)).
Proof.
  unfold exp_str. cbv zeta.
  apply exp_signed; [now left | destruct (e <? 0); [now right | now left] |].
  destruct (Z.to_N (Z.abs e) <? 10)%N.
  - apply digits_cons; [reflexivity | apply json_int_digits, dec_of_N_int].
  - apply json_int_digits, dec_of_N_int.
Qed.

Lemma json_int_lead (d : N) (rest : string) :
  (d mod 10 <> 0)%N -> rest = "" \/ json_digits rest ->
  json_int (String (digit_char d) rest).
Proof.
  intros Hd [-> | Hr].
  - apply int_digit, digit_char_is_digit.
  - apply int_digits; [apply digit_char_is_digit | | exact Hr].
    rewrite digit_char_code. lia.
Qed.

Lemma digits_or_empty_app (a b : string) :
  a = "" \/ json_digits a -> b = "" \/ json_digits b ->
  a ++ b = "" \/ json_digits (a ++ b).
Proof.
  intros [-> | Ha] [-> | Hb]; simpl; auto.
  - right. now rewrite append_nil_r.
  - right. now apply json_digits_app.
Qed.

Lemma digits_str_or_empty (ds : list N) :
  digits_str ds = "" \/ json_digits (digits_str ds).
Proof.
  destruct ds; [now left | right; apply digits_str_digits; discriminate].
Qed.

Lemma finite_float_inv (neg : bool) (d1 : N) (ds : list N) (decpt : Z) :
  finite_float (FFinite neg d1 ds decpt) = true ->
  (d1 mod 10 <> 0)%N \/ (ds = [] /\ decpt = 1).
Proof.
  cbn [finite_float]. intros H. apply orb_true_iff in H as [H | H].
  - left. apply negb_true_iff, N.eqb_neq in H. exact H.
  - right. apply andb_true_iff in H as [H1 H2]. apply Z.eqb_eq in H2.
    destruct ds; [auto | discriminate].
Qed.

(** The digits and point of a finite float, without the sign. *)
Lemma float_repr_unsigned_parts (d1 : N) (ds : list N) (decpt : Z) :
  finite_float (FFinite false d1 ds decpt) = true ->
  exists i f e,
    float_repr_finite false d1 ds decpt = i ++ f ++ e
    /\ json_int i /\ json_frac f /\ json_exp e.
Proof.
  intros Hfin. apply finite_float_inv in Hfin.
  unfold float_repr_finite. cbv zeta. cbn [sign_str append].
  destruct ((decpt <=? -4) || (16 <? decpt)) eqn:Hexp.
  - exists (String (digit_char d1) ""),
      (match ds with [] => "" | _ => String "." (digits_str ds) end),
      (String "e" (exp_str (decpt - 1))).
    split; [reflexivity | split; [apply int_digit, digit_char_is_digit | split]].
    + destruct ds; [apply frac_none | apply frac_some, digits_str_digits; discriminate].
    + apply exp_str_exp.
  - apply orb_false_iff in Hexp as [H1 H2].
    apply Z.leb_gt in H1. apply Z.ltb_ge in H2.
    destruct (Z.leb_spec decpt 0) as [Hle | Hgt].
    + exists "0", (String "." (repeat_char "0" (Z.to_nat (- decpt)) ++ digits_str (d1 :: ds))), "".
      split; [| split; [apply int_digit; reflexivity | split; [| apply exp_none]]].
      * cbn [append]. now rewrite append_nil_r.
      * apply frac_some.
        destruct (repeat_zero_digits (Z.to_nat (- decpt))) as [-> | Hz].
        -- apply digits_str_digits. discriminate.
        -- apply json_digits_app; [exact Hz | apply digits_str_digits; discriminate].
    + destruct (Z.ltb_spec decpt (Z.of_nat (S (List.length ds)))) as [Hlt | Hge].
      * destruct (Z.to_nat decpt) as [|k] eqn:Hk; [lia |].
        exists (digits_str (firstn (S k) (d1 :: ds))),
          (String "." (digits_str (skipn (S k) (d1 :: ds)))), "".
        split; [now rewrite append_nil_r | split; [| split; [| apply exp_none]]].
        -- cbn [firstn digits_str]. apply json_int_lead.
           ++ destruct Hfin as [Hnz | [-> Hone]]; [exact Hnz | simpl in Hlt; lia].
           ++ apply digits_str_or_empty.
        -- apply frac_some, digits_str_digits. cbn [skipn].
           intros Hnil. apply (f_equal (@List.length N)) in Hnil.
           rewrite length_skipn in Hnil. simpl in Hnil. lia.
      * exists (digits_str (d1 :: ds)
                  ++ repeat_char "0" (Z.to_nat (decpt - Z.of_nat (S (List.length ds))))),
          ".0", "".
        split; [| split; [| split; [apply frac_some; now apply digits_one | apply exp_none]]].
        -- now rewrite append_assoc.
        -- cbn [digits_str append].
           destruct Hfin as [Hnz | [-> Hone]].
           ++ apply json_int_lead; [exact Hnz |].
              apply digits_or_empty_app;
                [apply digits_str_or_empty | apply repeat_zero_digits].
           ++ subst decpt. apply int_digit, digit_char_is_digit.
Qed.

Lemma float_repr_sign (neg : bool) (d1 : N) (ds : list N) (decpt : Z) :
  float_repr_finite neg d1 ds decpt
  = sign_str neg ++ float_repr_finite false d1 ds decpt.
Proof. reflexivity. Qed.

Lemma floatstr_number (f : PyFloat) :
  finite_float f = true -> json_number (floatstr f).
Proof.
  destruct f as [neg d1 ds decpt | |]; try discriminate.
  intros Hfin. cbn [floatstr]. rewrite float_repr_sign.
  destruct (float_repr_unsigned_parts d1 ds decpt) as (i & fr & e & -> & Hi & Hf & He);
    [exact Hfin |].
  destruct neg; cbn [sign_str append]; [now apply number_neg | now apply number_pos].
Qed.

(** ** Lists and dicts are printed as JSON arrays and objects *)

Lemma join_comma_cons (p q : string) (r : list string) :
  join_comma (p :: q :: r) = p ++ ", " ++ join_comma (q :: r).
Proof. reflexivity. Qed.

(** The items of a list, each after optional white space. *)
Lemma join_comma_elements (parts : list string) :
  Forall json_value parts -> parts <> [] ->
  forall w, json_ws w -> json_elements (w ++ join_comma parts).
Proof.
  induction 1 as [|p r Hp Hr IH]; [congruence |]. intros _ w Hw.
  destruct r as [|q r].
  - cbn [join_comma]. apply elements_one.
    rewrite <- (append_nil_r p) at 1. rewrite <- append_assoc, append_assoc.
    apply element; auto with json.
  - rewrite join_comma_cons.
    replace (w ++ p ++ ", " ++ join_comma (q :: r))
      with ((w ++ p ++ "") ++ "," ++ (" " ++ join_comma (q :: r)))
      by string_assoc.
    apply elements_cons.
    + apply element; auto with json.
    + apply IH; [discriminate | apply json_ws_space].
Qed.

Lemma dict_item_member (w s : string) :
  json_ws w -> dict_item_text s -> json_member (w ++ s).
Proof.
  intros Hw (k & v & -> & Hk & Hv).
  replace (w ++ k ++ ": " ++ v) with (w ++ k ++ "" ++ ":" ++ (" " ++ v ++ ""))
    by (cbn [append]; now rewrite append_nil_r).
  apply member; auto with json.
Qed.

Lemma join_comma_members (parts : list string) :
  Forall dict_item_text parts -> parts <> [] ->
  forall w, json_ws w -> json_members (w ++ join_comma parts).
Proof.
  induction 1 as [|p r Hp Hr IH]; [congruence |]. intros _ w Hw.
  destruct r as [|q r].
  - cbn [join_comma]. apply members_one. now apply dict_item_member.
  - rewrite join_comma_cons.
    replace (w ++ p ++ ", " ++ join_comma (q :: r))
      with ((w ++ p) ++ "," ++ (" " ++ join_comma (q :: r)))
      by string_assoc.
    apply members_cons.
    + now apply dict_item_member.
    + apply IH; [discriminate | apply json_ws_space].
Qed.

(** Every value free of NaN and infinities is printed as a JSON value. *)
Lemma json_dumps_value (v : PyVal) :
  finite_val v = true -> json_value (json_dumps v).
Proof.
  induction v as [s | z | f | l IH | kvs IH] using PyVal_nested_ind; intros Hfin.
  - apply value_string, encode_basestring_ascii_string.
  - apply value_number, int_repr_number.
  - apply value_number, floatstr_number. exact Hfin.
  - cbn [json_dumps]. destruct l as [|x l].
    + apply (value_array_empty ""). constructor.
    + apply value_array.
      refine (join_comma_elements (List.map json_dumps (x :: l)) _ _ "" ws_nil);
        [| discriminate].
      cbn [finite_val] in Hfin. rewrite forallb_forall in Hfin.
      rewrite Forall_forall in IH. apply Forall_forall.
      intros t Ht. apply in_map_iff in Ht as (y & <- & Hy). auto.
  - cbn [json_dumps]. destruct kvs as [|kv kvs].
    + apply (value_object_empty ""). constructor.
    + apply value_object.
      refine (join_comma_members
                (List.map (fun kv => encode_basestring_ascii (fst kv) ++ ": "
                                     ++ json_dumps (snd kv)) (kv :: kvs))
                _ _ "" ws_nil);
        [| discriminate].
      cbn [finite_val] in Hfin. rewrite forallb_forall in Hfin.
      rewrite Forall_forall in IH. apply Forall_forall.
      intros t Ht. apply in_map_iff in Ht as (y & <- & Hy).
      exists (encode_basestring_ascii (fst y)), (json_dumps (snd y)).
      split; [reflexivity | split; [apply encode_basestring_ascii_string | auto]].
Qed.

Lemma py_print_document (s : string) : json_value s -> json_document (py_print s).
Proof.
  intros H. unfold py_print.
  change (s ++ newline) with ("" ++ s ++ newline).
  apply element; auto with json.
Qed.

(** ** Error documents *)

Lemma error_text_shape (msg : PyStr) :
  error_text msg =
  "{" ++ (quote ++ "error" ++ quote) ++ ": " ++ (quote ++ escape_body msg ++ quote)
      ++ "}" ++ newline.
Proof.
  unfold error_text, py_print. cbn -[escape_body newline].
  unfold encode_basestring_ascii.
  repeat (rewrite ?append_assoc; cbn -[escape_body newline]).
  reflexivity.
Qed.

Lemma error_text_is_error_document (msg : PyStr) : error_document (error_text msg).
Proof.
  rewrite error_text_shape.
  apply (error_doc "" "" "" " " "" newline (escape_body msg));
    auto using escape_body_chars with json.
Qed.

Lemma error_document_is_json (s : string) : error_document s -> json_document s.
Proof.
  intros [w1 w2 w3 w4 w5 w6 body H1 H2 H3 H4 H5 H6 Hb].
  set (k := quote ++ "error" ++ quote).
  set (v := quote ++ body ++ quote).
  replace (w1 ++ "{" ++ w2 ++ k ++ w3 ++ ":" ++ w4 ++ v ++ w5 ++ "}" ++ w6)
    with (w1 ++ ("{" ++ (w2 ++ k ++ w3 ++ ":" ++ (w4 ++ v ++ w5)) ++ "}") ++ w6)
    by string_assoc.
  apply element; [assumption | | assumption].
  apply value_object, members_one, member; try assumption.
  - subst k. constructor. repeat constructor.
  - apply element; try assumption. apply value_string. subst v. now constructor.
Qed.

Lemma exit_with_error_stderr (msg : PyStr) (calls : list DataFrame) :
  stderr (exit_with_error msg calls) = error_text msg.
Proof. reflexivity. Qed.

(** ** Scanning JSON texts *)

Lemma scan_app (a b : string) :
  forall st,
    scan st (a ++ b)
    = match scan st a with
      | Some st' => scan st' b
      | None => None
      end.
Proof.
  induction a as [|c a IH]; intros st; [reflexivity |].
  cbn [append scan].
  destruct st; repeat match goal with |- context [if ?b then _ else _] => destruct b end;
    auto.
Qed.

Lemma scans_through_app (st : scan_state) (a b : string) :
  scans_through st a -> scans_through st b -> scans_through st (a ++ b).
Proof. unfold scans_through. intros Ha Hb. now rewrite scan_app, Ha. Qed.

Lemma scans_through_outside_cons (c : ascii) (s : string) :
  (char_code c =? 34)%N = false -> allowed_outside c = true ->
  scans_through Outside s -> scans_through Outside (String c s).
Proof. unfold scans_through. intros H1 H2 H. cbn [scan]. now rewrite H1, H2. Qed.

Lemma ws_outside (c : ascii) :
  is_ws c = true -> (char_code c =? 34)%N = false /\ allowed_outside c = true.
Proof.
  unfold allowed_outside, is_ws. cbv zeta. intros H. rewrite H. split; [| reflexivity].
  repeat (apply orb_true_iff in H as [H | H]); apply N.eqb_eq in H; now rewrite H.
Qed.

Lemma digit_outside (c : ascii) :
  is_digit c = true -> (char_code c =? 34)%N = false /\ allowed_outside c = true.
Proof.
  unfold allowed_outside. intros H. rewrite H, orb_true_r. split; [| reflexivity].
  unfold is_digit in H. cbv zeta in H. apply andb_true_iff in H as [H _].
  apply N.leb_le in H. apply N.eqb_neq. lia.
Qed.

Lemma scan_ws (w : string) : json_ws w -> scans_through Outside w.
Proof.
  induction 1 as [|c s Hc _ IH]; [reflexivity |].
  destruct (ws_outside c Hc). now apply scans_through_outside_cons.
Qed.

Lemma scan_digits (s : string) : json_digits s -> scans_through Outside s.
Proof.
  induction 1 as [c Hc | c s Hc _ IH]; destruct (digit_outside c Hc);
    now apply scans_through_outside_cons.
Qed.

Lemma scan_number (s : string) : json_number s -> scans_through Outside s.
Proof.
  assert (Hint : forall i, json_int i -> scans_through Outside i).
  { intros i Hi. now apply scan_digits, json_int_digits. }
  assert (Hfrac : forall f, json_frac f -> scans_through Outside f).
  { intros f [| d Hd]; [reflexivity |].
    apply scans_through_outside_cons; [reflexivity | reflexivity | now apply scan_digits]. }
  assert (Hexp : forall e, json_exp e -> scans_through Outside e).
  { intros e [| c d [-> | ->] Hd | c g d [-> | ->] [-> | ->] Hd]; [reflexivity | ..];
      repeat (apply scans_through_outside_cons; [reflexivity | reflexivity |]);
      now apply scan_digits. }
  destruct 1 as [i f e Hi Hf He | i f e Hi Hf He].
  - auto using scans_through_app.
  - apply scans_through_outside_cons; [reflexivity | reflexivity |].
    auto using scans_through_app.
Qed.

Lemma hex_not_special (c : ascii) :
  is_hex c = true -> (char_code c =? 34)%N = false /\ (char_code c =? 92)%N = false.
Proof.
  unfold is_hex, is_digit. cbv zeta. intros H.
  split; apply N.eqb_neq; intros Heq; rewrite Heq in H; discriminate H.
Qed.

Lemma scan_chars (s : string) : json_chars s -> scans_through InString s.
Proof.
  unfold scans_through.
  induction 1 as [| c s Hc _ IH | c s Hc _ IH | h1 h2 h3 h4 s H1 H2 H3 H4 _ IH].
  - reflexivity.
  - cbn [scan]. unfold is_unescaped in Hc. cbv zeta in Hc.
    apply andb_true_iff in Hc as [Hc Hb]. apply andb_true_iff in Hc as [_ Hq].
    apply negb_true_iff in Hq, Hb. now rewrite Hq, Hb.
  - exact IH.
  - cbn [scan]. change (char_code "u" =? 34)%N with false. cbn [scan].
    destruct (hex_not_special h1 H1) as [-> ->], (hex_not_special h2 H2) as [-> ->],
      (hex_not_special h3 H3) as [-> ->], (hex_not_special h4 H4) as [-> ->].
    exact IH.
Qed.

Lemma scan_string (s : string) : json_string s -> scans_through Outside s.
Proof.
  intros [body Hb]. unfold scans_through, quote.
  cbn [append scan]. change (char_code (ascii_of_N 34) =? 34)%N with true. cbv iota.
  rewrite scan_app, (scan_chars body Hb). reflexivity.
Qed.

Scheme json_value_min := Minimality for json_value Sort Prop
  with json_element_min := Minimality for json_element Sort Prop
  with json_elements_min := Minimality for json_elements Sort Prop
  with json_member_min := Minimality for json_member Sort Prop
  with json_members_min := Minimality for json_members Sort Prop.

Lemma scan_bracketed (opening closing : ascii) (s : string) :
  (char_code opening =? 34)%N = false -> allowed_outside opening = true ->
  (char_code closing =? 34)%N = false -> allowed_outside closing = true ->
  scans_through Outside s ->
  scans_through Outside (String opening (s ++ String closing "")).
Proof.
  intros Ho1 Ho2 Hc1 Hc2 Hs.
  apply scans_through_outside_cons; auto.
  apply scans_through_app; auto.
  now apply scans_through_outside_cons.
Qed.

(** Every JSON text scans through. *)
Lemma scan_element (s : string) : json_element s -> scans_through Outside s.
Proof.
  apply (json_element_min
           (scans_through Outside) (scans_through Outside) (scans_through Outside)
           (scans_through Outside) (scans_through Outside)).
  - reflexivity.
  - reflexivity.
  - reflexivity.
  - apply scan_number.
  - apply scan_string.
  - intros w Hw. apply (scan_bracketed "[" "]"); auto using scan_ws.
  - intros t _ Ht. now apply (scan_bracketed "[" "]").
  - intros w Hw. apply (scan_bracketed "{" "}"); auto using scan_ws.
  - intros t _ Ht. now apply (scan_bracketed "{" "}").
  - intros w1 v w2 Hw1 _ Hv Hw2. auto using scans_through_app, scan_ws.
  - auto.
  - intros a b _ Ha _ Hb. apply scans_through_app; [exact Ha |].
    now apply scans_through_outside_cons.
  - intros w1 k w2 v Hw1 Hk Hw2 _ Hv.
    repeat apply scans_through_app; auto using scan_ws, scan_string.
    now apply scans_through_outside_cons.
  - auto.
  - intros a b _ Ha _ Hb. apply scans_through_app; [exact Ha |].
    now apply scans_through_outside_cons.
Qed.

Lemma not_json_by_scan (s : string) :
  scan Outside s <> Some Outside -> ~ json_document s.
Proof. intros Hs Hd. apply Hs. now apply scan_element. Qed.

(** ** Reading back what the encoder wrote *)

Lemma hex_val_hex_char (d : N) : hex_val (hex_char d) = Some (d mod 16)%N.
Proof.
  unfold hex_char.
  assert (Hlt : (d mod 16 < 16)%N) by (apply N.mod_lt; discriminate).
  remember (d mod 16)%N as k eqn:Hk. clear Hk d.
  assert (Hk : (k = 0 \/ k = 1 \/ k = 2 \/ k = 3 \/ k = 4 \/ k = 5 \/ k = 6 \/ k = 7
               \/ k = 8 \/ k = 9 \/ k = 10 \/ k = 11 \/ k = 12 \/ k = 13 \/ k = 14
               \/ k = 15)%N) by lia.
  repeat (destruct Hk as [-> | Hk]; [reflexivity |]). subst k. reflexivity.
Qed.

Lemma hex_digits_value (n : N) :
  (n < 65536)%N ->
  ((((n / 4096) mod 16 * 16 + (n / 256) mod 16) * 16 + (n / 16) mod 16) * 16
   + n mod 16 = n)%N.
Proof. intros H. zify. Z.to_euclidean_division_equations. lia. Qed.

Lemma hex4_val_hex_chars (n : N) :
  (n < 65536)%N ->
  hex4_val (hex_char (n / 4096)) (hex_char (n / 256)) (hex_char (n / 16)) (hex_char n)
  = Some n.
Proof.
  intros H. unfold hex4_val. rewrite !hex_val_hex_char. cbn [bind].
  now rewrite hex_digits_value.
Qed.

Lemma lor_high_low (a b : N) :
  (b < 1024)%N -> N.lor (a * 1024) b = (a * 1024 + b)%N.
Proof.
  intros Hb.
  assert (Hdisjoint : N.land (a * 2 ^ 10) b = 0%N).
  { apply N.bits_inj_0. intros i. rewrite N.land_spec.
    destruct (N.lt_ge_cases i 10) as [Hi | Hi].
    - now rewrite N.mul_pow2_bits_low.
    - destruct (N.eq_dec b 0) as [-> | Hnz]; [now rewrite N.bits_0, andb_false_r |].
      rewrite (N.bits_above_log2 b i), andb_false_r; [reflexivity |].
      apply N.lt_le_trans with 10%N; [| exact Hi].
      apply N.log2_lt_pow2; [lia | exact Hb]. }
  change 1024%N with (2 ^ 10)%N.
  now rewrite <- (N.lxor_lor _ _ Hdisjoint), (N.add_nocarry_lxor _ _ Hdisjoint).
Qed.

(** The surrogate pair of a code point above the basic plane. *)
Lemma surrogate_pair_spec (c : N) :
  (65536 <= c)%N -> (c < 1114112)%N ->
  N.lor 55296 (N.land (N.shiftr (c - 65536) 10) 1023) = (55296 + (c - 65536) / 1024)%N
  /\ N.lor 56320 (N.land (c - 65536) 1023) = (56320 + (c - 65536) mod 1024)%N
  /\ ((c - 65536) / 1024 < 1024)%N.
Proof.
  intros Hlo Hhi. set (n := (c - 65536)%N).
  assert (Hn : (n < 1048576)%N) by (subst n; lia).
  assert (Hq : (n / 1024 < 1024)%N)
    by (apply N.Div0.div_lt_upper_bound; exact Hn).
  assert (Hm : (n mod 1024 < 1024)%N) by (apply N.mod_lt; discriminate).
  change 1023%N with (N.ones 10). rewrite !N.land_ones, N.shiftr_div_pow2.
  change (2 ^ 10)%N with 1024%N.
  rewrite (N.mod_small (n / 1024) 1024 Hq).
  change 55296%N with (54 * 1024)%N. change 56320%N with (55 * 1024)%N.
  rewrite !lor_high_low by assumption. auto.
Qed.

Lemma join_surrogates_spec (n : N) :
  (n < 1048576)%N ->
  join_surrogates (55296 + n / 1024) (56320 + n mod 1024) = (65536 + n)%N.
Proof.
  intros Hn. unfold join_surrogates.
  assert (Hm : (n mod 1024 < 1024)%N) by (apply N.mod_lt; discriminate).
  rewrite (N.add_comm 55296), (N.add_comm 56320), !N.add_sub.
  rewrite N.shiftl_mul_pow2. change (2 ^ 10)%N with 1024%N.
  rewrite lor_high_low by assumption.
  f_equal. rewrite N.mul_comm. symmetry. apply N.div_mod. discriminate.
Qed.

(** One step of the reader on each form the encoder writes. *)
Lemma unescape_plain (fuel : nat) (c : N) (r : string) :
  (32 <= c)%N -> (c <= 126)%N -> c <> 34%N -> c <> 92%N ->
  unescape_fuel (S fuel) (String (ascii_of_N c) r)
  = do t <- unescape_fuel fuel r; Some (c :: t).
Proof.
  intros H1 H2 H3 H4. cbn [unescape_fuel]. unfold char_code.
  rewrite N_ascii_embedding by lia.
  apply N.eqb_neq in H3, H4. rewrite H3, H4.
  assert (H5 : (c <? 32)%N = false) by (apply N.ltb_ge; exact H1).
  now rewrite H5.
Qed.

Lemma unescape_unicode (fuel : nat) (n : N) (r : string) :
  (n < 65536)%N -> is_high_surrogate n = false ->
  unescape_fuel (S fuel) (("\u" ++ hex4 n) ++ r)
  = do t <- unescape_fuel fuel r; Some (n :: t).
Proof.
  intros Hn Hh. unfold hex4. cbn [append unescape_fuel].
  change (char_code "\" =? 92)%N with true. change (char_code "u" =? 117)%N with true.
  cbv iota. rewrite (hex4_val_hex_chars n Hn). cbn [bind]. now rewrite Hh.
Qed.

Lemma unescape_pair (fuel : nat) (hi lo : N) (r : string) :
  (hi < 65536)%N -> (lo < 65536)%N ->
  is_high_surrogate hi = true -> is_low_surrogate lo = true ->
  unescape_fuel (S fuel) (("\u" ++ hex4 hi ++ "\u" ++ hex4 lo) ++ r)
  = do t <- unescape_fuel fuel r; Some (join_surrogates hi lo :: t).
Proof.
  intros Hhi Hlo Hh Hl. unfold hex4. cbn [append unescape_fuel low_surrogate_escape].
  change (char_code "\" =? 92)%N with true. change (char_code "u" =? 117)%N with true.
  cbv iota. rewrite (hex4_val_hex_chars hi Hhi). cbn [bind]. rewrite Hh.
  cbn [andb]. now rewrite (hex4_val_hex_chars lo Hlo), Hl.
Qed.

Lemma unescape_codepoint (fuel : nat) (c : codepoint) (r : string) :
  (c <? 1114112)%N && negb (is_high_surrogate c) = true ->
  unescape_fuel (S fuel) (escape_codepoint c ++ r)
  = do t <- unescape_fuel fuel r; Some (c :: t).
Proof.
  intros Hc. apply andb_true_iff in Hc as [Hmax Hnh].
  apply N.ltb_lt in Hmax. apply negb_true_iff in Hnh.
  unfold escape_codepoint.
  destruct (N.eqb_spec c 92) as [-> |]; [reflexivity |].
  destruct (N.eqb_spec c 34) as [-> |]; [reflexivity |].
  destruct (N.eqb_spec c 8) as [-> |]; [reflexivity |].
  destruct (N.eqb_spec c 12) as [-> |]; [reflexivity |].
  destruct (N.eqb_spec c 10) as [-> |]; [reflexivity |].
  destruct (N.eqb_spec c 13) as [-> |]; [reflexivity |].
  destruct (N.eqb_spec c 9) as [-> |]; [reflexivity |].
  assert (Hescaped :
            unescape_fuel (S fuel)
              ((if (c <? 65536)%N then "\u" ++ hex4 c
                else
                  let n := (c - 65536)%N in
                  let s1 := N.lor 55296 (N.land (N.shiftr n 10) 1023) in
                  let s2 := N.lor 56320 (N.land n 1023) in
                  "\u" ++ hex4 s1 ++ "\u" ++ hex4 s2) ++ r)
            = do t <- unescape_fuel fuel r; Some (c :: t)).
  { destruct (N.ltb_spec c 65536) as [Hlt | Hge].
    - now apply unescape_unicode.
    - cbv zeta. destruct (surrogate_pair_spec c Hge Hmax) as (-> & -> & Hq).
      assert (Hm : ((c - 65536) mod 1024 < 1024)%N) by (apply N.mod_lt; discriminate).
      assert (Hjoin : join_surrogates (55296 + (c - 65536) / 1024)
                        (56320 + (c - 65536) mod 1024) = c).
      { rewrite join_surrogates_spec by lia. lia. }
      revert Hq Hm Hjoin.
      generalize ((c - 65536) / 1024)%N, ((c - 65536) mod 1024)%N.
      intros q m Hq Hm Hjoin.
      rewrite unescape_pair.
      + now rewrite Hjoin.
      + lia.
      + lia.
      + unfold is_high_surrogate. apply andb_true_intro.
        split; [apply N.leb_le | apply N.ltb_lt]; lia.
      + unfold is_low_surrogate. apply andb_true_intro.
        split; [apply N.leb_le | apply N.ltb_lt]; lia. }
  destruct (N.leb_spec 32 c); destruct (N.leb_spec c 126); cbn [andb];
    try exact Hescaped.
  cbn [append]. now apply unescape_plain.
Qed.

Lemma unescape_fuel_escape_body (s : PyStr) :
  argv_string s = true ->
  forall fuel, (List.length s < fuel)%nat ->
  unescape_fuel fuel (escape_body s) = Some s.
Proof.
  induction s as [|c s IH]; intros Hs fuel Hfuel.
  - destruct fuel; [lia | reflexivity].
  - destruct fuel as [|fuel]; [lia |].
    cbn [argv_string forallb] in Hs. apply andb_true_iff in Hs as [Hc Hs].
    cbn [escape_body]. rewrite (unescape_codepoint fuel c _ Hc).
    rewrite (IH Hs fuel) by (simpl in Hfuel; lia). reflexivity.
Qed.

Lemma escape_codepoint_nonempty (c : codepoint) :
  (1 <= String.length (escape_codepoint c))%nat.
Proof.
  unfold escape_codepoint.
  repeat match goal with
         | |- context [if ?b then _ else _] => destruct b
         end; cbn; lia.
Qed.

Lemma escape_body_length (s : PyStr) :
  (List.length s <= String.length (escape_body s))%nat.
Proof.
  induction s as [|c s IH]; simpl; [lia |].
  rewrite string_length_app. pose proof (escape_codepoint_nonempty c). lia.
Qed.

(** Reading back the inside of an encoded string gives the very string,
    for every string the command line can carry. *)
Lemma unescape_escape_body (s : PyStr) :
  argv_string s = true -> unescape_body (escape_body s) = Some s.
Proof.
  intros Hs. unfold unescape_body. apply unescape_fuel_escape_body; [exact Hs |].
  pose proof (escape_body_length s). lia.
Qed.

(** ** The model path *)

Lemma ends_with_slash_app_Model (x : PyStr) :
  ends_with_slash (x ++ py "Model")%list = false.
Proof. unfold ends_with_slash. now rewrite rev_app_distr. Qed.

(** The model path is the script's directory followed by
    [Model/xgb_model.pkl], with a slash in between unless the directory is
    empty or ends with one. *)
Lemma model_path_shape (w : World) :
  exists dir,
    model_path w = (dir ++ py "Model/xgb_model.pkl")%list
    /\ (dir = dirname (script_file w) \/ dir = (dirname (script_file w) ++ [SLASH])%list).
Proof.
  unfold model_path, path_join. simpl fold_left.
  set (d := dirname (script_file w)).
  assert (Hfirst : join2 d (py "Model") = (d ++ py "Model")%list
                   \/ join2 d (py "Model") = ((d ++ [SLASH]) ++ py "Model")%list).
  { unfold join2. simpl starts_with_slash. cbv iota.
    destruct d as [|c d']; [now left |].
    destruct (ends_with_slash (c :: d')); [now left | right].
    now rewrite <- app_assoc. }
  assert (Hsecond : forall x, join2 (x ++ py "Model")%list (py "xgb_model.pkl")
                              = (x ++ py "Model/xgb_model.pkl")%list).
  { intros x. unfold join2. simpl starts_with_slash. cbv iota.
    change (py "Model/xgb_model.pkl") with (py "Model" ++ SLASH :: py "xgb_model.pkl")%list.
    rewrite ends_with_slash_app_Model.
    destruct (x ++ py "Model")%list eqn:Hx.
    - destruct x; discriminate Hx.
    - rewrite <- Hx, <- app_assoc. reflexivity. }
  destruct Hfirst as [-> | ->]; rewrite Hsecond; eauto.
Qed.

(** ** The calendar *)

(** numpy's day count is the calendar's day offset from 1970-01-01. *)
Lemma get_datetimestruct_days_offset (year month day : Z) :
  get_datetimestruct_days year month day = day_offset year month day.
Proof.
  unfold get_datetimestruct_days, day_offset, date_ordinal, days_before_month.
  change (days_before_year 1970 + sum_Z (firstn (Z.to_nat (1 - 1)) (month_lengths (is_leapyear 1970))) + 1)
    with 719163.
  generalize (sum_Z (firstn (Z.to_nat (month - 1)) (month_lengths (is_leapyear year)))).
  intros m. unfold days_before_year. cbv zeta.
  destruct (Z.leb_spec 0 ((year - 1970) * 365));
    Z.to_euclidean_division_equations; lia.
Qed.

Lemma day_offset_epoch : day_offset 1970 1 1 = 0.
Proof. reflexivity. Qed.

Lemma days_before_next_year (year : Z) :
  days_before_year (year + 1)
  = days_before_year year + (if is_leapyear year then 366 else 365).
Proof.
  unfold days_before_year, is_leapyear.
  destruct (Z.eqb_spec (year mod 4) 0), (Z.eqb_spec (year mod 100) 0),
    (Z.eqb_spec (year mod 400) 0); cbn [andb orb negb];
    Z.to_euclidean_division_equations; lia.
Qed.

Lemma month_cases (month : Z) :
  1 <= month <= 12 ->
  month = 1 \/ month = 2 \/ month = 3 \/ month = 4 \/ month = 5 \/ month = 6
  \/ month = 7 \/ month = 8 \/ month = 9 \/ month = 10 \/ month = 11 \/ month = 12.
Proof. lia. Qed.

Lemma valid_date_inv (year month day : Z) :
  valid_date year month day = true ->
  1 <= month <= 12 /\ 1 <= day <= month_length year month.
Proof.
  unfold valid_date, month_length. intros H.
  apply andb_true_iff in H as [H H4]. apply andb_true_iff in H as [H H3].
  apply andb_true_iff in H as [H1 H2].
  apply Z.leb_le in H1, H2, H3, H4. lia.
Qed.

Lemma days_before_month_succ (year month : Z) :
  1 <= month < 12 ->
  days_before_month year (month + 1)
  = days_before_month year month + month_length year month.
Proof.
  intros Hm. unfold days_before_month, month_length.
  generalize (is_leapyear year). intros leap.
  assert (H : 1 <= month <= 12) by lia.
  destruct (month_cases month H) as
    [-> | [-> | [-> | [-> | [-> | [-> | [-> | [-> | [-> | [-> | [-> | ->]]]]]]]]]]];
    try lia; destruct leap; reflexivity.
Qed.

Lemma month_length_pos (year month : Z) :
  1 <= month <= 12 -> 28 <= month_length year month <= 31.
Proof.
  intros H. unfold month_length. generalize (is_leapyear year). intros leap.
  destruct (month_cases month H) as
    [-> | [-> | [-> | [-> | [-> | [-> | [-> | [-> | [-> | [-> | [-> | ->]]]]]]]]]]];
    destruct leap; cbv; split; discriminate.
Qed.

Lemma days_in_year (year : Z) :
  days_before_month year 12 + month_length year 12
  = if is_leapyear year then 366 else 365.
Proof.
  unfold days_before_month, month_length. destruct (is_leapyear year); reflexivity.
Qed.

Lemma days_before_january (year : Z) : days_before_month year 1 = 0.
Proof. reflexivity. Qed.

Lemma valid_date_intro (year month day : Z) :
  1 <= month <= 12 -> 1 <= day <= month_length year month ->
  valid_date year month day = true.
Proof.
  intros Hm Hd. unfold valid_date. fold (month_length year month).
  repeat (apply andb_true_intro; split); apply Z.leb_le; lia.
Qed.

(** The day offset counts days: it grows by one from each valid date to
    the next, which is again a valid date. *)
Lemma day_offset_next_day (year month day : Z) :
  valid_date year month day = true ->
  let '(y, m, d) := next_day year month day in
  day_offset y m d = day_offset year month day + 1
  /\ valid_date y m d = true.
Proof.
  intros Hv. destruct (valid_date_inv _ _ _ Hv) as [Hm Hd].
  unfold next_day. destruct (Z.ltb_spec day (month_length year month)) as [Hlt | Hge].
  - split; [unfold day_offset, date_ordinal; lia |].
    apply valid_date_intro; lia.
  - assert (Hday : day = month_length year month) by lia.
    destruct (Z.ltb_spec month 12) as [Hm12 | Hm12].
    + split.
      * unfold day_offset, date_ordinal.
        rewrite days_before_month_succ by lia. lia.
      * apply valid_date_intro; [lia |].
        pose proof (month_length_pos year (month + 1)). lia.
    + assert (month = 12) by lia. subst month. split.
      * unfold day_offset, date_ordinal.
        rewrite days_before_next_year, days_before_january.
        pose proof (days_in_year year). lia.
      * apply valid_date_intro; [lia |].
        pose proof (month_length_pos (year + 1) 1). lia.
Qed.

Lemma time_of_day_bounds (hour minute second : Z) :
  valid_time hour minute second = true ->
  0 <= time_of_day_ns hour minute second < NS_PER_DAY.
Proof.
  unfold valid_time, time_of_day_ns, NS_PER_DAY, NS_PER_SECOND. intros H.
  repeat (apply andb_true_iff in H as [H ?]).
  repeat match goal with Hle : (_ <=? _) = true |- _ => apply Z.leb_le in Hle end.
  lia.
Qed.

(** The nanosecond count of a calendar date and time of day. *)
Lemma datetimestruct_to_ns_split (year month day hour minute second : Z) :
  datetimestruct_to_ns year month day hour minute second
  = day_offset year month day * NS_PER_DAY + time_of_day_ns hour minute second.
Proof.
  unfold datetimestruct_to_ns, time_of_day_ns, NS_PER_DAY.
  rewrite get_datetimestruct_days_offset. ring.
Qed.

Lemma floor_days (days tod : Z) :
  0 <= tod < NS_PER_DAY -> (days * NS_PER_DAY + tod) / NS_PER_DAY = days.
Proof.
  intros H. rewrite Z.div_add_l by discriminate.
  rewrite (Z.div_small tod NS_PER_DAY H). lia.
Qed.

(** ** Dates written in ISO 8601 *)

Lemma Timestamp_epoch : Timestamp (py "1970-01-01") = DtNaive 0.
Proof. reflexivity. Qed.

(** What the ISO reader accepts as a zone-less timestamp is a valid
    calendar date and time of day, turned into nanoseconds. *)
Lemma parse_iso8601_naive (s : PyStr) (ns : Z) :
  parse_iso8601 s = Some (DtNaive ns) ->
  exists year month day hour minute second,
    valid_date year month day = true
    /\ valid_time hour minute second = true
    /\ ns = datetimestruct_to_ns year month day hour minute second.
Proof.
  unfold parse_iso8601, bind. intros H.
  repeat match type of H with
         | context [match ?x with _ => _ end] => destruct x eqn:?; try discriminate H
         end;
    injection H as <-;
    repeat match goal with
           | Hn : negb _ = false |- _ => apply negb_false_iff in Hn
           end;
    match goal with
    | Hd : valid_date ?y ?m ?d = true, Ht : valid_time ?h ?mi ?se = true |- _ =>
        exists y, m, d, h, mi, se; auto
    | Hd : valid_date ?y ?m ?d = true |- _ =>
        exists y, m, d, 0, 0, 0; auto
    end.
Qed.

Lemma to_datetime_iso (w : World) (s : PyStr) (r : DtResult) :
  parse_iso8601 s = Some r -> to_datetime w s = r.
Proof.
  intros H. unfold to_datetime.
  destruct s as [|c s']; [discriminate H |].
  destruct (existsb (PyStr_eqb (c :: s')) nat_strings) eqn:Hnat.
  - apply existsb_exists in Hnat as (x & Hin & Heq).
    apply PyStr_eqb_eq in Heq. rewrite Heq in H.
    cbn [nat_strings In] in Hin.
    repeat (destruct Hin as [<- | Hin]; [discriminate H |]). contradiction.
  - now rewrite H.
Qed.

(** For a date written [YYYY-MM-DD], with or without a time of day, the
    start date number is the day offset of that calendar date. *)
Lemma start_date_numeric_iso (w : World) (s : PyStr) (ns : Z) :
  parse_iso8601 s = Some (DtNaive ns) ->
  exists year month day,
    valid_date year month day = true
    /\ start_date_numeric w s = inr (VInt (day_offset year month day)).
Proof.
  intros H.
  destruct (parse_iso8601_naive s ns H) as (y & m & d & h & mi & se & Hd & Ht & ->).
  exists y, m, d. split; [exact Hd |].
  unfold start_date_numeric. rewrite (to_datetime_iso w s _ H), Timestamp_epoch.
  cbn [timestamp_sub timedelta_floordiv]. unfold Timedelta_1D.
  rewrite Z.sub_0_r, datetimestruct_to_ns_split.
  now rewrite (floor_days _ _ (time_of_day_bounds h mi se Ht)).
Qed.

(** The missing value parses too, and gives the float NaN. *)
Lemma start_date_numeric_NaT (w : World) :
  to_datetime w (py "NaT") = DtNaT
  /\ start_date_numeric w (py "NaT") = inr (VFloat FNaN)
  /\ start_date_numeric w [] = inr (VFloat FNaN).
Proof. repeat split. Qed.

Lemma start_date_numeric_ext (w1 w2 : World) (start_date : PyStr) :
  to_datetime w1 start_date = to_datetime w2 start_date ->
  start_date_numeric w1 start_date = start_date_numeric w2 start_date.
Proof. intros H. unfold start_date_numeric. now rewrite H. Qed.

(** ** The script, stage by stage *)

Lemma main_after_load (w : World) (model : Model) :
  model_loaded w model ->
  main w =
  let! (ticker, start_date) := read_args w in
  let! input_data := preprocess w ticker start_date in
  predict_and_print model ticker start_date input_data.
Proof. intros [Hi Hl]. unfold main. now rewrite Hi, Hl. Qed.

Lemma read_args_some (w : World) (ticker start_date : PyStr) :
  nth_error (argv w) 1 = Some ticker ->
  nth_error (argv w) 2 = Some start_date ->
  read_args w = Continue (ticker, start_date).
Proof. intros H1 H2. unfold read_args. now rewrite H1, H2. Qed.

Lemma main_with_args (w : World) (model : Model) (ticker start_date : PyStr) :
  model_loaded w model ->
  nth_error (argv w) 1 = Some ticker ->
  nth_error (argv w) 2 = Some start_date ->
  main w =
  let! input_data := preprocess w ticker start_date in
  predict_and_print model ticker start_date input_data.
Proof.
  intros Hm H1 H2. rewrite (main_after_load w model Hm).
  now rewrite (read_args_some w ticker start_date H1 H2).
Qed.

Lemma main_load_raises (w : World) (e : PyExc) :
  imports w = Continue tt ->
  file_at w (model_path w) = Some (LoadRaises e) ->
  main w = die_uncaught e.
Proof. intros Hi Hf. unfold main, load_model. now rewrite Hi, Hf. Qed.

Lemma main_missing_model (w : World) :
  imports w = Continue tt ->
  file_at w (model_path w) = None ->
  main w = exit_with_error (py "Model file not found at " ++ model_path w)%list [].
Proof. intros Hi Hf. unfold main, load_model. now rewrite Hi, Hf. Qed.

Lemma main_parse_failure (w : World) (model : Model) (ticker start_date : PyStr) (e : PyExc) :
  model_loaded w model ->
  nth_error (argv w) 1 = Some ticker ->
  nth_error (argv w) 2 = Some start_date ->
  start_date_numeric w start_date = inl (Raises e) ->
  main w = exit_with_error (py "Failed to preprocess inputs: " ++ exc_str e)%list [].
Proof.
  intros Hm H1 H2 Hd.
  rewrite (main_with_args w model ticker start_date Hm H1 H2).
  unfold preprocess. now rewrite Hd.
Qed.

Lemma features_frame (tn : Z) (sdn : PyVal) :
  DataFrame_of_records [features tn sdn]
  = {| df_columns := feature_columns;
       df_rows := [[VInt tn; sdn; VInt 0; VInt 0; VInt 0; VInt 0; VInt 0; VInt 0;
                    VInt 0; VInt 0]] |}.
Proof. reflexivity. Qed.

Lemma preprocess_continue (w : World) (ticker start_date : PyStr) (df : DataFrame) :
  preprocess w ticker start_date = Continue df ->
  exists sdn,
    start_date_numeric w start_date = inr sdn
    /\ df = DataFrame_of_records [features (ticker_numeric w ticker) sdn].
Proof.
  unfold preprocess. destruct (start_date_numeric w start_date) as [[e | b] | sdn].
  - discriminate.
  - discriminate.
  - intros H. injection H as <-. eauto.
Qed.

(** Every frame handed to the model was built by the preprocessing
    block, and there is at most one. *)
Lemma predict_calls_built (w : World) (df : DataFrame) :
  In df (predict_calls (main w)) ->
  predict_calls (main w) = [df]
  /\ exists ticker start_date,
       nth_error (argv w) 1 = Some ticker
       /\ nth_error (argv w) 2 = Some start_date
       /\ preprocess w ticker start_date = Continue df.
Proof.
  unfold main, imports, load_model, read_args, predict_and_print.
  destruct (import_pandas_numpy w) as [[e | b] |]; try contradiction.
  destruct (import_xgboost w) as [[e | b] |];
    [destruct (exc_is_module_not_found e); contradiction | contradiction |].
  destruct (file_at w (model_path w)) as [[e | b | model] |]; try contradiction.
  destruct (nth_error (argv w) 1) as [ticker |]; [| contradiction].
  destruct (nth_error (argv w) 2) as [start_date |]; [| contradiction].
  cbn [and_then].
  destruct (preprocess w ticker start_date) as [o | input_data] eqn:Hpre.
  - unfold preprocess in Hpre.
    destruct (start_date_numeric w start_date) as [[e | b] | sdn];
      [| | discriminate Hpre]; injection Hpre as <-; contradiction.
  - cbn [and_then].
    destruct (predict model input_data);
      cbn [predict_calls exit_with_error die_escaped];
      intros [<- | []]; eauto 6.
Qed.

(** The frames the model receives have the shape the preprocessing block
    gives them. *)
Lemma predicted_frame_shape (w : World) (df : DataFrame) :
  In df (predict_calls (main w)) ->
  df_columns df = feature_columns
  /\ exists tn sdn,
       df_rows df
       = [[VInt tn; sdn; VInt 0; VInt 0; VInt 0; VInt 0; VInt 0; VInt 0; VInt 0;
           VInt 0]].
Proof.
  intros H. destruct (predict_calls_built w df H) as (_ & ticker & start_date & _ & _ & Hp).
  destruct (preprocess_continue w ticker start_date df Hp) as (sdn & _ & ->).
  rewrite features_frame. split; [reflexivity |].
  exists (ticker_numeric w ticker), sdn. reflexivity.
Qed.

Lemma tolist_is_list (a : ndarray) :
  (forall x, a <> Nd0 x) -> exists l, tolist a = VList l.
Proof. destruct a as [x | xs | subs]; simpl; eauto. intros H. now destruct (H x). Qed.

Lemma success_text_eq (ticker start_date : PyStr) (prediction : PyVal) :
  py_print
    (json_dumps
       (VDict [ (py "ticker", VStr ticker);
                (py "start_date", VStr start_date);
                (py "prediction", prediction) ]))
  = success_text (escape_body ticker) (escape_body start_date) (json_dumps prediction).
Proof.
  unfold py_print, success_text.
  cbn -[escape_body newline]. unfold encode_basestring_ascii.
  repeat first [rewrite !append_assoc | progress cbn -[escape_body newline]].
  reflexivity.
Qed.

(** The four ways a run can end: a traceback, an exception outside
    [Exception], an error document, or the result line, printed once
    every earlier stage has gone through. *)
Lemma main_outcomes (w : World) :
  (exists e, main w = die_uncaught e)
  \/ (exists b calls, main w = die_escaped b calls)
  \/ (exists msg calls, main w = exit_with_error msg calls)
  \/ (exists model ticker start_date df a,
        model_loaded w model
        /\ nth_error (argv w) 1 = Some ticker
        /\ nth_error (argv w) 2 = Some start_date
        /\ preprocess w ticker start_date = Continue df
        /\ predict model df = PredictReturns a
        /\ main w
           = {| stdout :=
                  py_print
                    (json_dumps
                       (VDict [ (py "ticker", VStr ticker);
                                (py "start_date", VStr start_date);
                                (py "prediction", tolist a) ]));
                stderr := "";
                exit_code := 0;
                predict_calls := [df];
                uncaught := None |}).
Proof.
  unfold model_loaded, main, imports, load_model, read_args, predict_and_print.
  destruct (import_pandas_numpy w) as [[e | b] |];
    [left; eexists; reflexivity | right; left; do 2 eexists; reflexivity |].
  destruct (import_xgboost w) as [[e | b] |].
  { destruct (exc_is_module_not_found e);
      [right; right; left; do 2 eexists; reflexivity | left; eexists; reflexivity]. }
  { right; left; do 2 eexists; reflexivity. }
  cbn [and_then].
  destruct (file_at w (model_path w)) as [[e | b | model] |];
    [left; eexists; reflexivity | right; left; do 2 eexists; reflexivity |
    | right; right; left; do 2 eexists; reflexivity].
  cbn [and_then].
  destruct (nth_error (argv w) 1) as [ticker |]; [| left; eexists; reflexivity].
  destruct (nth_error (argv w) 2) as [start_date |]; [| left; eexists; reflexivity].
  cbn [and_then].
  destruct (preprocess w ticker start_date) as [o | df] eqn:Hp.
  { unfold preprocess in Hp.
    destruct (start_date_numeric w start_date) as [[e | b] | sdn];
      [| | discriminate Hp]; injection Hp as <-; cbn [and_then].
    - right; right; left; do 2 eexists; reflexivity.
    - right; left; do 2 eexists; reflexivity. }
  cbn [and_then].
  destruct (predict model df) as [e | b | a] eqn:Ha;
    [right; right; left; do 2 eexists; reflexivity
    | right; left; do 2 eexists; reflexivity |].
  right. right. right. exists model, ticker, start_date, df, a.
  repeat split; assumption.
Qed.

(** ** The two outcomes *)

Lemma error_exit_is_claimed_failure (msg : PyStr) (calls : list DataFrame) :
  claimed_failure (exit_with_error msg calls)
  /\ stdout (exit_with_error msg calls) = ""
  /\ ~ claimed_success (exit_with_error msg calls).
Proof.
  split; [split; [reflexivity | apply error_text_is_error_document] |].
  split; [reflexivity |]. intros [H _]. discriminate H.
Qed.

Lemma uncaught_is_neither (e : PyExc) :
  ~ claimed_success (die_uncaught e) /\ ~ claimed_failure (die_uncaught e).
Proof.
  split; intros [Hc Hd].
  - discriminate Hc.
  - apply error_document_is_json in Hd. now apply traceback_not_json in Hd.
Qed.

Lemma success_document_valid (ticker start_date : PyStr) (a : ndarray) :
  finite_val (tolist a) = true ->
  json_document
    (py_print
       (json_dumps
          (VDict [ (py "ticker", VStr ticker);
                   (py "start_date", VStr start_date);
                   (py "prediction", tolist a) ]))).
Proof.
  intros H. apply py_print_document, json_dumps_value.
  cbn [finite_val forallb snd]. now rewrite H.
Qed.

Lemma stump_predicts_finite (df : DataFrame) (a : ndarray) :
  predict Example.stump df = PredictReturns a -> finite_val (tolist a) = true.
Proof.
  cbn [predict Example.stump].
  destruct (df_rows df) as [|[|[] row] [|]]; try discriminate.
  intros H. injection H as <-. now destruct (50000000 <=? z).
Qed.

(** A run in which no library call wrote to stderr is seen as the script
    leaves it. *)
Lemma process_quiet (w : World) : library_stderr w = "" -> process w = main w.
Proof. intros H. unfold process. rewrite H. now destruct (main w). Qed.

(** The text of that run, as it appears on the terminal. *)
Lemma healthy_run_stdout :
  stdout (main (Example.healthy 0 ["AAPL"; "2023-01-01"]))
  = "{" ++ quote ++ "ticker" ++ quote ++ ": " ++ quote ++ "AAPL" ++ quote ++ ", "
        ++ quote ++ "start_date" ++ quote ++ ": " ++ quote ++ "2023-01-01" ++ quote ++ ", "
        ++ quote ++ "prediction" ++ quote ++ ": [1.0]}" ++ newline.
Proof. reflexivity. Qed.

(** * The claims of the specification *)

(** ** C1: the two outcomes *)

(** C1, as the code has it.  With both arguments supplied, a run ends in
    exactly one of the two outcomes (status 0 with a JSON text on stdout
    and nothing on stderr, or status 1 with an error document on stderr
    and nothing on stdout) provided that pandas and numpy import, that
    the xgboost import either succeeds or fails with
    [ModuleNotFoundError], that the model file, when present, unpickles,
    that no library call raises outside [Exception] or writes to stderr,
    and that the numbers the model predicts are finite. *)
Theorem C1_one_outcome_on_guarded_paths (w : World) (ticker start_date : PyStr) :
  nth_error (argv w) 1 = Some ticker ->
  nth_error (argv w) 2 = Some start_date ->
  import_pandas_numpy w = None ->
  (forall r, import_xgboost w = Some r ->
             exists e, r = Raises e /\ exc_is_module_not_found e = true) ->
  (forall e, file_at w (model_path w) <> Some (LoadRaises e)) ->
  (forall b, file_at w (model_path w) <> Some (LoadEscapes b)) ->
  (forall b, to_datetime w start_date <> DtEscapes b) ->
  (forall model df,
      file_at w (model_path w) = Some (Loads model) ->
      (forall b, predict model df <> PredictEscapes b)
      /\ (forall a, predict model df = PredictReturns a ->
                    finite_val (tolist a) = true)) ->
  library_stderr w = "" ->
  (claimed_success (process w) /\ stderr (process w) = ""
   /\ ~ claimed_failure (process w))
  \/ (claimed_failure (process w) /\ stdout (process w) = ""
      /\ ~ claimed_success (process w)).
Proof.
  intros H1 H2 Hp Hx Hl Hle Hd Hm Hquiet.
  rewrite (process_quiet w Hquiet).
  unfold main, imports, load_model, read_args, preprocess, predict_and_print.
  rewrite Hp, H1, H2. cbv zeta.
  destruct (import_xgboost w) as [r |] eqn:Ex.
  { destruct (Hx r eq_refl) as (e & -> & He). rewrite He.
    right. apply error_exit_is_claimed_failure. }
  cbn [and_then].
  destruct (file_at w (model_path w)) as [[e | b | model] |] eqn:Ef.
  { now destruct (Hl e). }
  { now destruct (Hle b). }
  2: { right. apply error_exit_is_claimed_failure. }
  cbn [and_then].
  destruct (start_date_numeric w start_date) as [[e | b] | sdn] eqn:Es.
  { right. apply error_exit_is_claimed_failure. }
  { exfalso. unfold start_date_numeric in Es. rewrite Timestamp_epoch in Es.
    destruct (to_datetime w start_date) as [e | b' | | ns | ns tz] eqn:Et;
      cbn [timestamp_sub] in Es; try discriminate Es.
    now destruct (Hd b'). }
  cbn [and_then].
  destruct (Hm model (DataFrame_of_records [features (ticker_numeric w ticker) sdn])
              eq_refl) as [Hesc Hfin].
  destruct (predict model _) as [e | b | a] eqn:Epred.
  { right. apply error_exit_is_claimed_failure. }
  { now destruct (Hesc b). }
  left. split; [split; [reflexivity |] | split; [reflexivity |]].
  - cbn [stdout]. apply success_document_valid. exact (Hfin a eq_refl).
  - intros [H _]. discriminate H.
Qed.

Lemma C1_one_outcome_on_guarded_paths_witness :
  let w := Example.healthy 0 ["AAPL"; "2023-01-01"] in
  claimed_success (process w) /\ stderr (process w) = ""
  /\ ~ claimed_failure (process w).
Proof.
  cbv zeta.
  destruct (C1_one_outcome_on_guarded_paths
              (Example.healthy 0 ["AAPL"; "2023-01-01"]) (py "AAPL") (py "2023-01-01"))
    as [H | [[H _] _]].
  - reflexivity.
  - reflexivity.
  - reflexivity.
  - intros r H. discriminate H.
  - intros e H. discriminate H.
  - intros b H. discriminate H.
  - intros b H. discriminate H.
  - intros model df H. injection H as <-. split.
    + intros b. cbn [predict Example.stump].
      destruct (df_rows df) as [|[|[] row] [|]]; discriminate.
    + intros a. apply stump_predicts_finite.
  - reflexivity.
  - exact H.
  - discriminate H.
Defined.

(** C1 as stated fails on paths the script leaves unguarded.  When
    xgboost is installed but raises something other than
    [ModuleNotFoundError] on import, or pandas is missing, the exception
    is not caught and the run ends in neither outcome.  When the model
    predicts NaN, the run ends with status 0 but what it prints is not
    JSON.  When [model.predict] leaves through [sys.exit(3)], neither
    handler applies: the status is 3 and nothing is written.  And a
    start date that pandas reads with a warning, such as 13/01/2023,
    puts that warning on stderr: in front of the error document when the
    run then fails, so that stderr as a whole is not one, and beside the
    result on stdout when the run succeeds. *)
Lemma C1_counterexample :
  let args := ["AAPL"; "2023-01-01"] in
  let w_xgb := Example.run 0 (Some Example.library_load_error)
                 (Some (Loads Example.stump)) args in
  let w_pandas := Example.without_pandas args in
  let w_nan := Example.run 0 None (Some (Loads Example.nan_model)) args in
  let w_exit := Example.run 0 None (Some (Loads Example.exiting_model)) args in
  let w_warn := Example.day_first Example.stump in
  let w_warn_fails := Example.day_first Example.strict_model in
  (~ claimed_success (process w_xgb) /\ ~ claimed_failure (process w_xgb))
  /\ (~ claimed_success (process w_pandas) /\ ~ claimed_failure (process w_pandas))
  /\ (exit_code (process w_nan) = 0
      /\ ~ claimed_success (process w_nan) /\ ~ claimed_failure (process w_nan))
  /\ (exit_code (process w_exit) = 3
      /\ stdout (process w_exit) = "" /\ stderr (process w_exit) = ""
      /\ ~ claimed_success (process w_exit) /\ ~ claimed_failure (process w_exit))
  /\ (exit_code (process w_warn_fails) = 1
      /\ stderr (process w_warn_fails)
         = Example.day_first_warning ++ error_text (py "feature shape mismatch")
      /\ ~ claimed_success (process w_warn_fails)
      /\ ~ claimed_failure (process w_warn_fails))
  /\ (claimed_success (process w_warn)
      /\ stderr (process w_warn) = Example.day_first_warning).
Proof.
  cbv zeta. split; [| split; [| split; [| split; [| split]]]].
  - rewrite process_quiet by reflexivity.
    apply (uncaught_is_neither Example.library_load_error).
  - rewrite process_quiet by reflexivity.
    apply (uncaught_is_neither Example.pandas_missing).
  - split; [reflexivity | split].
    + intros [_ H]. revert H. apply not_json_by_scan. vm_compute. discriminate.
    + intros [H _]. discriminate H.
  - split; [reflexivity | split; [reflexivity | split; [reflexivity | split]]].
    + intros [H _]. discriminate H.
    + intros [H _]. discriminate H.
  - split; [reflexivity | split; [reflexivity | split]].
    + intros [H _]. discriminate H.
    + intros [_ H]. apply error_document_is_json, json_document_starts in H.
      destruct H as (c & r & Heq & Hc).
      vm_compute in Heq. injection Heq as <- _. discriminate Hc.
  - split; [| reflexivity].
    split; [reflexivity |].
    change (stdout (process (Example.day_first Example.stump)))
      with (stdout (main (Example.day_first Example.stump))).
    assert (Hmain : main (Example.day_first Example.stump)
                    = predict_and_print Example.stump (py "AAPL") (py "13/01/2023")
                        (DataFrame_of_records
                           [features
                              (ticker_numeric (Example.day_first Example.stump) (py "AAPL"))
                              (VInt 19370)]))
      by reflexivity.
    rewrite Hmain.
    assert (Hp : predict Example.stump
                   (DataFrame_of_records
                      [features
                         (ticker_numeric (Example.day_first Example.stump) (py "AAPL"))
                         (VInt 19370)])
                 = PredictReturns (Nd1 [NumFloat Example.one]))
      by (vm_compute; reflexivity).
    unfold predict_and_print. rewrite Hp. cbn [stdout].
    apply success_document_valid. reflexivity.
Qed.

(** ** C2: two runs *)

(** C2, as the code has it.  Two runs with the same arguments, the same
    installed packages and the same model file give the same predictions
    (the same stdout, exit status and calls to the model) provided the
    ticker gets the same encoding in both processes and the start date
    parses to the same result in both.  The proviso is needed: the
    encoding goes through the built-in string hash, whose secret each
    process draws for itself. *)
Theorem C2_same_predictions_when_encodings_agree (w1 w2 : World) :
  argv w1 = argv w2 ->
  import_pandas_numpy w1 = import_pandas_numpy w2 ->
  import_xgboost w1 = import_xgboost w2 ->
  file_at w1 (model_path w1) = file_at w2 (model_path w2) ->
  (forall ticker, nth_error (argv w1) 1 = Some ticker ->
                  ticker_numeric w1 ticker = ticker_numeric w2 ticker) ->
  (forall start_date, nth_error (argv w1) 2 = Some start_date ->
                      to_datetime w1 start_date = to_datetime w2 start_date) ->
  stdout (main w1) = stdout (main w2)
  /\ exit_code (main w1) = exit_code (main w2)
  /\ predict_calls (main w1) = predict_calls (main w2).
Proof.
  intros Ha Hp Hx Hf Ht Hd.
  unfold main, imports, load_model, read_args, preprocess.
  rewrite <- Ha, <- Hp, <- Hx, <- Hf. cbv zeta.
  destruct (import_pandas_numpy w1) as [[e | b] |]; [repeat split | repeat split |].
  destruct (import_xgboost w1) as [[e | b] |];
    [destruct (exc_is_module_not_found e); repeat split | repeat split |].
  cbn [and_then].
  destruct (file_at w1 (model_path w1)) as [[e | b | model] |];
    try (repeat split; fail).
  destruct (nth_error (argv w1) 1) as [ticker |]; [| repeat split].
  destruct (nth_error (argv w1) 2) as [start_date |]; [| repeat split].
  cbn [and_then].
  rewrite <- (Ht ticker eq_refl).
  rewrite <- (start_date_numeric_ext w1 w2 start_date (Hd start_date eq_refl)).
  destruct (start_date_numeric w1 start_date) as [[e | b] | sdn]; repeat split.
Qed.

Lemma C2_same_predictions_when_encodings_agree_witness :
  let w1 := Example.healthy 0 ["AAPL"; "2023-01-01"] in
  let w2 :=
    {| argv := argv w1;
       script_file := py "predict.py";
       import_pandas_numpy := None;
       import_xgboost := None;
       file_at := fun p => if PyStr_eqb p (py "Model/xgb_model.pkl")
                           then Some (Loads Example.stump) else None;
       str_hash := fun s => - str_hash w1 s;
       to_datetime_other := fun _ => DtNaT;
       traceback_entry := fun _ => "";
       warnings_at := Example.quiet |} in
  stdout (main w1) = stdout (main w2)
  /\ exit_code (main w1) = exit_code (main w2)
  /\ predict_calls (main w1) = predict_calls (main w2).
Proof.
  cbv zeta.
  apply C2_same_predictions_when_encodings_agree; try reflexivity.
  - intros ticker _. unfold ticker_numeric. cbn [str_hash].
    now rewrite Z.abs_opp.
  - intros start_date H. injection H as <-. reflexivity.
Defined.

(** C2 as stated fails: the same command line against the same model file,
    under two hash secrets (here those of [PYTHONHASHSEED=0] and
    [PYTHONHASHSEED=1]), encodes AAPL as 65762322 and as 22706111, and the
    model answers 1.0 to the first and 0.0 to the second.  It also fails,
    with the hash secret pinned, for a start date that is read off the
    clock: noon of 2023-05-22 and noon of the day after. *)
Lemma C2_counterexample :
  let w1 := Example.healthy 0 ["AAPL"; "2023-01-01"] in
  let w2 := Example.healthy 1 ["AAPL"; "2023-01-01"] in
  let v1 := Example.run_at (19499 * NS_PER_DAY + NS_PER_DAY / 2) ["AAPL"; "today"] in
  let v2 := Example.run_at (19500 * NS_PER_DAY + NS_PER_DAY / 2) ["AAPL"; "today"] in
  (argv w1 = argv w2
   /\ file_at w1 = file_at w2
   /\ ticker_numeric w1 (py "AAPL") = 65762322
   /\ ticker_numeric w2 (py "AAPL") = 22706111
   /\ exit_code (main w1) = 0
   /\ exit_code (main w2) = 0
   /\ stdout (main w1) <> stdout (main w2))
  /\ (argv v1 = argv v2
      /\ file_at v1 = file_at v2
      /\ str_hash v1 = str_hash v2
      /\ exit_code (main v1) = 0
      /\ exit_code (main v2) = 0
      /\ stdout (main v1) <> stdout (main v2)).
Proof.
  cbv zeta. split.
  - repeat (split; [reflexivity |]). vm_compute. discriminate.
  - repeat (split; [reflexivity |]). vm_compute. discriminate.
Qed.

(** ** C3: the load of the model has no handler *)

(** C3. When the model file is there but opening or unpickling it raises,
    the exception is not caught: the process does end with a non-zero
    status, but what it leaves on stderr is the interpreter's traceback,
    which is not a JSON document, instead of the structured error object
    the specification asks for. *)
Theorem C3_load_failure_is_uncaught (w : World) (e : PyExc) :
  imports w = Continue tt ->
  file_at w (model_path w) = Some (LoadRaises e) ->
  exit_code (main w) = 1
  /\ stdout (main w) = ""
  /\ stderr (main w) = format_uncaught e
  /\ ~ json_document (stderr (main w)).
Proof.
  intros Hi Hf. rewrite (main_load_raises w e Hi Hf). simpl.
  repeat split. apply traceback_not_json.
Qed.

Lemma C3_load_failure_is_uncaught_witness :
  let w := Example.run 0 None (Some (LoadRaises Example.unpickling_error))
             ["AAPL"; "2023-01-01"] in
  exit_code (main w) = 1
  /\ stdout (main w) = ""
  /\ stderr (main w) = format_uncaught Example.unpickling_error
  /\ ~ json_document (stderr (main w)).
Proof.
  apply (C3_load_failure_is_uncaught
           (Example.run 0 None (Some (LoadRaises Example.unpickling_error))
              ["AAPL"; "2023-01-01"])
           Example.unpickling_error); reflexivity.
Defined.

(** ** C4: the start date number *)

(** C4, as the code has it.  When [pd.to_datetime] gives a timestamp
    without time zone, falling on the calendar date year-month-day at
    some time of day, [start_date_numeric] is the integer day offset of
    that date from 1970-01-01.  The string 1970-01-02 gives 1 in every
    world. *)
Theorem C4_day_offset_of_naive_timestamp :
  (forall (w : World) (start_date : PyStr) (year month day tod : Z),
      to_datetime w start_date = DtNaive (day_offset year month day * NS_PER_DAY + tod) ->
      0 <= tod < NS_PER_DAY ->
      start_date_numeric w start_date = inr (VInt (day_offset year month day)))
  /\ (forall w : World, start_date_numeric w (py "1970-01-02") = inr (VInt 1)).
Proof.
  split.
  - intros w start_date year month day tod Hd Htod.
    unfold start_date_numeric. rewrite Hd, Timestamp_epoch.
    cbn [timestamp_sub timedelta_floordiv]. unfold Timedelta_1D.
    rewrite Z.sub_0_r, (floor_days _ _ Htod). reflexivity.
  - intros w. reflexivity.
Qed.

Lemma C4_day_offset_of_naive_timestamp_witness :
  start_date_numeric (Example.healthy 0 ["AAPL"; "2023-01-01 12:30:00"])
    (py "2023-01-01 12:30:00")
  = inr (VInt 19358).
Proof.
  apply (proj1 C4_day_offset_of_naive_timestamp
           (Example.healthy 0 ["AAPL"; "2023-01-01 12:30:00"])
           (py "2023-01-01 12:30:00") 2023 1 1 (time_of_day_ns 12 30 0)).
  - reflexivity.
  - vm_compute. split; [discriminate | reflexivity].
Defined.

(** C4 as stated fails on a date that parses to a timestamp with a time
    zone: the parse succeeds, the subtraction of the zone-less epoch
    raises, and no [start_date_numeric] is produced.  It also fails on
    the string NaT, which parses to the missing value: the number
    produced is the float NaN, not an integer. *)
Lemma C4_counterexample :
  let w := Example.healthy 0 ["AAPL"; "1970-01-02T00:00:00Z"] in
  let start_date := py "1970-01-02T00:00:00Z" in
  let w' := Example.healthy 0 ["AAPL"; "NaT"] in
  (to_datetime w start_date = DtAware 86400000000000 (py "UTC")
   /\ start_date_numeric w start_date = inl (Raises type_error_tz)
   /\ (forall n, start_date_numeric w start_date <> inr (VInt n))
   /\ exit_code (main w) = 1)
  /\ (to_datetime w' (py "NaT") = DtNaT
      /\ start_date_numeric w' (py "NaT") = inr (VFloat FNaN)
      /\ (forall n, start_date_numeric w' (py "NaT") <> inr (VInt n))
      /\ exit_code (main w') = 0).
Proof.
  cbv zeta. split.
  - split; [reflexivity | split; [reflexivity | split; [| reflexivity]]].
    intros n H. discriminate H.
  - split; [reflexivity | split; [reflexivity | split; [| reflexivity]]].
    intros n H. discriminate H.
Qed.

(** ** C5: the success document *)

(** C5, as the code has it.  A run that ends with status 0 either was
    ended by [sys.exit] inside a library call, with nothing on stdout, or
    has written exactly one line to stdout and nothing of its own to
    stderr: the serialisation of the object with the keys [ticker],
    [start_date] and [prediction], in this order, where the first two
    values are the strings [sys.argv[1]] and [sys.argv[2]] themselves,
    each written as a string literal that reads back as the argument, and
    the third is what [model.predict] returned for the frame built from
    them, converted by [tolist]: a list when the array has an axis.  When
    the predicted numbers are finite, that line is a JSON text.  For the
    arguments AAPL and 2023-01-01 the two literals are these very
    characters between quotes. *)
Theorem C5_success_document :
  (forall w : World,
      exit_code (main w) = 0 ->
      (stdout (main w) = "" /\ exists b calls, main w = die_escaped b calls)
      \/ exists model ticker start_date df a,
           model_loaded w model
           /\ nth_error (argv w) 1 = Some ticker
           /\ nth_error (argv w) 2 = Some start_date
           /\ preprocess w ticker start_date = Continue df
           /\ predict model df = PredictReturns a
           /\ stdout (main w)
              = py_print
                  (json_dumps
                     (VDict [ (py "ticker", VStr ticker);
                              (py "start_date", VStr start_date);
                              (py "prediction", tolist a) ]))
           /\ stdout (main w)
              = success_text (escape_body ticker) (escape_body start_date)
                  (json_dumps (tolist a))
           /\ (argv_string ticker = true ->
               unescape_body (escape_body ticker) = Some ticker)
           /\ (argv_string start_date = true ->
               unescape_body (escape_body start_date) = Some start_date)
           /\ stderr (process w) = library_stderr w
           /\ ((forall x, a <> Nd0 x) -> exists l, tolist a = VList l)
           /\ (finite_val (tolist a) = true -> json_document (stdout (main w))))
  /\ (forall w : World,
        exit_code (main w) = 0 ->
        stdout (main w) <> "" ->
        nth_error (argv w) 1 = Some (py "AAPL") ->
        nth_error (argv w) 2 = Some (py "2023-01-01") ->
        exists model df a,
          model_loaded w model
          /\ predict model df = PredictReturns a
          /\ stdout (main w)
             = success_text "AAPL" "2023-01-01" (json_dumps (tolist a))).
Proof.
  assert (Hgeneral :
            forall w : World,
              exit_code (main w) = 0 ->
              (stdout (main w) = "" /\ exists b calls, main w = die_escaped b calls)
              \/ exists model ticker start_date df a,
                   model_loaded w model
                   /\ nth_error (argv w) 1 = Some ticker
                   /\ nth_error (argv w) 2 = Some start_date
                   /\ preprocess w ticker start_date = Continue df
                   /\ predict model df = PredictReturns a
                   /\ stdout (main w)
                      = py_print
                          (json_dumps
                             (VDict [ (py "ticker", VStr ticker);
                                      (py "start_date", VStr start_date);
                                      (py "prediction", tolist a) ]))
                   /\ stdout (main w)
                      = success_text (escape_body ticker) (escape_body start_date)
                          (json_dumps (tolist a))
                   /\ (argv_string ticker = true ->
                       unescape_body (escape_body ticker) = Some ticker)
                   /\ (argv_string start_date = true ->
                       unescape_body (escape_body start_date) = Some start_date)
                   /\ stderr (process w) = library_stderr w
                   /\ ((forall x, a <> Nd0 x) -> exists l, tolist a = VList l)
                   /\ (finite_val (tolist a) = true ->
                       json_document (stdout (main w)))).
  { intros w Hexit. unfold process. cbn [stderr].
    destruct (main_outcomes w)
      as [(e & Hmain) | [(b & calls & Hmain) | [(msg & calls & Hmain)
         | (model & ticker & start_date & df & a & Hm & H1 & H2 & Hp & Ha & Hmain)]]];
      rewrite Hmain in Hexit |- *.
    - discriminate Hexit.
    - left. split; [reflexivity | now exists b, calls].
    - discriminate Hexit.
    - right. exists model, ticker, start_date, df, a. cbn [stdout stderr].
      repeat (split; [assumption |]).
      split; [reflexivity |].
      split; [apply success_text_eq |].
      split; [apply unescape_escape_body |].
      split; [apply unescape_escape_body |].
      split; [apply append_nil_r |].
      split; [apply tolist_is_list |].
      intros Hfin. now apply success_document_valid. }
  split; [exact Hgeneral |].
  intros w Hexit Hout H1 H2.
  destruct (Hgeneral w Hexit)
    as [[Hempty _]
       | (model & ticker & start_date & df & a & Hm & Ht & Hd & _ & Ha & _ & Htext & _)].
  - now destruct Hout.
  - rewrite H1 in Ht. rewrite H2 in Hd.
    injection Ht as <-. injection Hd as <-.
    exists model, df, a. split; [exact Hm | split; [exact Ha | exact Htext]].
Qed.

Lemma C5_success_document_witness :
  let w := Example.healthy 0 ["AAPL"; "2023-01-01"] in
  exit_code (main w) = 0
  /\ exists model df a,
       model_loaded w model
       /\ predict model df = PredictReturns a
       /\ stdout (main w) = success_text "AAPL" "2023-01-01" (json_dumps (tolist a)).
Proof.
  cbv zeta. split; [reflexivity |].
  apply (proj2 C5_success_document (Example.healthy 0 ["AAPL"; "2023-01-01"]));
    try reflexivity.
  discriminate.
Defined.

(** C5 as stated fails when the model returns something that is not a
    list of finite numbers.  A NaN in the prediction is printed as the
    bare word NaN: the run ends with status 0, and the line on stdout is
    not a JSON text.  An array without an axis is printed as the number
    itself: the value under [prediction] is 1.5, not a list. *)
Lemma C5_counterexample :
  let args := ["AAPL"; "2023-01-01"] in
  let w_nan := Example.run 0 None (Some (Loads Example.nan_model)) args in
  let w_scalar := Example.run 0 None (Some (Loads Example.scalar_model)) args in
  (exit_code (process w_nan) = 0
   /\ stdout (process w_nan) = success_text "AAPL" "2023-01-01" "[NaN]"
   /\ ~ json_document (stdout (process w_nan)))
  /\ (exit_code (process w_scalar) = 0
      /\ stdout (process w_scalar) = success_text "AAPL" "2023-01-01" "1.5"
      /\ forall l, tolist (Nd0 (NumFloat (FFinite false 1 [5%N] 1))) <> VList l).
Proof.
  cbv zeta. split.
  - split; [reflexivity | split; [reflexivity |]].
    apply not_json_by_scan. vm_compute. discriminate.
  - split; [reflexivity | split; [reflexivity |]].
    intros l H. discriminate H.
Qed.

(** ** C6: the ticker encoding *)

(** C6. The ticker encoding is the absolute value of the string's hash
    reduced modulo 10^8, hence an integer from 0 up to but excluding 10^8,
    and it is the value the feature record carries in its first field. *)
Theorem C6_ticker_encoding (w : World) (ticker : PyStr) :
  ticker_numeric w ticker = Z.abs (str_hash w ticker) mod 10 ^ 8
  /\ 0 <= ticker_numeric w ticker < 10 ^ 8
  /\ forall sdn,
       cell (DataFrame_of_records [features (ticker_numeric w ticker) sdn]) (py "ticker")
       = Some (VInt (ticker_numeric w ticker)).
Proof.
  split; [reflexivity | split].
  - unfold ticker_numeric. apply Z.mod_pos_bound. reflexivity.
  - intros sdn. reflexivity.
Qed.

(** ** C7: the feature record *)

(** C7, as the code has it.  Every frame the preprocessing block builds
    has one row and the ten columns [ticker], [start_date], [feature_1] to
    [feature_8], in this order; the first cell is the ticker encoding, the
    second the start date number, and the eight others are the integer
    0. *)
Theorem C7_feature_record_shape
    (w : World) (ticker start_date : PyStr) (df : DataFrame) :
  preprocess w ticker start_date = Continue df ->
  df_columns df = feature_columns
  /\ List.length (df_columns df) = 10%nat
  /\ exists sdn,
       start_date_numeric w start_date = inr sdn
       /\ df_rows df
          = [[VInt (ticker_numeric w ticker); sdn; VInt 0; VInt 0; VInt 0; VInt 0;
              VInt 0; VInt 0; VInt 0; VInt 0]].
Proof.
  intros H. destruct (preprocess_continue w ticker start_date df H) as (sdn & Hs & ->).
  rewrite features_frame. cbn [df_columns df_rows].
  split; [reflexivity | split; [reflexivity |]]. eauto.
Qed.

Lemma C7_feature_record_shape_witness :
  exists df,
    preprocess (Example.healthy 0 ["AAPL"; "2023-01-01"]) (py "AAPL") (py "2023-01-01")
    = Continue df
    /\ df_columns df = feature_columns
    /\ df_rows df
       = [[VInt 65762322; VInt 19358; VInt 0; VInt 0; VInt 0; VInt 0; VInt 0; VInt 0;
           VInt 0; VInt 0]].
Proof.
  eexists. split; [reflexivity |].
  destruct (C7_feature_record_shape
              (Example.healthy 0 ["AAPL"; "2023-01-01"]) (py "AAPL") (py "2023-01-01")
              _ eq_refl) as (Hc & _ & sdn & Hs & Hr).
  split; [exact Hc | reflexivity].
Defined.

(** C7 as stated fails on the names: the first two columns are called
    [ticker] and [start_date], and no column is called [ticker_numeric]
    or [start_date_numeric]. *)
Lemma C7_counterexample :
  exists df,
    predict_calls (main (Example.healthy 0 ["AAPL"; "2023-01-01"])) = [df]
    /\ df_columns df <> specified_columns
    /\ ~ In (py "ticker_numeric") (df_columns df)
    /\ ~ In (py "start_date_numeric") (df_columns df).
Proof.
  eexists. split; [reflexivity |].
  split; [discriminate | split].
  - vm_compute. intuition discriminate.
  - vm_compute. intuition discriminate.
Qed.

(** ** C8: unparseable dates *)

(** C8, as the code has it.  When the run reaches the preprocessing block
    (imports done, model loaded, both arguments present) and
    [pd.to_datetime] raises on the start date, the handler of that block
    catches the exception: the process prints the error document whose
    message is [Failed to preprocess inputs: ] followed by the exception's
    text, ends with status 1, writes nothing to stdout and never calls
    the model. *)
Theorem C8_parse_failure_is_caught
    (w : World) (model : Model) (ticker start_date : PyStr) (e : PyExc) :
  model_loaded w model ->
  nth_error (argv w) 1 = Some ticker ->
  nth_error (argv w) 2 = Some start_date ->
  to_datetime w start_date = DtRaise e ->
  let msg := (py "Failed to preprocess inputs: " ++ exc_str e)%list in
  exit_code (main w) = 1
  /\ stderr (main w) = error_text msg
  /\ error_document (stderr (main w))
  /\ mentions msg (py "Failed to preprocess inputs")
  /\ stdout (main w) = ""
  /\ predict_calls (main w) = [].
Proof.
  intros Hm H1 H2 Hd msg.
  rewrite (main_parse_failure w model ticker start_date e Hm H1 H2)
    by (unfold start_date_numeric; now rewrite Hd).
  fold msg.
  split; [reflexivity | split; [reflexivity |]].
  rewrite exit_with_error_stderr.
  split; [apply error_text_is_error_document | split; [| split; reflexivity]].
  exists [], (py ": " ++ exc_str e)%list. reflexivity.
Qed.

Lemma C8_parse_failure_is_caught_witness :
  let w := Example.healthy 0 ["AAPL"; "not-a-date"] in
  exit_code (main w) = 1 /\ stdout (main w) = "" /\ predict_calls (main w) = [].
Proof.
  destruct (C8_parse_failure_is_caught
              (Example.healthy 0 ["AAPL"; "not-a-date"]) Example.stump
              (py "AAPL") (py "not-a-date")
              {| exc_is_module_not_found := false;
                 exc_str := py "Unknown datetime string format, unable to parse: not-a-date";
                 exc_report := "dateutil.parser._parser.ParserError" ++ newline |})
    as (Hc & _ & _ & _ & Ho & Hp).
  - split; reflexivity.
  - reflexivity.
  - reflexivity.
  - reflexivity.
  - auto.
Defined.

(** C8 as stated fails when an earlier stage ends the run: with the model
    file absent, an unparseable date is never looked at, and the message
    printed is about the model file, not about preprocessing. *)
Lemma C8_counterexample :
  let w := Example.run 0 None None ["AAPL"; "not-a-date"] in
  let msg := py "Model file not found at /srv/app/Model/xgb_model.pkl" in
  (exists e, to_datetime w (py "not-a-date") = DtRaise e)
  /\ nth_error (argv w) 2 = Some (py "not-a-date")
  /\ stderr (main w) = error_text msg
  /\ ~ mentions msg (py "Failed to preprocess inputs").
Proof.
  cbv zeta. split; [eexists; reflexivity | split; [reflexivity | split; [reflexivity |]]].
  intros H. apply (mentions_In _ _ 99%N) in H.
  - revert H. apply not_In_by_computation. reflexivity.
  - vm_compute. tauto.
Qed.

(** ** C9: missing model file *)

(** C9, as the code has it.  Once the imports have gone through, a model
    file that is absent at the model path makes the process print the
    error document whose message is [Model file not found at] followed by
    that path, and end with status 1.  The path is fixed relative to the
    script: its directory, then [Model/xgb_model.pkl]. *)
Theorem C9_missing_model_reported (w : World) :
  imports w = Continue tt ->
  file_at w (model_path w) = None ->
  let msg := (py "Model file not found at " ++ model_path w)%list in
  exit_code (main w) = 1
  /\ stdout (main w) = ""
  /\ stderr (main w) = error_text msg
  /\ error_document (stderr (main w))
  /\ mentions msg (model_path w)
  /\ exists dir,
       model_path w = (dir ++ py "Model/xgb_model.pkl")%list
       /\ (dir = dirname (script_file w)
           \/ dir = (dirname (script_file w) ++ [SLASH])%list).
Proof.
  intros Hi Hf msg. rewrite (main_missing_model w Hi Hf). fold msg.
  split; [reflexivity | split; [reflexivity | split; [reflexivity |]]].
  rewrite exit_with_error_stderr.
  split; [apply error_text_is_error_document | split].
  - exists (py "Model file not found at "), []. subst msg. now rewrite app_nil_r.
  - apply model_path_shape.
Qed.

Lemma C9_missing_model_reported_witness :
  let w := Example.run 0 None None ["AAPL"; "2023-01-01"] in
  stderr (main w) = error_text (py "Model file not found at /srv/app/Model/xgb_model.pkl")
  /\ exit_code (main w) = 1.
Proof.
  destruct (C9_missing_model_reported
              (Example.run 0 None None ["AAPL"; "2023-01-01"])
              eq_refl eq_refl) as (Hc & _ & He & _).
  split; [exact He | exact Hc].
Defined.

(** C9 as stated fails when xgboost is not installed: the import guard
    runs first, and its message names no path. *)
Lemma C9_counterexample :
  let w := Example.run 0 (Some Example.module_not_found) None ["AAPL"; "2023-01-01"] in
  file_at w (model_path w) = None
  /\ stderr (main w) = error_text xgboost_missing_message
  /\ ~ mentions xgboost_missing_message (model_path w).
Proof.
  cbv zeta. split; [reflexivity | split; [reflexivity |]].
  intros H. apply (mentions_In _ _ SLASH) in H.
  - revert H. apply not_In_by_computation. reflexivity.
  - vm_compute. tauto.
Qed.

(** ** C10: too few arguments *)

(** C10, as the code has it.  Once the imports have gone through and the
    model is loaded, an invocation with fewer than two arguments ends in
    the [IndexError] of line 27 or 28, which nothing catches: status 1,
    nothing on stdout, a traceback on stderr and no error document. *)
Theorem C10_too_few_arguments (w : World) (model : Model) :
  model_loaded w model ->
  (List.length (argv w) < 3)%nat ->
  exists line,
    (line = 27 \/ line = 28)
    /\ main w = die_uncaught (index_error w line)
    /\ exit_code (main w) = 1
    /\ stdout (main w) = ""
    /\ ~ json_document (stderr (main w)).
Proof.
  intros Hm Hlen. rewrite (main_after_load w model Hm). unfold read_args.
  destruct (nth_error (argv w) 1) as [ticker|] eqn:H1.
  - destruct (nth_error_short (argv w) Hlen) as [H | H]; [congruence |].
    rewrite H. exists 28. cbn [and_then].
    repeat split; auto. apply traceback_not_json.
  - exists 27. cbn [and_then]. repeat split; auto. apply traceback_not_json.
Qed.

Lemma C10_too_few_arguments_witness :
  exists line,
    main (Example.healthy 0 ["AAPL"])
    = die_uncaught (index_error (Example.healthy 0 ["AAPL"]) line).
Proof.
  destruct (C10_too_few_arguments (Example.healthy 0 ["AAPL"]) Example.stump)
    as (line & _ & H & _).
  - split; reflexivity.
  - simpl. lia.
  - exists line. exact H.
Defined.

(** C10 as stated fails when an earlier stage ends the run: with the model
    file absent the process prints an error document of its own and never
    reaches the argument access. *)
Lemma C10_counterexample :
  let w := Example.run 0 None None ["AAPL"] in
  (List.length (argv w) < 3)%nat
  /\ error_document (stderr (main w))
  /\ forall e, main w <> die_uncaught e.
Proof.
  cbv zeta. split; [simpl; lia | split].
  - apply (error_text_is_error_document
             (py "Model file not found at /srv/app/Model/xgb_model.pkl")).
  - intros e H. apply (f_equal stderr) in H. discriminate H.
Qed.

(** * Further properties of the script *)

(** ** Helpers *)

Lemma py_print_nonempty (s : string) : py_print s <> "".
Proof. unfold py_print. destruct s; discriminate. Qed.

Lemma format_uncaught_nonempty (e : PyExc) : format_uncaught e <> "".
Proof. discriminate. Qed.

Lemma error_text_nonempty (msg : PyStr) : error_text msg <> "".
Proof. rewrite error_text_shape. discriminate. Qed.


Lemma main_with_frame
    (w : World) (model : Model) (ticker start_date : PyStr) (df : DataFrame) :
  model_loaded w model ->
  nth_error (argv w) 1 = Some ticker ->
  nth_error (argv w) 2 = Some start_date ->
  preprocess w ticker start_date = Continue df ->
  main w = predict_and_print model ticker start_date df.
Proof.
  intros Hm H1 H2 Hp. rewrite (main_with_args w model ticker start_date Hm H1 H2).
  now rewrite Hp.
Qed.

Lemma imports_continue (w : World) :
  imports w = Continue tt <-> import_pandas_numpy w = None /\ import_xgboost w = None.
Proof.
  unfold imports. split.
  - destruct (import_pandas_numpy w) as [[e | b] |]; try discriminate.
    destruct (import_xgboost w) as [[e | b] |]; [| discriminate | auto].
    destruct (exc_is_module_not_found e); discriminate.
  - intros [-> ->]. reflexivity.
Qed.

(** The library calls of a run that reaches the prediction wrote what
    each stretch wrote, in the order of the script. *)
Lemma library_stderr_at_predict
    (w : World) (model : Model) (ticker start_date : PyStr) (df : DataFrame) :
  model_loaded w model ->
  nth_error (argv w) 1 = Some ticker ->
  nth_error (argv w) 2 = Some start_date ->
  preprocess w ticker start_date = Continue df ->
  library_stderr w
  = warnings_at w AtImportPandas ++ warnings_at w AtImportXgboost
      ++ warnings_at w AtLoad ++ warnings_at w AtPreprocess
      ++ warnings_at w AtPredict.
Proof.
  intros [Hi Hl] H1 H2 Hp. unfold library_stderr.
  destruct (proj1 (imports_continue w) Hi) as [Hpn _].
  now rewrite Hpn, Hi, Hl, (read_args_some w ticker start_date H1 H2), Hp.
Qed.

(** ** The dependency check *)

(** X1. When pandas and numpy import and the import of xgboost raises
    [ModuleNotFoundError], the run ends at once with status 1 and the
    fixed error document about xgboost, whatever the file system and the
    arguments hold and whatever the text of the exception: the model file
    is not looked for and the model is not called. *)
Theorem X1_missing_xgboost_reported (w : World) (e : PyExc) :
  import_pandas_numpy w = None ->
  import_xgboost w = Some (Raises e) ->
  exc_is_module_not_found e = true ->
  main w = exit_with_error xgboost_missing_message []
  /\ exit_code (main w) = 1
  /\ stdout (main w) = ""
  /\ stderr (main w) = error_text xgboost_missing_message
  /\ error_document (stderr (main w))
  /\ mentions xgboost_missing_message (py "pip install xgboost")
  /\ predict_calls (main w) = [].
Proof.
  intros Hp Hx He.
  assert (Hmain : main w = exit_with_error xgboost_missing_message []).
  { unfold main, imports. now rewrite Hp, Hx, He. }
  rewrite Hmain. split; [reflexivity |].
  split; [reflexivity | split; [reflexivity | split; [reflexivity |]]].
  rewrite exit_with_error_stderr.
  split; [apply error_text_is_error_document | split; [| reflexivity]].
  exists (py "Required module xgboost is not installed. Please install it using "
          ++ [34%N])%list, [34%N; 46%N].
  reflexivity.
Qed.

Lemma X1_missing_xgboost_reported_witness :
  main (Example.run 0 (Some Example.module_not_found) None [])
  = exit_with_error xgboost_missing_message []
  /\ exit_code (main (Example.run 0 (Some Example.module_not_found) None [])) = 1.
Proof.
  destruct (X1_missing_xgboost_reported
              (Example.run 0 (Some Example.module_not_found) None [])
              Example.module_not_found eq_refl eq_refl eq_refl) as (H & Hc & _).
  split; [exact H | exact Hc].
Defined.

(** ** The prediction block *)

(** X2. When the run reaches the prediction block and the call to the
    model raises an exception that derives from [Exception], the handler
    of that block ends the run with status 1, an empty stdout and the
    error document whose message is the text of the exception as it is,
    without the prefix the preprocessing handler adds; on stderr that
    document comes after what the library calls wrote.  When the call
    raises outside [Exception], the handler does not apply: a
    [sys.exit(n)] inside the model ends the process with the status of
    [n] and nothing written by the script.  Either way the model has
    been called once, with the frame built. *)
Theorem X2_prediction_failure_reported
    (w : World) (model : Model) (ticker start_date : PyStr) (df : DataFrame) :
  model_loaded w model ->
  nth_error (argv w) 1 = Some ticker ->
  nth_error (argv w) 2 = Some start_date ->
  preprocess w ticker start_date = Continue df ->
  (forall e, predict model df = PredictRaises e ->
             main w = exit_with_error (exc_str e) [df]
             /\ exit_code (process w) = 1
             /\ stdout (process w) = ""
             /\ stderr (process w) = library_stderr w ++ error_text (exc_str e)
             /\ error_document (stderr (main w)))
  /\ (forall b, predict model df = PredictEscapes b ->
                main w = die_escaped b [df]
                /\ exit_code (process w) = escape_status b
                /\ stdout (process w) = ""
                /\ stderr (process w) = library_stderr w ++ escape_stderr b)
  /\ (forall n, predict model df = PredictEscapes (SystemExit (ExitInt n)) ->
                0 <= n < 256 ->
                exit_code (process w) = n /\ stderr (main w) = "")
  /\ (forall r, predict model df = r -> predict_calls (main w) = [df]).
Proof.
  intros Hm H1 H2 Hp.
  pose proof (main_with_frame w model ticker start_date df Hm H1 H2 Hp) as Hmain.
  unfold predict_and_print in Hmain. unfold process. cbn [exit_code stdout stderr].
  split; [| split; [| split]].
  - intros e He. rewrite He in Hmain. rewrite Hmain.
    split; [reflexivity |].
    split; [reflexivity | split; [reflexivity | split; [reflexivity |]]].
    rewrite exit_with_error_stderr. apply error_text_is_error_document.
  - intros b Hb. rewrite Hb in Hmain. rewrite Hmain. repeat split.
  - intros n Hn Hrange. rewrite Hn in Hmain. rewrite Hmain.
    cbn [die_escaped exit_code stderr escape_status escape_stderr].
    split; [| reflexivity].
    replace ((- 2 ^ 63 <=? n) && (n <? 2 ^ 63)) with true
      by (symmetry; apply andb_true_intro; split; [apply Z.leb_le | apply Z.ltb_lt]; lia).
    apply Z.mod_small. exact Hrange.
  - intros r Hr. rewrite Hmain. now destruct (predict model df).
Qed.

Lemma X2_prediction_failure_reported_witness :
  let w := Example.run_at 0 ["AAPL"; "NaT"] in
  let w_exit := Example.run 0 None (Some (Loads Example.exiting_model))
                  ["AAPL"; "2023-01-01"] in
  (exit_code (process w) = 1
   /\ stderr (process w) = error_text (py "feature shape mismatch"))
  /\ (exit_code (process w_exit) = 3 /\ stderr (main w_exit) = "").
Proof.
  cbv zeta. split.
  - destruct (X2_prediction_failure_reported
                (Example.run_at 0 ["AAPL"; "NaT"]) Example.date_stump
                (py "AAPL") (py "NaT")
                (DataFrame_of_records
                   [features (ticker_numeric (Example.run_at 0 ["AAPL"; "NaT"]) (py "AAPL"))
                      (VFloat FNaN)]))
      as (Hraise & _).
    + split; reflexivity.
    + reflexivity.
    + reflexivity.
    + reflexivity.
    + destruct (Hraise (Example.exc "feature shape mismatch") eq_refl)
        as (_ & Hc & _ & He & _).
      split; [exact Hc | exact He].
  - destruct (X2_prediction_failure_reported
                (Example.run 0 None (Some (Loads Example.exiting_model))
                   ["AAPL"; "2023-01-01"])
                Example.exiting_model (py "AAPL") (py "2023-01-01")
                (DataFrame_of_records
                   [features
                      (ticker_numeric
                         (Example.run 0 None (Some (Loads Example.exiting_model))
                            ["AAPL"; "2023-01-01"]) (py "AAPL"))
                      (VInt 19358)]))
      as (_ & _ & Hexit & _).
    + split; reflexivity.
    + reflexivity.
    + reflexivity.
    + reflexivity.
    + apply (Hexit 3); [reflexivity | lia].
Defined.

(** X3. The model is called at most once in a run, and only after the
    imports, the load of the model, both arguments and the preprocessing
    have gone through, with the frame the preprocessing built; a run that
    prints a result has called it exactly once, and so has every run that
    ends with status 0 unless a library call ended it by [sys.exit]. *)
Theorem X3_model_called_at_most_once (w : World) :
  (List.length (predict_calls (main w)) <= 1)%nat
  /\ (stdout (main w) <> "" -> List.length (predict_calls (main w)) = 1%nat)
  /\ (exit_code (main w) = 0 ->
      (exists b calls, main w = die_escaped b calls)
      \/ List.length (predict_calls (main w)) = 1%nat)
  /\ (forall df,
        In df (predict_calls (main w)) ->
        exists model ticker start_date,
          model_loaded w model
          /\ nth_error (argv w) 1 = Some ticker
          /\ nth_error (argv w) 2 = Some start_date
          /\ preprocess w ticker start_date = Continue df).
Proof.
  assert (Hcalls : forall df,
             In df (predict_calls (main w)) ->
             predict_calls (main w) = [df]
             /\ exists model ticker start_date,
                  model_loaded w model
                  /\ nth_error (argv w) 1 = Some ticker
                  /\ nth_error (argv w) 2 = Some start_date
                  /\ preprocess w ticker start_date = Continue df).
  { intros df Hin.
    destruct (predict_calls_built w df Hin) as (Hone & ticker & start_date & H1 & H2 & Hp).
    split; [exact Hone |].
    revert Hin. unfold main.
    destruct (imports w) as [o | []] eqn:Hi.
    { cbn [and_then]. intros Hin. exfalso. revert Hin. unfold imports in Hi.
      destruct (import_pandas_numpy w) as [[e | b] |];
        [injection Hi as <-; intros [] | injection Hi as <-; intros [] |].
      destruct (import_xgboost w) as [[e | b] |]; [| | discriminate Hi].
      - destruct (exc_is_module_not_found e); injection Hi as <-; intros [].
      - injection Hi as <-; intros []. }
    cbn [and_then].
    destruct (load_model w) as [o | model] eqn:Hl.
    { cbn [and_then]. intros Hin. exfalso. revert Hin. unfold load_model in Hl.
      destruct (file_at w (model_path w)) as [[e | b | m] |];
        [| | discriminate Hl |]; injection Hl as <-; intros []. }
    intros _. exists model, ticker, start_date. repeat split; assumption. }
  split; [| split; [| split]].
  - destruct (predict_calls (main w)) as [| df rest] eqn:Hc; [simpl; lia |].
    destruct (Hcalls df (or_introl eq_refl)) as [Hone _]. rewrite Hone. simpl. lia.
  - intros Hout.
    destruct (main_outcomes w)
      as [(e & Hmain) | [(b & calls & Hmain) | [(msg & calls & Hmain)
         | (model & ticker & start_date & df & a & _ & _ & _ & _ & _ & Hmain)]]];
      rewrite Hmain in Hout |- *; try (now destruct Hout). reflexivity.
  - intros Hexit.
    destruct (main_outcomes w)
      as [(e & Hmain) | [(b & calls & Hmain) | [(msg & calls & Hmain)
         | (model & ticker & start_date & df & a & _ & _ & _ & _ & _ & Hmain)]]];
      rewrite Hmain in Hexit |- *; try discriminate Hexit.
    + left. now exists b, calls.
    + right. reflexivity.
  - intros df Hin. apply (Hcalls df Hin).
Qed.

Lemma X3_model_called_at_most_once_witness :
  List.length (predict_calls (main (Example.healthy 0 ["AAPL"; "2023-01-01"]))) = 1%nat.
Proof.
  apply (proj1 (proj2 (X3_model_called_at_most_once
                         (Example.healthy 0 ["AAPL"; "2023-01-01"])))).
  discriminate.
Defined.

(** ** Streams and exit status *)

(** X4. The script never answers on both streams.  A run that leaves
    anything on stdout ends with status 0, and its stderr holds only what
    library calls wrote there.  A run in which the script or, on the way
    out, the interpreter writes to stderr leaves stdout empty and ends
    with a status other than 0.  A run in which neither happens was ended
    by [sys.exit] inside a library call. *)
Theorem X4_one_stream_per_run (w : World) :
  (stdout (process w) <> "" ->
   exit_code (process w) = 0 /\ stderr (process w) = library_stderr w)
  /\ (stderr (main w) <> "" ->
      stdout (process w) = "" /\ exit_code (process w) <> 0)
  /\ (stdout (process w) = "" -> stderr (main w) = "" ->
      exists arg calls, main w = die_escaped (SystemExit arg) calls).
Proof.
  unfold process. cbn [stdout stderr exit_code].
  destruct (main_outcomes w)
    as [(e & Hmain) | [(b & calls & Hmain) | [(msg & calls & Hmain)
       | (model & ticker & start_date & df & a & _ & _ & _ & _ & _ & Hmain)]]];
    rewrite Hmain.
  - split; [intros H; now destruct H | split].
    + intros _. split; [reflexivity | discriminate].
    + intros _ H. now apply format_uncaught_nonempty in H.
  - cbn [die_escaped stdout stderr exit_code].
    split; [intros H; now destruct H | split].
    + intros Herr. split; [reflexivity |].
      destruct b as [[| n | text] | report | report];
        cbn [escape_stderr escape_status] in *;
        try (now destruct Herr); discriminate.
    + intros _ Herr. destruct b as [arg | report | report];
        [now exists arg, calls | discriminate Herr | discriminate Herr].
  - split; [intros H; now destruct H | split].
    + intros _. split; [reflexivity | discriminate].
    + intros _ H. rewrite exit_with_error_stderr in H.
      now apply error_text_nonempty in H.
  - cbn [stdout stderr exit_code].
    split; [intros _; split; [reflexivity | apply append_nil_r] | split].
    + intros H. now destruct H.
    + intros H. now apply py_print_nonempty in H.
Qed.

Lemma X4_one_stream_per_run_witness :
  exit_code (process (Example.day_first Example.stump)) = 0
  /\ stderr (process (Example.day_first Example.stump)) = Example.day_first_warning.
Proof.
  destruct (proj1 (X4_one_stream_per_run (Example.day_first Example.stump)))
    as [Hc He].
  - vm_compute. discriminate.
  - split; [exact Hc |]. rewrite He. reflexivity.
Defined.




(** ** What the error documents carry *)

Lemma append_length_cancel_r (s1 s2 t : string) :
  String.length s1 = String.length s2 -> s1 ++ t = s2 ++ t -> s1 = s2.
Proof.
  revert s2. induction s1 as [| c s1 IH]; intros [| d s2] Hlen H;
    try reflexivity; try discriminate Hlen.
  cbn [append] in H. injection H as -> H. injection Hlen as Hlen.
  f_equal. now apply IH.
Qed.

Lemma append_cancel_r (s1 s2 t : string) : s1 ++ t = s2 ++ t -> s1 = s2.
Proof.
  intros H. apply (append_length_cancel_r s1 s2 t); [| exact H].
  apply (f_equal String.length) in H. rewrite !string_length_app in H. lia.
Qed.

Lemma append_cancel_l (p s1 s2 : string) : p ++ s1 = p ++ s2 -> s1 = s2.
Proof.
  induction p as [| c p IH]; cbn [append]; intros H; [exact H |].
  injection H as H. now apply IH.
Qed.

Lemma error_text_split (msg : PyStr) :
  error_text msg
  = ("{" ++ quote ++ "error" ++ quote ++ ": " ++ quote)
      ++ escape_body msg ++ (quote ++ "}" ++ newline).
Proof. rewrite error_text_shape. string_assoc. Qed.

Lemma error_text_body_inj (msg1 msg2 : PyStr) :
  error_text msg1 = error_text msg2 -> escape_body msg1 = escape_body msg2.
Proof.
  rewrite !error_text_split. intros H.
  apply append_cancel_l in H. now apply append_cancel_r in H.
Qed.

(** X6. The error document of a failure carries the message without
    loss: for a message of Unicode code points without high surrogates,
    the string literal printed after the key [error] reads back as the
    message itself, so two failures print the same document only if
    their messages are the same. *)
Theorem X6_error_message_reads_back (msg : PyStr) (calls : list DataFrame) :
  argv_string msg = true ->
  stderr (exit_with_error msg calls)
  = "{" ++ (quote ++ "error" ++ quote) ++ ": " ++ (quote ++ escape_body msg ++ quote)
        ++ "}" ++ newline
  /\ json_chars (escape_body msg)
  /\ unescape_body (escape_body msg) = Some msg
  /\ (forall msg' calls',
        argv_string msg' = true ->
        stderr (exit_with_error msg' calls') = stderr (exit_with_error msg calls) ->
        msg' = msg).
Proof.
  intros Hmsg. rewrite exit_with_error_stderr.
  split; [apply error_text_shape |].
  split; [apply escape_body_chars |].
  split; [now apply unescape_escape_body |].
  intros msg' calls' Hmsg' H. rewrite exit_with_error_stderr in H.
  apply error_text_body_inj in H.
  apply unescape_escape_body in Hmsg, Hmsg'.
  rewrite H, Hmsg in Hmsg'. now injection Hmsg'.
Qed.

Lemma X6_error_message_reads_back_witness :
  unescape_body (escape_body (py "Model file not found at /srv/app/Model/xgb_model.pkl"))
  = Some (py "Model file not found at /srv/app/Model/xgb_model.pkl").
Proof.
  apply (X6_error_message_reads_back
           (py "Model file not found at /srv/app/Model/xgb_model.pkl") []).
  reflexivity.
Defined.

(** ** The text on the streams *)

Lemma printable_ascii_app (a b : string) :
  printable_ascii (a ++ b) = printable_ascii a && printable_ascii b.
Proof.
  induction a as [| c a IH]; [reflexivity |].
  cbn [append printable_ascii]. now rewrite IH, andb_assoc.
Qed.

Lemma printable_char_of_N (c : N) :
  (32 <= c)%N -> (c <= 126)%N -> printable_char (ascii_of_N c) = true.
Proof.
  intros H1 H2. unfold printable_char, char_code.
  rewrite N_ascii_embedding by lia.
  apply andb_true_intro. split; now apply N.leb_le.
Qed.

Lemma printable_cons (c : ascii) (s : string) :
  printable_char c = true -> printable_ascii s = true ->
  printable_ascii (String c s) = true.
Proof. intros Hc Hs. cbn [printable_ascii]. now rewrite Hc, Hs. Qed.

Lemma digit_char_printable (d : N) : printable_char (digit_char d) = true.
Proof.
  unfold digit_char. assert (Hlt : (d mod 10 < 10)%N) by (apply N.mod_lt; discriminate).
  revert Hlt. generalize (d mod 10)%N. intros k Hlt.
  apply printable_char_of_N; lia.
Qed.

Lemma hex_char_printable (d : N) : printable_char (hex_char d) = true.
Proof.
  unfold hex_char. assert (Hlt : (d mod 16 < 16)%N) by (apply N.mod_lt; discriminate).
  revert Hlt. generalize (d mod 16)%N. intros k Hlt. cbv zeta.
  destruct (k <? 10)%N eqn:Hd.
  - apply N.ltb_lt in Hd. apply printable_char_of_N; lia.
  - apply N.ltb_ge in Hd. apply printable_char_of_N; lia.
Qed.

Lemma hex4_printable (n : N) : printable_ascii (hex4 n) = true.
Proof.
  unfold hex4. repeat apply printable_cons; try apply hex_char_printable.
  reflexivity.
Qed.

Lemma escape_codepoint_printable (c : codepoint) :
  printable_ascii (escape_codepoint c) = true.
Proof.
  unfold escape_codepoint.
  repeat match goal with
         | |- context [if (c =? ?k)%N then _ else _] =>
             destruct (c =? k)%N; [reflexivity |]
         end.
  destruct ((32 <=? c)%N && (c <=? 126)%N) eqn:Hp.
  { apply andb_true_iff in Hp. destruct Hp as [H1 H2].
    apply N.leb_le in H1, H2.
    apply printable_cons; [now apply printable_char_of_N | reflexivity]. }
  destruct (c <? 65536)%N; cbv zeta.
  - rewrite printable_ascii_app, hex4_printable. reflexivity.
  - rewrite !printable_ascii_app, !hex4_printable. reflexivity.
Qed.

Lemma escape_body_printable (s : PyStr) : printable_ascii (escape_body s) = true.
Proof.
  induction s as [| c s IH]; [reflexivity |].
  cbn [escape_body]. now rewrite printable_ascii_app, escape_codepoint_printable, IH.
Qed.

Lemma encode_basestring_ascii_printable (s : PyStr) :
  printable_ascii (encode_basestring_ascii s) = true.
Proof.
  unfold encode_basestring_ascii.
  now rewrite !printable_ascii_app, escape_body_printable.
Qed.

Lemma dec_digits_fuel_printable (fuel : nat) (n : N) (acc : string) :
  printable_ascii acc = true -> printable_ascii (dec_digits_fuel fuel n acc) = true.
Proof.
  revert n acc. induction fuel as [| fuel IH]; intros n acc Hacc; [exact Hacc |].
  cbn [dec_digits_fuel].
  assert (Hacc' : printable_ascii (String (digit_char n) acc) = true)
    by (apply printable_cons; [apply digit_char_printable | exact Hacc]).
  destruct (n / 10 =? 0)%N; [exact Hacc' | now apply IH].
Qed.

Lemma dec_of_N_printable (n : N) : printable_ascii (dec_of_N n) = true.
Proof. unfold dec_of_N. now apply dec_digits_fuel_printable. Qed.

Lemma int_repr_printable (z : Z) : printable_ascii (int_repr z) = true.
Proof.
  unfold int_repr. destruct (z <? 0).
  - apply printable_cons; [reflexivity | apply dec_of_N_printable].
  - apply dec_of_N_printable.
Qed.

Lemma digits_str_printable (ds : list N) : printable_ascii (digits_str ds) = true.
Proof.
  induction ds as [| d ds IH]; [reflexivity |].
  cbn [digits_str]. apply printable_cons; [apply digit_char_printable | exact IH].
Qed.

Lemma repeat_zero_printable (n : nat) : printable_ascii (repeat_char "0" n) = true.
Proof.
  induction n as [| n IH]; [reflexivity |].
  cbn [repeat_char]. now apply printable_cons.
Qed.

Lemma exp_str_printable (e : Z) : printable_ascii (exp_str e) = true.
Proof.
  unfold exp_str. cbv zeta. apply printable_cons.
  - now destruct (e <? 0).
  - destruct (Z.to_N (Z.abs e) <? 10)%N.
    + apply printable_cons; [reflexivity | apply dec_of_N_printable].
    + apply dec_of_N_printable.
Qed.

Lemma floatstr_printable (f : PyFloat) : printable_ascii (floatstr f) = true.
Proof.
  destruct f as [neg d1 ds decpt | [|] |]; try reflexivity.
  cbn [floatstr]. unfold float_repr_finite. cbv zeta.
  rewrite printable_ascii_app.
  apply andb_true_intro. split; [now destruct neg |].
  destruct ((decpt <=? -4) || (16 <? decpt)).
  { cbn [append]. apply printable_cons; [apply digit_char_printable |].
    rewrite printable_ascii_app. apply andb_true_intro. split.
    - destruct ds as [| d ds]; [reflexivity |].
      apply printable_cons; [reflexivity | apply digits_str_printable].
    - apply printable_cons; [reflexivity | apply exp_str_printable]. }
  destruct (decpt <=? 0).
  { now rewrite !printable_ascii_app, repeat_zero_printable, digits_str_printable. }
  destruct (decpt <? _).
  - rewrite printable_ascii_app, digits_str_printable.
    apply printable_cons; [reflexivity | apply digits_str_printable].
  - now rewrite !printable_ascii_app, repeat_zero_printable, digits_str_printable.
Qed.

Lemma join_comma_printable (parts : list string) :
  Forall (fun p => printable_ascii p = true) parts ->
  printable_ascii (join_comma parts) = true.
Proof.
  induction 1 as [| p r Hp Hr IH]; [reflexivity |].
  destruct r as [| q r]; [exact Hp |].
  change (join_comma (p :: q :: r)) with (p ++ ", " ++ join_comma (q :: r)).
  now rewrite !printable_ascii_app, Hp, IH.
Qed.

(** Whatever the value, [json.dumps] writes printable ASCII only. *)
Lemma json_dumps_printable (v : PyVal) : printable_ascii (json_dumps v) = true.
Proof.
  induction v as [s | z | f | l IH | kvs IH] using PyVal_nested_ind.
  - apply encode_basestring_ascii_printable.
  - apply int_repr_printable.
  - apply floatstr_printable.
  - cbn [json_dumps]. rewrite !printable_ascii_app, join_comma_printable; [reflexivity |].
    induction IH; constructor; auto.
  - cbn [json_dumps]. rewrite !printable_ascii_app, join_comma_printable; [reflexivity |].
    induction IH as [| kv r Hkv _ IHr]; constructor; [| exact IHr].
    now rewrite !printable_ascii_app, encode_basestring_ascii_printable, Hkv.
Qed.

Lemma py_print_one_line (v : PyVal) : one_line (py_print (json_dumps v)).
Proof. exists (json_dumps v). split; [reflexivity | apply json_dumps_printable]. Qed.

(** X7. Whatever the arguments, the exception texts and the numbers the
    model returns, what the script itself writes is one line of printable
    ASCII ended by a newline: stdout holds that line or nothing; the line
    is on stdout when the run ends with status 0 and on stderr when it
    ends with status 1, unless the run ended in an uncaught exception.
    No control character and no character beyond ASCII reaches either
    stream through [json.dumps]. *)
Theorem X7_output_is_one_ascii_line (w : World) :
  (forall v : PyVal, printable_ascii (json_dumps v) = true)
  /\ (stdout (main w) = "" \/ one_line (stdout (main w)))
  /\ (exit_code (main w) = 0 -> crashes w \/ one_line (stdout (main w)))
  /\ (exit_code (main w) = 1 -> crashes w \/ one_line (stderr (main w))).
Proof.
  split; [exact json_dumps_printable |]. unfold crashes.
  destruct (main_outcomes w)
    as [(e & Hmain) | [(b & calls & Hmain) | [(msg & calls & Hmain)
       | (model & ticker & start_date & df & a & _ & _ & _ & _ & _ & Hmain)]]];
    rewrite Hmain.
  - split; [now left |]. split; intros _; left; discriminate.
  - split; [now left |]. split; intros _; left; discriminate.
  - split; [now left |].
    split; [discriminate | intros _; right].
    rewrite exit_with_error_stderr. apply py_print_one_line.
  - cbn [stdout stderr exit_code].
    split; [right; apply py_print_one_line |].
    split; [intros _; right; apply py_print_one_line | discriminate].
Qed.

Lemma X7_output_is_one_ascii_line_witness :
  one_line (stdout (main (Example.healthy 0 ["AAPL"; "2023-01-01"])))
  /\ one_line (stderr (main (Example.run 0 None None ["AAPL"; "2023-01-01"]))).
Proof.
  split.
  - destruct (proj1 (proj2 (proj2 (X7_output_is_one_ascii_line
                                     (Example.healthy 0 ["AAPL"; "2023-01-01"]))))
                eq_refl) as [H | H]; [| exact H].
    now destruct H.
  - destruct (proj2 (proj2 (proj2 (X7_output_is_one_ascii_line
                                     (Example.run 0 None None ["AAPL"; "2023-01-01"]))))
                eq_refl) as [H | H]; [| exact H].
    now destruct H.
Defined.

(** ** Where the model is looked for *)

Lemma drop_while_all {A : Type} (f : A -> bool) (l rest : list A) :
  (forall x, In x l -> f x = true) ->
  match rest with [] => True | y :: _ => f y = false end ->
  drop_while f (l ++ rest) = rest.
Proof.
  intros Hl Hrest. induction l as [| x l IH]; cbn [app drop_while].
  - destruct rest as [| y rest]; [reflexivity |]. cbn [drop_while]. now rewrite Hrest.
  - rewrite (Hl x) by now left. apply IH. intros y Hy. apply Hl. now right.
Qed.

Lemma not_slash_name (name : PyStr) :
  slash_free name -> forall c, In c (rev name) -> negb (c =? SLASH)%N = true.
Proof.
  intros Hname c Hc. apply negb_true_iff, N.eqb_neq. intros ->.
  apply Hname. now apply in_rev.
Qed.

Lemma dirname_bare_name (name : PyStr) : slash_free name -> dirname name = [].
Proof.
  intros Hname. unfold dirname.
  replace (rev name) with (rev name ++ [])%list by apply app_nil_r.
  rewrite drop_while_all; [reflexivity | now apply not_slash_name | exact I].
Qed.

Lemma dirname_in_root (name : PyStr) :
  slash_free name -> dirname (SLASH :: name) = [SLASH].
Proof.
  intros Hname. unfold dirname. cbn [rev].
  rewrite drop_while_all; [reflexivity | now apply not_slash_name | reflexivity].
Qed.

Lemma dirname_in_directory (dir : PyStr) (c : codepoint) (name : PyStr) :
  c <> SLASH -> slash_free name ->
  dirname (dir ++ c :: SLASH :: name)%list = (dir ++ [c])%list.
Proof.
  intros Hc Hname. unfold dirname.
  replace (dir ++ c :: SLASH :: name)%list with ((dir ++ [c]) ++ SLASH :: name)%list
    by now rewrite <- app_assoc.
  rewrite rev_app_distr. cbn [rev]. rewrite <- app_assoc. cbn [app].
  rewrite drop_while_all; [| now apply not_slash_name | reflexivity].
  change (rev (SLASH :: rev (dir ++ [c])))
    with (rev (rev (dir ++ [c])) ++ [SLASH])%list.
  rewrite rev_involutive.
  assert (Hall : forallb (N.eqb SLASH) ((dir ++ [c]) ++ [SLASH]) = false).
  { rewrite !forallb_app. cbn [forallb].
    replace (SLASH =? c)%N with false
      by (symmetry; apply N.eqb_neq; congruence).
    now rewrite andb_false_r. }
  rewrite Hall. unfold rstrip_slash.
  rewrite rev_app_distr. cbn [rev app drop_while]. rewrite N.eqb_refl.
  rewrite rev_app_distr. cbn [rev app drop_while].
  replace (SLASH =? c)%N with false by (symmetry; apply N.eqb_neq; congruence).
  cbn [rev]. now rewrite rev_involutive.
Qed.

Lemma ends_with_last (p : PyStr) (c : codepoint) :
  ends_with_slash (p ++ [c])%list = (c =? SLASH)%N.
Proof. unfold ends_with_slash. now rewrite rev_app_distr. Qed.

Lemma path_join_model (d : PyStr) :
  path_join d [py "Model"; py "xgb_model.pkl"]
  = if match d with [] => true | _ => ends_with_slash d end
    then (d ++ py "Model/xgb_model.pkl")%list
    else (d ++ py "/Model/xgb_model.pkl")%list.
Proof.
  unfold path_join. cbn [fold_left].
  assert (Hsecond : forall x, join2 (x ++ py "Model")%list (py "xgb_model.pkl")
                              = (x ++ py "Model/xgb_model.pkl")%list).
  { intros x. unfold join2. change (starts_with_slash (py "xgb_model.pkl")) with false.
    cbv iota. rewrite ends_with_slash_app_Model.
    destruct (x ++ py "Model")%list eqn:Hx.
    - destruct x; discriminate Hx.
    - rewrite <- Hx, <- app_assoc. reflexivity. }
  unfold join2 at 2. change (starts_with_slash (py "Model")) with false. cbv iota.
  destruct (match d with [] => true | _ => ends_with_slash d end).
  - apply Hsecond.
  - change (d ++ SLASH :: py "Model")%list with (d ++ [SLASH] ++ py "Model")%list.
    rewrite app_assoc, Hsecond, <- app_assoc. reflexivity.
Qed.

(** X8. The model path depends on the directory of the script only, not
    on the script's file name, the arguments or the working directory's
    name.  A script given by a bare file name looks for the relative
    path [Model/xgb_model.pkl]; a script in the root directory for
    [/Model/xgb_model.pkl]; a script in the directory [d] (not ending in
    a slash) for [d/Model/xgb_model.pkl]. *)
Theorem X8_model_beside_the_script (w : World) (name : PyStr) :
  slash_free name ->
  (script_file w = name -> model_path w = py "Model/xgb_model.pkl")
  /\ (script_file w = SLASH :: name -> model_path w = py "/Model/xgb_model.pkl")
  /\ (forall dir c,
        c <> SLASH ->
        script_file w = (dir ++ c :: SLASH :: name)%list ->
        model_path w = (dir ++ c :: py "/Model/xgb_model.pkl")%list).
Proof.
  intros Hname. unfold model_path. split; [| split].
  - intros ->. now rewrite dirname_bare_name.
  - intros ->. now rewrite dirname_in_root.
  - intros dir c Hc ->. rewrite dirname_in_directory, path_join_model by assumption.
    rewrite ends_with_last.
    replace (c =? SLASH)%N with false by (symmetry; now apply N.eqb_neq).
    replace (match (dir ++ [c])%list with [] => true | _ :: _ => false end)
      with false by (now destruct dir).
    now rewrite <- app_assoc.
Qed.

Lemma X8_model_beside_the_script_witness :
  model_path (Example.healthy 0 ["AAPL"; "2023-01-01"])
  = py "/srv/app/Model/xgb_model.pkl".
Proof.
  apply (proj2 (proj2 (X8_model_beside_the_script
                         (Example.healthy 0 ["AAPL"; "2023-01-01"])
                         (py "predict.py")
                         (not_In_by_computation SLASH (py "predict.py") eq_refl)))
           (py "/srv/ap") 112%N).
  - discriminate.
  - reflexivity.
Defined.

(** ** Dates written as ISO 8601 *)

Lemma digit_codepoint_range (k : Z) :
  (48 <= digit_codepoint k)%N /\ (digit_codepoint k <= 57)%N.
Proof.
  unfold digit_codepoint.
  pose proof (Z.mod_pos_bound k 10 ltac:(lia)) as Hr. revert Hr.
  generalize (k mod 10). intros r Hr. lia.
Qed.

Lemma digit_of_digit_codepoint (k : Z) :
  digit_of (digit_codepoint k) = Some (k mod 10).
Proof.
  unfold digit_of. destruct (digit_codepoint_range k) as [H1 H2].
  apply N.leb_le in H1, H2. rewrite H1, H2. cbn [andb].
  unfold digit_codepoint.
  pose proof (Z.mod_pos_bound k 10 ltac:(lia)) as Hr. revert Hr.
  generalize (k mod 10). intros r Hr. f_equal. lia.
Qed.

Lemma read_two_digits (n acc : Z) (rest : PyStr) :
  0 <= n <= 99 ->
  read_digits 2 acc (digit_codepoint (n / 10) :: digit_codepoint n :: rest)
  = Some (100 * acc + n, rest).
Proof.
  intros Hn. cbn [read_digits].
  rewrite !digit_of_digit_codepoint. do 2 f_equal.
  Z.to_euclidean_division_equations. lia.
Qed.

Lemma read_four_digits (n : Z) (rest : PyStr) :
  0 <= n <= 9999 ->
  read_digits 4 0
    (digit_codepoint (n / 1000) :: digit_codepoint (n / 100)
     :: digit_codepoint (n / 10) :: digit_codepoint n :: rest)
  = Some (n, rest).
Proof.
  intros Hn. cbn [read_digits].
  rewrite !digit_of_digit_codepoint. do 2 f_equal.
  Z.to_euclidean_division_equations. lia.
Qed.

Lemma month_length_le (year month : Z) : month_length year month <= 31.
Proof.
  unfold month_length. generalize (is_leapyear year). intros leap.
  destruct (Z.to_nat (month - 1)) as [| [| [| [| [| [| [| [| [| [| [| [| k]]]]]]]]]]]];
    destruct leap; cbn; try lia; destruct k; cbn; lia.
Qed.

Lemma days_before_month_bounds (year month : Z) :
  1 <= month <= 12 -> 0 <= days_before_month year month <= 335.
Proof.
  intros H. unfold days_before_month. generalize (is_leapyear year). intros leap.
  destruct (month_cases month H) as
    [-> | [-> | [-> | [-> | [-> | [-> | [-> | [-> | [-> | [-> | [-> | ->]]]]]]]]]]];
    destruct leap; cbv; split; discriminate.
Qed.

Lemma valid_date_fields (year month day : Z) :
  valid_date year month day = true -> 1 <= month <= 12 /\ 1 <= day <= 31.
Proof.
  intros H. apply valid_date_inv in H. destruct H as [Hm Hd].
  pose proof (month_length_le year month). lia.
Qed.

Lemma day_offset_in_range (year month day : Z) :
  valid_date year month day = true -> year_in_ns_range year ->
  -106652 <= day_offset year month day <= 106651.
Proof.
  intros Hv Hy. destruct (valid_date_fields _ _ _ Hv) as [Hm Hd].
  pose proof (days_before_month_bounds year month Hm) as Hb.
  unfold year_in_ns_range in Hy.
  unfold day_offset, date_ordinal.
  change (days_before_year 1970 + days_before_month 1970 1 + 1) with 719163.
  unfold days_before_year. revert Hb. generalize (days_before_month year month).
  intros b Hb. Z.to_euclidean_division_equations. lia.
Qed.

Lemma in_ns_bounds_in_range (year month day hour minute second : Z) :
  valid_date year month day = true -> year_in_ns_range year ->
  valid_time hour minute second = true ->
  in_ns_bounds (datetimestruct_to_ns year month day hour minute second) = true.
Proof.
  intros Hv Hy Ht. rewrite datetimestruct_to_ns_split.
  pose proof (day_offset_in_range _ _ _ Hv Hy) as Hd.
  pose proof (time_of_day_bounds _ _ _ Ht) as Htod.
  revert Hd Htod. generalize (day_offset year month day).
  generalize (time_of_day_ns hour minute second). intros tod days Hd Htod.
  unfold in_ns_bounds, NS_PER_DAY, NS_PER_SECOND in *.
  apply andb_true_intro. split; apply Z.ltb_lt; lia.
Qed.

Lemma valid_time_midnight : valid_time 0 0 0 = true.
Proof. reflexivity. Qed.

(** Reading a date back. *)
Lemma parse_iso_date_prefix (year month day : Z) (rest : PyStr) :
  valid_date year month day = true -> year_in_ns_range year ->
  parse_iso8601 (iso_date year month day ++ rest)%list
  = match rest with
    | [] => Some (DtNaive (datetimestruct_to_ns year month day 0 0 0))
    | sep :: s =>
        if negb ((sep =? 84)%N || (sep =? 32)%N) then None else
        do (hour, s) <- read_digits 2 0 s;
        do s <- expect 58%N s;
        do (minute, s) <- read_digits 2 0 s;
        do s <- expect 58%N s;
        do (second, s) <- read_digits 2 0 s;
        if negb (valid_time hour minute second) then None else
        let ns := datetimestruct_to_ns year month day hour minute second in
        if negb (in_ns_bounds ns) then None else
        match s with
        | [] => Some (DtNaive ns)
        | [90%N] => Some (DtAware ns (py "UTC"))
        | _ => None
        end
    end.
Proof.
  intros Hv Hy. destruct (valid_date_fields _ _ _ Hv) as [Hm Hd].
  unfold parse_iso8601, iso_date, four_digits, two_digits.
  unfold year_in_ns_range in Hy.
  cbn [app]. rewrite read_four_digits by lia.
  cbn [bind expect]. rewrite N.eqb_refl. cbn [bind].
  rewrite read_two_digits by lia.
  cbn [bind expect]. rewrite N.eqb_refl. cbn [bind].
  rewrite read_two_digits by lia.
  cbn [bind]. rewrite !Z.mul_0_r, !Z.add_0_l, Hv. cbn [negb].
  destruct rest as [| sep s]; [| reflexivity].
  now rewrite (in_ns_bounds_in_range _ _ _ 0 0 0 Hv Hy valid_time_midnight).
Qed.

Lemma parse_iso_datetime
    (year month day hour minute second : Z) (sep : codepoint) (tail : PyStr) :
  valid_date year month day = true -> year_in_ns_range year ->
  valid_time hour minute second = true ->
  sep = 84%N \/ sep = 32%N ->
  parse_iso8601
    (iso_date year month day ++ sep :: iso_time hour minute second ++ tail)%list
  = let ns := datetimestruct_to_ns year month day hour minute second in
    match tail with
    | [] => Some (DtNaive ns)
    | [90%N] => Some (DtAware ns (py "UTC"))
    | _ => None
    end.
Proof.
  intros Hv Hy Ht Hsep. rewrite (parse_iso_date_prefix _ _ _ _ Hv Hy).
  replace (negb ((sep =? 84)%N || (sep =? 32)%N)) with false
    by (destruct Hsep as [-> | ->]; reflexivity).
  assert (Hf : (0 <= hour <= 23) /\ (0 <= minute <= 59) /\ (0 <= second <= 59)).
  { unfold valid_time in Ht. rewrite !andb_true_iff, !Z.leb_le in Ht. lia. }
  destruct Hf as (Hh & Hmi & Hs).
  unfold iso_time, two_digits. cbn [app].
  rewrite read_two_digits by lia.
  cbn [bind expect]. rewrite N.eqb_refl. cbn [bind].
  rewrite read_two_digits by lia.
  cbn [bind expect]. rewrite N.eqb_refl. cbn [bind].
  rewrite read_two_digits by lia.
  cbn [bind]. rewrite !Z.mul_0_r, !Z.add_0_l, Ht. cbn [negb]. cbv zeta.
  now rewrite (in_ns_bounds_in_range _ _ _ _ _ _ Hv Hy Ht).
Qed.

Lemma start_date_numeric_of_fields
    (w : World) (s : PyStr) (year month day hour minute second : Z) :
  parse_iso8601 s = Some (DtNaive (datetimestruct_to_ns year month day hour minute second)) ->
  valid_time hour minute second = true ->
  start_date_numeric w s = inr (VInt (day_offset year month day)).
Proof.
  intros H Ht. unfold start_date_numeric.
  rewrite (to_datetime_iso w s _ H), Timestamp_epoch.
  cbn [timestamp_sub timedelta_floordiv]. unfold Timedelta_1D.
  rewrite Z.sub_0_r, datetimestruct_to_ns_split.
  now rewrite (floor_days _ _ (time_of_day_bounds _ _ _ Ht)).
Qed.

Lemma start_date_numeric_iso_date (w : World) (year month day : Z) :
  valid_date year month day = true -> year_in_ns_range year ->
  start_date_numeric w (iso_date year month day) = inr (VInt (day_offset year month day)).
Proof.
  intros Hv Hy.
  apply (start_date_numeric_of_fields w _ year month day 0 0 0); [| reflexivity].
  rewrite <- (app_nil_r (iso_date year month day)).
  now rewrite (parse_iso_date_prefix _ _ _ _ Hv Hy).
Qed.

(** X9. A start date written [YYYY-MM-DD], for any date of the calendar
    in the years 1678 to 2261, is encoded as the number of days from
    1970-01-01 to that date.  A time of day [HH:MM:SS] after a [T] or a
    space changes nothing: the encoding is that of the date alone. *)
Theorem X9_iso_date_encoding (w : World) (year month day : Z) :
  valid_date year month day = true ->
  year_in_ns_range year ->
  start_date_numeric w (iso_date year month day)
  = inr (VInt (day_offset year month day))
  /\ (forall (sep : codepoint) (hour minute second : Z),
        sep = 84%N \/ sep = 32%N ->
        valid_time hour minute second = true ->
        start_date_numeric w
          (iso_date year month day ++ sep :: iso_time hour minute second)%list
        = start_date_numeric w (iso_date year month day)).
Proof.
  intros Hv Hy. split; [now apply start_date_numeric_iso_date |].
  intros sep hour minute second Hsep Ht.
  rewrite (start_date_numeric_iso_date w _ _ _ Hv Hy).
  apply (start_date_numeric_of_fields w _ year month day hour minute second);
    [| exact Ht].
  rewrite <- (app_nil_r (iso_time hour minute second)).
  now rewrite (parse_iso_datetime _ _ _ _ _ _ sep [] Hv Hy Ht Hsep).
Qed.

Lemma X9_iso_date_encoding_witness :
  start_date_numeric (Example.healthy 0 ["AAPL"; "2024-02-29"]) (py "2024-02-29")
  = inr (VInt 19782)
  /\ start_date_numeric (Example.healthy 0 ["AAPL"; "2024-02-29"])
       (py "2024-02-29 23:59:59")
     = inr (VInt 19782).
Proof.
  destruct (X9_iso_date_encoding (Example.healthy 0 ["AAPL"; "2024-02-29"])
              2024 2 29 eq_refl ltac:(unfold year_in_ns_range; lia)) as [H1 H2].
  split.
  - exact H1.
  - transitivity
      (start_date_numeric (Example.healthy 0 ["AAPL"; "2024-02-29"]) (iso_date 2024 2 29)).
    + exact (H2 32%N 23 59 59 (or_intror eq_refl) eq_refl).
    + exact H1.
Defined.

(** ** The order of days *)

Lemma days_before_year_mono (y1 y2 : Z) :
  y1 <= y2 -> days_before_year y1 <= days_before_year y2.
Proof. intros H. unfold days_before_year. Z.to_euclidean_division_equations. lia. Qed.

Lemma days_before_month_mono (year m1 m2 : Z) :
  1 <= m1 -> m1 <= m2 -> m2 <= 12 ->
  days_before_month year m1 <= days_before_month year m2.
Proof.
  intros H1 H12 H2. unfold days_before_month. generalize (is_leapyear year). intros leap.
  assert (Ha : 1 <= m1 <= 12) by lia. assert (Hb : 1 <= m2 <= 12) by lia.
  destruct (month_cases m1 Ha) as
    [-> | [-> | [-> | [-> | [-> | [-> | [-> | [-> | [-> | [-> | [-> | ->]]]]]]]]]]];
    destruct (month_cases m2 Hb) as
      [-> | [-> | [-> | [-> | [-> | [-> | [-> | [-> | [-> | [-> | [-> | ->]]]]]]]]]]];
    try lia; destruct leap; cbv; discriminate.
Qed.

Lemma day_of_year_bound (year month day : Z) :
  valid_date year month day = true ->
  1 <= days_before_month year month + day
    <= if is_leapyear year then 366 else 365.
Proof.
  intros Hv. apply valid_date_inv in Hv. destruct Hv as [Hm Hd].
  pose proof (days_before_month_bounds year month Hm) as Hb.
  split; [lia |]. rewrite <- days_in_year.
  destruct (Z.eq_dec month 12) as [-> | Hne]; [lia |].
  pose proof (days_before_month_succ year month ltac:(lia)) as Hs.
  pose proof (days_before_month_mono year (month + 1) 12 ltac:(lia) ltac:(lia) ltac:(lia)).
  pose proof (month_length_pos year 12 ltac:(lia)). lia.
Qed.

Lemma day_offset_increasing (y1 m1 d1 y2 m2 d2 : Z) :
  valid_date y1 m1 d1 = true -> valid_date y2 m2 d2 = true ->
  date_before y1 m1 d1 y2 m2 d2 ->
  day_offset y1 m1 d1 < day_offset y2 m2 d2.
Proof.
  intros Hv1 Hv2 Hb. unfold day_offset, date_ordinal.
  pose proof (day_of_year_bound _ _ _ Hv1) as B1.
  pose proof (day_of_year_bound _ _ _ Hv2) as B2.
  destruct Hb as [Hy | (-> & [Hm | (-> & Hd)])].
  - pose proof (days_before_next_year y1) as Hn.
    pose proof (days_before_year_mono (y1 + 1) y2 ltac:(lia)). lia.
  - apply valid_date_inv in Hv1, Hv2. destruct Hv1 as [Hm1 Hd1], Hv2 as [Hm2 Hd2].
    pose proof (days_before_month_succ y2 m1 ltac:(lia)) as Hs.
    pose proof (days_before_month_mono y2 (m1 + 1) m2 ltac:(lia) ltac:(lia) ltac:(lia)).
    lia.
  - lia.
Qed.

Lemma date_trichotomy (y1 m1 d1 y2 m2 d2 : Z) :
  date_before y1 m1 d1 y2 m2 d2
  \/ (y1 = y2 /\ m1 = m2 /\ d1 = d2)
  \/ date_before y2 m2 d2 y1 m1 d1.
Proof. unfold date_before. lia. Qed.

(** X10. The encoding of the start date keeps the order of the calendar:
    of two ISO dates in the years 1678 to 2261, the earlier one gets the
    smaller number, two different dates never get the same number, and
    the day after a date (across the end of a month, of a year and of
    February in leap years) gets the number one higher. *)
Theorem X10_encoding_follows_the_calendar
    (w : World) (y1 m1 d1 y2 m2 d2 : Z) :
  valid_date y1 m1 d1 = true -> year_in_ns_range y1 ->
  valid_date y2 m2 d2 = true -> year_in_ns_range y2 ->
  exists n1 n2,
    start_date_numeric w (iso_date y1 m1 d1) = inr (VInt n1)
    /\ start_date_numeric w (iso_date y2 m2 d2) = inr (VInt n2)
    /\ (n1 < n2 <-> date_before y1 m1 d1 y2 m2 d2)
    /\ (n1 = n2 <-> (y1 = y2 /\ m1 = m2 /\ d1 = d2))
    /\ (next_day y1 m1 d1 = (y2, m2, d2) -> n2 = n1 + 1).
Proof.
  intros Hv1 Hy1 Hv2 Hy2.
  exists (day_offset y1 m1 d1), (day_offset y2 m2 d2).
  split; [now apply start_date_numeric_iso_date |].
  split; [now apply start_date_numeric_iso_date |].
  pose proof (day_offset_increasing _ _ _ _ _ _ Hv1 Hv2) as H12.
  pose proof (day_offset_increasing _ _ _ _ _ _ Hv2 Hv1) as H21.
  assert (Hnext : next_day y1 m1 d1 = (y2, m2, d2) ->
                  day_offset y2 m2 d2 = day_offset y1 m1 d1 + 1).
  { intros Hn. pose proof (day_offset_next_day _ _ _ Hv1) as Hnext.
    rewrite Hn in Hnext. apply Hnext. }
  split; [| split; [| exact Hnext]].
  - split; [| exact H12]. intros Hlt.
    destruct (date_trichotomy y1 m1 d1 y2 m2 d2) as [Hb | [(E1 & E2 & E3) | Hb]].
    + exact Hb.
    + subst. lia.
    + specialize (H21 Hb). lia.
  - split.
    + intros Heq.
      destruct (date_trichotomy y1 m1 d1 y2 m2 d2) as [Hb | [E | Hb]].
      * specialize (H12 Hb). lia.
      * exact E.
      * specialize (H21 Hb). lia.
    + intros (-> & -> & ->). reflexivity.
Qed.

Lemma X10_encoding_follows_the_calendar_witness :
  exists n1 n2,
    start_date_numeric (Example.healthy 0 ["AAPL"; "2023-12-31"]) (py "2023-12-31")
    = inr (VInt n1)
    /\ start_date_numeric (Example.healthy 0 ["AAPL"; "2023-12-31"]) (py "2024-01-01")
       = inr (VInt n2)
    /\ n2 = n1 + 1.
Proof.
  destruct (X10_encoding_follows_the_calendar
              (Example.healthy 0 ["AAPL"; "2023-12-31"]) 2023 12 31 2024 1 1
              eq_refl ltac:(unfold year_in_ns_range; lia)
              eq_refl ltac:(unfold year_in_ns_range; lia))
    as (n1 & n2 & H1 & H2 & _ & _ & Hn).
  exists n1, n2. split; [exact H1 | split; [exact H2 | now apply Hn]].
Defined.


(** ** Start dates that are not dates *)

Lemma to_datetime_missing (w : World) (start_date : PyStr) :
  start_date = [] \/ In start_date nat_strings ->
  to_datetime w start_date = DtNaT.
Proof.
  intros [-> | Hin]; [reflexivity |].
  cbn [nat_strings In] in Hin.
  repeat (destruct Hin as [<- | Hin]; [reflexivity |]). contradiction.
Qed.

Lemma predict_and_print_calls (model : Model) (ticker start_date : PyStr) (df : DataFrame) :
  predict_calls (predict_and_print model ticker start_date df) = [df].
Proof. unfold predict_and_print. now destruct (predict model df). Qed.

(** X11. An empty start date, or one of the words pandas reads as the
    missing value ([NaT], [nat], [NAT], [nan], [NaN], [NAN]), is not
    rejected: the preprocessing goes through, the [start_date] cell of
    the frame is the float NaN instead of a day number, and the model is
    called with that frame. *)
Theorem X11_missing_date_reaches_the_model
    (w : World) (model : Model) (ticker start_date : PyStr) :
  model_loaded w model ->
  nth_error (argv w) 1 = Some ticker ->
  nth_error (argv w) 2 = Some start_date ->
  start_date = [] \/ In start_date nat_strings ->
  exists df,
    preprocess w ticker start_date = Continue df
    /\ cell df (py "start_date") = Some (VFloat FNaN)
    /\ cell df (py "ticker") = Some (VInt (ticker_numeric w ticker))
    /\ main w = predict_and_print model ticker start_date df
    /\ predict_calls (main w) = [df].
Proof.
  intros Hm H1 H2 Hmiss.
  assert (Hsdn : start_date_numeric w start_date = inr (VFloat FNaN)).
  { unfold start_date_numeric. now rewrite (to_datetime_missing w _ Hmiss). }
  assert (Hp : preprocess w ticker start_date
               = Continue (DataFrame_of_records
                             [features (ticker_numeric w ticker) (VFloat FNaN)])).
  { unfold preprocess. now rewrite Hsdn. }
  eexists. split; [exact Hp |].
  rewrite (main_with_frame w model ticker start_date _ Hm H1 H2 Hp).
  rewrite predict_and_print_calls, features_frame. repeat split.
Qed.

Lemma X11_missing_date_reaches_the_model_witness :
  exists df,
    cell df (py "start_date") = Some (VFloat FNaN)
    /\ predict_calls (main (Example.healthy 0 ["AAPL"; "nan"])) = [df].
Proof.
  destruct (X11_missing_date_reaches_the_model
              (Example.healthy 0 ["AAPL"; "nan"]) Example.stump (py "AAPL") (py "nan"))
    as (df & _ & Hc & _ & _ & Hcalls).
  - split; reflexivity.
  - reflexivity.
  - reflexivity.
  - right. cbn. tauto.
  - exists df. split; [exact Hc | exact Hcalls].
Defined.

Lemma main_zoned_date
    (w : World) (model : Model) (ticker start_date : PyStr) (ns : Z) (tz : PyStr) :
  model_loaded w model ->
  nth_error (argv w) 1 = Some ticker ->
  nth_error (argv w) 2 = Some start_date ->
  to_datetime w start_date = DtAware ns tz ->
  main w
  = exit_with_error
      (py "Failed to preprocess inputs: " ++ exc_str type_error_tz)%list [].
Proof.
  intros Hm H1 H2 Hz.
  apply (main_parse_failure w model ticker start_date type_error_tz Hm H1 H2).
  unfold start_date_numeric. now rewrite Hz, Timestamp_epoch.
Qed.

(** X12. A start date with the UTC designator, [YYYY-MM-DDTHH:MM:SSZ]
    (or with a space for the [T]), is a valid timestamp and parses, yet
    the run fails in preprocessing: subtracting the zone-less epoch from a
    timestamp with a zone raises, the handler reports it with status 1,
    and the model is never called. *)
Theorem X12_utc_timestamp_is_rejected
    (w : World) (model : Model) (ticker : PyStr)
    (year month day hour minute second : Z) (sep : codepoint) :
  model_loaded w model ->
  nth_error (argv w) 1 = Some ticker ->
  nth_error (argv w) 2
  = Some (iso_date year month day ++ sep :: iso_time hour minute second ++ [90%N])%list ->
  valid_date year month day = true ->
  year_in_ns_range year ->
  valid_time hour minute second = true ->
  sep = 84%N \/ sep = 32%N ->
  to_datetime w
    (iso_date year month day ++ sep :: iso_time hour minute second ++ [90%N])%list
  = DtAware (datetimestruct_to_ns year month day hour minute second) (py "UTC")
  /\ main w
     = exit_with_error
         (py "Failed to preprocess inputs: Cannot subtract tz-naive and tz-aware datetime-like objects.")
         []
  /\ exit_code (main w) = 1
  /\ stdout (main w) = ""
  /\ error_document (stderr (main w))
  /\ predict_calls (main w) = [].
Proof.
  intros Hm H1 H2 Hv Hy Ht Hsep.
  assert (Hz : to_datetime w
                 (iso_date year month day ++ sep :: iso_time hour minute second ++ [90%N])%list
               = DtAware (datetimestruct_to_ns year month day hour minute second) (py "UTC")).
  { apply to_datetime_iso.
    now rewrite (parse_iso_datetime _ _ _ _ _ _ sep [90%N] Hv Hy Ht Hsep). }
  split; [exact Hz |].
  rewrite (main_zoned_date w model ticker _ _ _ Hm H1 H2 Hz).
  split; [reflexivity |].
  split; [reflexivity | split; [reflexivity | split; [| reflexivity]]].
  rewrite exit_with_error_stderr. apply error_text_is_error_document.
Qed.

Lemma X12_utc_timestamp_is_rejected_witness :
  exit_code (main (Example.healthy 0 ["AAPL"; "2023-01-01T09:30:00Z"])) = 1
  /\ predict_calls (main (Example.healthy 0 ["AAPL"; "2023-01-01T09:30:00Z"])) = [].
Proof.
  destruct (X12_utc_timestamp_is_rejected
              (Example.healthy 0 ["AAPL"; "2023-01-01T09:30:00Z"])
              Example.stump (py "AAPL") 2023 1 1 9 30 0 84%N)
    as (_ & _ & Hc & _ & _ & Hcalls).
  - split; reflexivity.
  - reflexivity.
  - reflexivity.
  - reflexivity.
  - unfold year_in_ns_range. lia.
  - reflexivity.
  - now left.
  - split; [exact Hc | exact Hcalls].
Defined.

(** ** What the model gets to see of the ticker *)

(** X13. The model sees the ticker through its encoding only.  Two runs
    that load the same model and read the same start date, with tickers
    that may differ but have the same encoding, call the model with the
    same frame and end with the same status; when they end with status
    0, not by an uncaught exception, their output lines differ in the
    echoed ticker alone and carry the same prediction.  Such tickers
    exist: with the hash secret of
    [PYTHONHASHSEED=0], ANQ and APFZ are both encoded as 37122497. *)
Theorem X13_model_sees_only_the_encoding
    (w1 w2 : World) (model : Model) (ticker1 ticker2 start_date : PyStr) :
  model_loaded w1 model ->
  model_loaded w2 model ->
  nth_error (argv w1) 1 = Some ticker1 ->
  nth_error (argv w2) 1 = Some ticker2 ->
  nth_error (argv w1) 2 = Some start_date ->
  nth_error (argv w2) 2 = Some start_date ->
  to_datetime w1 start_date = to_datetime w2 start_date ->
  ticker_numeric w1 ticker1 = ticker_numeric w2 ticker2 ->
  predict_calls (main w1) = predict_calls (main w2)
  /\ exit_code (main w1) = exit_code (main w2)
  /\ stderr (main w1) = stderr (main w2)
  /\ (exit_code (main w1) = 0 ->
      crashes w1
      \/ exists prediction,
           stdout (main w1)
           = success_text (escape_body ticker1) (escape_body start_date) prediction
           /\ stdout (main w2)
              = success_text (escape_body ticker2) (escape_body start_date) prediction).
Proof.
  intros Hm1 Hm2 Ht1 Ht2 Hd1 Hd2 Hdt Henc. unfold crashes.
  rewrite (main_with_args w1 model ticker1 start_date Hm1 Ht1 Hd1).
  rewrite (main_with_args w2 model ticker2 start_date Hm2 Ht2 Hd2).
  unfold preprocess. cbv zeta.
  rewrite (start_date_numeric_ext w1 w2 start_date Hdt), Henc.
  destruct (start_date_numeric w2 start_date) as [[e | b] | sdn]; cbn [and_then].
  { repeat split. discriminate. }
  { repeat split. intros _. left. discriminate. }
  unfold predict_and_print.
  destruct (predict model _) as [e | b | a].
  { repeat split. discriminate. }
  { repeat split. intros _. left. discriminate. }
  cbn [predict_calls exit_code stderr stdout].
  split; [reflexivity | split; [reflexivity | split; [reflexivity |]]].
  intros _. right. exists (json_dumps (tolist a)). split; apply success_text_eq.
Qed.

Lemma X13_model_sees_only_the_encoding_witness :
  let w1 := Example.healthy 0 ["ANQ"; "2023-01-01"] in
  let w2 := Example.healthy 0 ["APFZ"; "2023-01-01"] in
  ticker_numeric w1 (py "ANQ") = 37122497
  /\ ticker_numeric w2 (py "APFZ") = 37122497
  /\ predict_calls (main w1) = predict_calls (main w2).
Proof.
  cbv zeta.
  assert (H1 : ticker_numeric (Example.healthy 0 ["ANQ"; "2023-01-01"]) (py "ANQ")
               = 37122497) by (vm_compute; reflexivity).
  assert (H2 : ticker_numeric (Example.healthy 0 ["APFZ"; "2023-01-01"]) (py "APFZ")
               = 37122497) by (vm_compute; reflexivity).
  split; [exact H1 | split; [exact H2 |]].
  apply (X13_model_sees_only_the_encoding
           (Example.healthy 0 ["ANQ"; "2023-01-01"])
           (Example.healthy 0 ["APFZ"; "2023-01-01"])
           Example.stump (py "ANQ") (py "APFZ") (py "2023-01-01")).
  - split; reflexivity.
  - split; reflexivity.
  - reflexivity.
  - reflexivity.
  - reflexivity.
  - reflexivity.
  - reflexivity.
  - now rewrite H1, H2.
Defined.

(** ** Predictions that are not numbers of JSON *)

Lemma scan_digits_or_empty (s : string) :
  s = "" \/ json_digits s -> scans_through Outside s.
Proof. intros [-> | H]; [reflexivity | now apply scan_digits]. Qed.

Lemma scan_digits_str (ds : list N) : scans_through Outside (digits_str ds).
Proof. apply scan_digits_or_empty, digits_str_or_empty. Qed.

Lemma scan_repeat_zero (n : nat) : scans_through Outside (repeat_char "0" n).
Proof. apply scan_digits_or_empty, repeat_zero_digits. Qed.

Lemma scan_dec_of_N (n : N) : scans_through Outside (dec_of_N n).
Proof. apply scan_digits, json_int_digits, dec_of_N_int. Qed.

Lemma scan_exp_str (e : Z) : scans_through Outside (exp_str e).
Proof.
  unfold exp_str. cbv zeta. apply scans_through_outside_cons.
  - now destruct (e <? 0).
  - now destruct (e <? 0).
  - destruct (Z.to_N (Z.abs e) <? 10)%N; [| apply scan_dec_of_N].
    apply scans_through_outside_cons; [reflexivity | reflexivity | apply scan_dec_of_N].
Qed.

(** The text of a finite float has nothing the scanner stops at, whatever
    its digits. *)
Lemma scan_float_repr_finite (neg : bool) (d1 : N) (ds : list N) (decpt : Z) :
  scans_through Outside (float_repr_finite neg d1 ds decpt).
Proof.
  unfold float_repr_finite. cbv zeta.
  apply scans_through_app; [now destruct neg |].
  destruct ((decpt <=? -4) || (16 <? decpt)).
  { cbn [append].
    destruct (digit_outside _ (digit_char_is_digit d1)) as [Hq Ha].
    apply scans_through_outside_cons; [exact Hq | exact Ha |].
    apply scans_through_app.
    - destruct ds as [| d ds]; [reflexivity |].
      apply scans_through_outside_cons; [reflexivity | reflexivity | apply scan_digits_str].
    - apply scans_through_outside_cons; [reflexivity | reflexivity | apply scan_exp_str]. }
  destruct (decpt <=? 0).
  { apply scans_through_app; [reflexivity |].
    apply scans_through_app; [apply scan_repeat_zero | apply scan_digits_str]. }
  destruct (decpt <? _).
  - apply scans_through_app; [apply scan_digits_str |].
    apply scans_through_outside_cons; [reflexivity | reflexivity | apply scan_digits_str].
  - apply scans_through_app; [apply scan_digits_str |].
    apply scans_through_app; [apply scan_repeat_zero | reflexivity].
Qed.

Lemma scan_stops_app (a b : string) :
  scan Outside a = None -> scan Outside (a ++ b) = None.
Proof. intros H. now rewrite scan_app, H. Qed.

Lemma scan_through_then_stops (a b : string) :
  scans_through Outside a -> scan Outside b = None -> scan Outside (a ++ b) = None.
Proof. unfold scans_through. intros Ha Hb. now rewrite scan_app, Ha. Qed.

Lemma scan_join_comma_through (parts : list string) :
  Forall (scans_through Outside) parts -> scans_through Outside (join_comma parts).
Proof.
  induction 1 as [| p r Hp Hr IH]; [reflexivity |].
  destruct r as [| q r]; [exact Hp |].
  change (join_comma (p :: q :: r)) with (p ++ ", " ++ join_comma (q :: r)).
  apply scans_through_app; [exact Hp |].
  apply scans_through_app; [reflexivity | exact IH].
Qed.

Lemma scan_join_comma_stops (parts : list string) :
  Forall (fun p => scans_through Outside p \/ scan Outside p = None) parts ->
  Exists (fun p => scan Outside p = None) parts ->
  scan Outside (join_comma parts) = None.
Proof.
  induction 1 as [| p r Hp Hr IH]; intros Hex; [inversion Hex |].
  destruct r as [| q r].
  - inversion Hex as [? ? H | ? ? H]; [exact H | inversion H].
  - change (join_comma (p :: q :: r)) with (p ++ ", " ++ join_comma (q :: r)).
    destruct Hp as [Hp | Hp]; [| now apply scan_stops_app].
    apply scan_through_then_stops; [exact Hp |].
    apply scan_through_then_stops; [reflexivity |].
    apply IH. inversion Hex as [? ? H | ? ? H]; [| exact H].
    unfold scans_through in Hp. congruence.
Qed.

(** What the scanner makes of a serialised value: it gets through when
    the value has no NaN and no infinity, and stops otherwise. *)
Lemma scan_json_dumps (v : PyVal) :
  if has_nan_or_inf v
  then scan Outside (json_dumps v) = None
  else scans_through Outside (json_dumps v).
Proof.
  induction v as [s | z | f | l IH | kvs IH] using PyVal_nested_ind.
  - apply scan_string, encode_basestring_ascii_string.
  - apply scan_number, int_repr_number.
  - destruct f as [neg d1 ds decpt | [|] |]; try reflexivity.
    apply scan_float_repr_finite.
  - cbn [has_nan_or_inf json_dumps].
    destruct (existsb has_nan_or_inf l) eqn:Hl.
    + cbn [append]. unfold scan at 1. change (char_code "[" =? 34)%N with false.
      change (allowed_outside "[") with true. cbv iota. fold scan.
      apply scan_stops_app, scan_join_comma_stops.
      * apply Forall_map. apply (Forall_impl _ (P := fun v =>
            if has_nan_or_inf v then scan Outside (json_dumps v) = None
            else scans_through Outside (json_dumps v))); [| exact IH].
        intros v Hv. destruct (has_nan_or_inf v); [now right | now left].
      * apply Exists_map. apply existsb_exists in Hl as (v & Hin & Hv).
        apply Exists_exists. exists v. split; [exact Hin |].
        rewrite Forall_forall in IH. specialize (IH v Hin). now rewrite Hv in IH.
    + apply (scan_bracketed "[" "]"); try reflexivity.
      apply scan_join_comma_through, Forall_map.
      rewrite Forall_forall in IH |- *. intros v Hin. specialize (IH v Hin).
      replace (has_nan_or_inf v) with false in IH; [exact IH |].
      symmetry. apply not_true_is_false. intros Hv.
      assert (Ht : existsb has_nan_or_inf l = true)
        by (apply existsb_exists; now exists v).
      congruence.
  - cbn [has_nan_or_inf json_dumps].
    assert (Hitem : forall k t,
               encode_basestring_ascii k ++ String ":" (String " " t)
               = (encode_basestring_ascii k ++ ": ") ++ t)
      by (intros k t; now rewrite append_assoc).
    assert (Hkey : forall k, scans_through Outside (encode_basestring_ascii k ++ ": ")).
    { intros k. apply scans_through_app; [| reflexivity].
      apply scan_string, encode_basestring_ascii_string. }
    destruct (existsb (fun kv => has_nan_or_inf (snd kv)) kvs) eqn:Hl.
    + cbn [append]. unfold scan at 1. change (char_code "{" =? 34)%N with false.
      change (allowed_outside "{") with true. cbv iota. fold scan.
      apply scan_stops_app, scan_join_comma_stops.
      * apply Forall_map. apply (Forall_impl _ (P := fun kv =>
            if has_nan_or_inf (snd kv) then scan Outside (json_dumps (snd kv)) = None
            else scans_through Outside (json_dumps (snd kv)))); [| exact IH].
        intros kv Hv. cbv beta. rewrite Hitem.
        destruct (has_nan_or_inf (snd kv)).
        -- right. now apply scan_through_then_stops.
        -- left. now apply scans_through_app.
      * apply Exists_map. apply existsb_exists in Hl as (kv & Hin & Hv).
        apply Exists_exists. exists kv. split; [exact Hin |].
        rewrite Forall_forall in IH. specialize (IH kv Hin). rewrite Hv in IH.
        rewrite Hitem. now apply scan_through_then_stops.
    + apply (scan_bracketed "{" "}"); try reflexivity.
      apply scan_join_comma_through, Forall_map.
      rewrite Forall_forall in IH |- *. intros kv Hin. specialize (IH kv Hin).
      replace (has_nan_or_inf (snd kv)) with false in IH.
      * cbv beta. rewrite <- append_assoc. now apply scans_through_app.
      * symmetry. apply not_true_is_false. intros Hv.
        assert (Ht : existsb (fun kv => has_nan_or_inf (snd kv)) kvs = true)
          by (apply existsb_exists; now exists kv).
        congruence.
Qed.

(** X14. The script prints whatever the model returns: when the
    prediction holds a NaN or an infinity, the run still ends with status
    0, the script writes nothing to stderr (which holds only what library
    calls wrote), and the line on stdout, with its bare word [NaN] or
    [Infinity], is not a JSON text.  A prediction without them never
    makes the scanner stop. *)
Theorem X14_nan_prediction_is_printed
    (w : World) (model : Model) (ticker start_date : PyStr) (df : DataFrame)
    (a : ndarray) :
  model_loaded w model ->
  nth_error (argv w) 1 = Some ticker ->
  nth_error (argv w) 2 = Some start_date ->
  preprocess w ticker start_date = Continue df ->
  predict model df = PredictReturns a ->
  exit_code (process w) = 0
  /\ stderr (process w) = library_stderr w
  /\ stdout (process w)
     = success_text (escape_body ticker) (escape_body start_date) (json_dumps (tolist a))
  /\ (has_nan_or_inf (tolist a) = true -> ~ json_document (stdout (process w)))
  /\ (has_nan_or_inf (tolist a) = false -> scans_through Outside (stdout (process w))).
Proof.
  intros Hm H1 H2 Hp Ha. unfold process. cbn [exit_code stderr stdout].
  rewrite (main_with_frame w model ticker start_date df Hm H1 H2 Hp).
  unfold predict_and_print. rewrite Ha. cbn [exit_code stderr stdout].
  split; [reflexivity | split; [apply append_nil_r | split; [apply success_text_eq |]]].
  pose proof (scan_json_dumps
                (VDict [ (py "ticker", VStr ticker);
                         (py "start_date", VStr start_date);
                         (py "prediction", tolist a) ])) as Hscan.
  cbn [has_nan_or_inf existsb snd orb] in Hscan.
  rewrite orb_false_r in Hscan. unfold py_print.
  split; intros Hnan; rewrite Hnan in Hscan.
  - apply not_json_by_scan. rewrite (scan_stops_app _ _ Hscan). discriminate.
  - apply scans_through_app; [exact Hscan | reflexivity].
Qed.

Lemma X14_nan_prediction_is_printed_witness :
  let w := Example.day_first Example.nan_model in
  exit_code (process w) = 0
  /\ stderr (process w) = Example.day_first_warning
  /\ ~ json_document (stdout (process w)).
Proof.
  cbv zeta.
  destruct (X14_nan_prediction_is_printed
              (Example.day_first Example.nan_model)
              Example.nan_model (py "AAPL") (py "13/01/2023")
              (DataFrame_of_records
                 [features
                    (ticker_numeric (Example.day_first Example.nan_model) (py "AAPL"))
                    (VInt 19370)])
              (Nd1 [NumFloat FNaN]))
    as (Hc & He & _ & Hnot & _).
  - split; reflexivity.
  - reflexivity.
  - reflexivity.
  - reflexivity.
  - reflexivity.
  - split; [exact Hc | split; [rewrite He; reflexivity | now apply Hnot]].
Defined.

(** ** What is read of the command line *)

(** X15. Of the arguments on the command line the script reads the first
    two and nothing else: once two arguments are given, any further
    argument changes nothing to what the run writes, to its exit status
    or to the call it makes to the model. *)
Theorem X15_only_two_arguments_are_read (w : World) (more : list PyStr) :
  (3 <= List.length (argv w))%nat ->
  main (with_more_args w more) = main w
  /\ process (with_more_args w more) = process w.
Proof.
  intros Hlen.
  assert (H1 : nth_error (argv w ++ more) 1 = nth_error (argv w) 1)
    by (apply nth_error_app1; lia).
  assert (H2 : nth_error (argv w ++ more) 2 = nth_error (argv w) 2)
    by (apply nth_error_app1; lia).
  assert (Hargs : read_args (with_more_args w more) = read_args w).
  { unfold read_args. cbn [argv with_more_args]. now rewrite H1, H2. }
  assert (Hmain : main (with_more_args w more) = main w).
  { unfold main. rewrite Hargs. reflexivity. }
  split; [exact Hmain |].
  unfold process. rewrite Hmain. f_equal.
  unfold library_stderr. rewrite Hargs. reflexivity.
Qed.

Lemma X15_only_two_arguments_are_read_witness :
  main (with_more_args (Example.healthy 0 ["AAPL"; "2023-01-01"])
          (List.map py ["--verbose"; "2024-01-01"]))
  = main (Example.healthy 0 ["AAPL"; "2023-01-01"]).
Proof.
  apply (X15_only_two_arguments_are_read
           (Example.healthy 0 ["AAPL"; "2023-01-01"])
           (List.map py ["--verbose"; "2024-01-01"])).
  simpl. lia.
Defined.
